(** * Smart Waste dashboards (BigData/app.py and BigData/app2.py)

    A shallow embedding of the telemetry generators and of the
    intelligence layer (snapshot, clustering labels, route planning,
    linear-trend forecast) of the two Streamlit applications, together
    with the properties their specification states about them.

    Conventions of the embedding:
    - a naive [datetime] is the number of microseconds elapsed since
      0001-01-01T00:00:00 (ordinal day 1, a Monday), so that [timedelta]
      arithmetic is integer arithmetic;
    - Python floats are embedded as exact rationals ([Qc]): the bounds and
      the orders proved below do not depend on rounding, and the forecast
      is the least-squares line of exact arithmetic;
    - the ambient pseudo-random generators ([numpy.random], [random]) are
      library code: they are an interface ([RandomSource]) whose state is
      threaded explicitly through the generators, in the order in which the
      source draws from them;
    - [KMeans.fit_predict] is library code as well: the column of cluster
      ids it returns is an input of the labelling functions;
    - [st.cache_data] is library code too: the cache of the process is a
      state, empty when the process starts, that the cached entry points
      read and fill. *)

From stdpp Require Import base decidable numbers list sorting strings gmap.
From Stdlib Require Import ZArith QArith Qcanon Lia.

Local Open Scope Z_scope.

(** ** Naive datetimes *)

Module Datetime.

Definition datetime := Z.

Definition HOUR : Z := 3600000000.
Definition DAY : Z := 24 * HOUR.

(** [timedelta(days=d)] and [timedelta(hours=h)] *)
Definition timedelta_days (d : Z) : Z := d * DAY.
Definition timedelta_hours (h : Z) : Z := h * HOUR.

(** [t.hour] *)
Definition hour (t : datetime) : Z := (t / HOUR) mod 24.

(** [t.weekday()]: Monday is 0, Sunday is 6 *)
Definition weekday (t : datetime) : Z := (t / DAY) mod 7.

(** [t.date()], as a day number *)
Definition date (t : datetime) : Z := t / DAY.

End Datetime.

(** ** Numbers *)

(** A decimal literal [n/d] of the source, as a rational. *)
Definition dec (n : Z) (d : positive) : Qc := Q2Qc (n # d).

(** [int(x)]: truncation toward zero. *)
Definition int (x : Qc) : Z := Z.quot (Qnum (this x)) (Zpos (Qden (this x))).

(** Rounding of a rational to the nearest integer, halves to even. *)
Definition round_half_even (x : Qc) : Z :=
  let n := Qnum (this x) in
  let d := Zpos (Qden (this x)) in
  let q := n / d in
  let r := 2 * (n mod d) in
  if r <? d then q
  else if d <? r then q + 1
  else if Z.even q then q else q + 1.

(** [round(x, 2)].  The source rounds a binary float, the model the exact
    rational: on a value that is an exact tie as a rational and whose float
    is not, the two results are 0.01 apart. *)
Definition round2 (x : Qc) : Qc :=
  (Qc_of_Z (round_half_even (x * Qc_of_Z 100)) / Qc_of_Z 100)%Qc.

(** ** The ambient random source *)

(** The three kinds of draw the applications make.  The laws are the
    documented ranges of the library functions. *)
Class RandomSource (G : Type) := {
  rand_range : Z → Z → G → Z * G;
  rand_real : Qc → Qc → G → Qc * G;
  rand_index : nat → G → nat * G;
  rand_range_spec lo hi g : lo < hi → lo ≤ (rand_range lo hi g).1 < hi;
  rand_real_spec lo hi g :
    (lo ≤ hi)%Qc → (lo ≤ (rand_real lo hi g).1)%Qc ∧ ((rand_real lo hi g).1 ≤ hi)%Qc;
  rand_index_spec n g : (0 < n)%nat → ((rand_index n g).1 < n)%nat
}.

Section Draws.
Context {G : Type} `{!RandomSource G}.

(** [np.random.randint(low, high)]: an integer of [low, high) *)
Definition np_randint (low high : Z) (g : G) : Z * G := rand_range low high g.

(** [np.random.uniform(low, high)] *)
Definition np_uniform (low high : Qc) (g : G) : Qc * G := rand_real low high g.

(** [random.randint(a, b)]: an alias of [randrange(a, b+1)] *)
Definition py_randint (a b : Z) (g : G) : Z * G := rand_range a (b + 1) g.

(** [random.uniform(a, b)] *)
Definition py_uniform (a b : Qc) (g : G) : Qc * G := rand_real a b g.

(** [np.random.choice(xs, p=...)] and [random.choice(xs)]: one element of
    [xs]; [d] stands for the error raised on an empty sequence. *)
Definition choice {A} (d : A) (xs : list A) (g : G) : A * G :=
  let '(i, g) := rand_index (length xs) g in (nth i xs d, g).
End Draws.

(** A concrete source, used to run the generators: a linear congruential
    generator whose state is the last raw value. *)
Definition lcg_next (s : Z) : Z := (1103515245 * s + 12345) mod 2147483648.

Definition lcg_range (lo hi : Z) (s : Z) : Z * Z :=
  let s' := lcg_next s in
  (if lo <? hi then lo + (s' / 65536) mod (hi - lo) else lo, s').

Definition lcg_real (lo hi : Qc) (s : Z) : Qc * Z :=
  let s' := lcg_next s in
  ((lo + (hi - lo) * dec ((s' / 65536) mod 1000) 1000)%Qc, s').

Definition lcg_index (n : nat) (s : Z) : nat * Z :=
  let s' := lcg_next s in
  (Z.to_nat ((s' / 65536) mod Z.of_nat n), s').

(** ** The two loops of the generators *)

Section Loops.
Context {G L R : Type}.

(** [for x in xs: data.append(read(x))], threading the random source *)
Fixpoint for_each (read : L → G → R * G) (xs : list L) (g : G) : list R * G :=
  match xs with
  | [] => ([], g)
  | x :: xs' =>
      let '(r, g) := read x g in
      let '(rs, g) := for_each read xs' g in
      (r :: rs, g)
  end.

(** [while current_time <= end_date: body; current_time += timedelta(hours=1)],
    run for at most [fuel] iterations. *)
Fixpoint hourly (body : Z → G → list R * G) (fuel : nat)
    (current_time end_date : Z) (g : G) : list R * G :=
  match fuel with
  | O => ([], g)
  | S fuel' =>
      if decide (current_time ≤ end_date) then
        let '(rs, g) := body current_time g in
        let '(rest, g) :=
          hourly body fuel' (current_time + Datetime.timedelta_hours 1) end_date g in
        (rs ++ rest, g)
      else ([], g)
  end.
End Loops.

(** ** The cache of the entry points *)

Section Cache.
Context {G A : Type}.


End Cache.

(** ** Tables *)

(** The operations of the tabular library the applications rely on, over
    lists of rows. *)
Section Frame.
Context {A : Type}.

(** [df[col].max()] over a column of integers; [None] on no rows. *)
Definition column_max (col : A → Z) (rows : list A) : option Z :=
  match rows with
  | [] => None
  | r :: rows' => Some (foldl (λ m r', Z.max m (col r')) (col r) rows')
  end.

(** [df[df[col] == v]] *)
Definition rows_where_eq (col : A → Z) (v : Z) (rows : list A) : list A :=
  filter (λ r, col r = v) rows.

(** [df[df[col] > v]] *)
Definition rows_where_gt (col : A → Z) (v : Z) (rows : list A) : list A :=
  filter (λ r, v < col r) rows.

(** The snapshot: [df[df['timestamp'] == df['timestamp'].max()]].  A frame
    built from no records has no column at all and the lookup of
    ['timestamp'] fails: [None]. *)
Definition latest (ts : A → Z) (rows : list A) : option (list A) :=
  m ← column_max ts rows; Some (rows_where_eq ts m rows).

(** Stable insertion sort: [before x y] tells that [x] may stand before
    [y]; rows that compare equal keep their input order.  [sort_values]
    sorts with the default quicksort of the array library, which leaves the
    order among equal keys unspecified: among rows that compare equal the
    order of the model is one of the orders the source may give. *)
Fixpoint insert_sorted (before : A → A → bool) (x : A) (l : list A) : list A :=
  match l with
  | [] => [x]
  | y :: l' => if before x y then x :: y :: l' else y :: insert_sorted before x l'
  end.

Definition sort_rows (before : A → A → bool) (l : list A) : list A :=
  foldr (insert_sorted before) [] l.
End Frame.

(** [groupby(key)] followed by an aggregation: one entry per distinct key,
    keys ascending, each with the aggregate of the values of its rows taken
    in row order. *)
Definition group_keys (ks : list Z) : list Z := merge_sort Z.le (remove_dups ks).

Definition group_values {V} (k : Z) (kvs : list (Z * V)) : list V :=
  (filter (λ kv, kv.1 = k) kvs).*2.

Definition groupby {V W} (agg : list V → W) (kvs : list (Z * V)) : list (Z * W) :=
  (λ k, (k, agg (group_values k kvs))) <$> group_keys kvs.*1.

Definition Qc_sum (l : list Qc) : Qc := foldl Qcplus (Q2Qc 0) l.

(** [.sum()] and [.mean()] of a group *)
Definition Z_sum (l : list Z) : Z := foldl Z.add 0 l.
Definition Z_mean (l : list Z) : Qc :=
  (Qc_of_Z (Z_sum l) / Qc_of_Z (Z.of_nat (length l)))%Qc.

(** ** Ordinary least squares of degree one *)

(** [np.polyfit(x, y, 1)] and [LinearRegression().fit(X, y)]: the slope and
    the intercept of the least-squares line, by the normal equations.
    [None] when the abscissas do not determine a line. *)
Definition least_squares (xs ys : list Qc) : option (Qc * Qc) :=
  let n := Qc_of_Z (Z.of_nat (length xs)) in
  let sx := Qc_sum xs in
  let sy := Qc_sum ys in
  let sxx := Qc_sum (zip_with Qcmult xs xs) in
  let sxy := Qc_sum (zip_with Qcmult xs ys) in
  let den := (n * sxx - sx * sx)%Qc in
  if decide (den = Q2Qc 0) then None
  else
    let slope := ((n * sxy - sx * sy) / den)%Qc in
    Some (slope, ((sy - slope * sx) / n)%Qc).

(** The sum of squared residuals of the line [a*x + b]. *)
Definition squared_error (a b : Qc) (xs ys : list Qc) : Qc :=
  Qc_sum (zip_with (λ x y, let e := (y - (a * x + b))%Qc in (e * e)%Qc) xs ys).

(** ** Shared enumerations *)

Inductive Lid := Tutup | Buka.
Inductive Odor := Normal | Menyengat.
Inductive Priority := HighPriority | MediumPriority | LowPriority.

Global Instance Lid_eq_dec : EqDecision Lid.
Proof. solve_decision. Defined.
Global Instance Odor_eq_dec : EqDecision Odor.
Proof. solve_decision. Defined.
Global Instance Priority_eq_dec : EqDecision Priority.
Proof. solve_decision. Defined.

(** What a page shows for the route: the standby notice, or the ordered
    pickups with the coordinates of the path to drive. *)
Inductive RouteView (R : Type) :=
  | Standby
  | Route (pickups : list R) (route_coords : list (Qc * Qc)).
Global Arguments Standby {R}.
Global Arguments Route {R} pickups route_coords.

(** ** app.py *)

Module App.
Import Datetime.

Record Location := {
  loc_id : string;
  loc_nama : string;
  loc_lat : Qc;
  loc_lon : Qc;
  loc_type : string;
  loc_multiplier : Qc
}.

Definition mkloc (i n : string) (la lo : Z) (t : string) (m : Z) : Location :=
  {| loc_id := i; loc_nama := n; loc_lat := dec la 10000; loc_lon := dec lo 10000;
     loc_type := t; loc_multiplier := dec m 10 |}.

Definition LOCATIONS : list Location := [
  mkloc "TPS-01" "Ampenan Selatan" (-85724) 1160710 "Residential" 8;
  mkloc "TPS-02" "Taman Sari" (-85680) 1160850 "Residential" 9;
  mkloc "TPS-03" "Pejeruk" (-85750) 1160800 "Residential" 10;
  mkloc "TPS-04" "Kebun Sari" (-85800) 1160880 "Business" 12;
  mkloc "TPS-05" "Pagutan" (-86000) 1161050 "Residential" 11;
  mkloc "TPS-06" "Pagesangan" (-86100) 1161100 "Business" 13;
  mkloc "TPS-07" "Mataram Timur" (-85830) 1161200 "Residential" 10;
  mkloc "TPS-08" "Selagalas" (-85750) 1161400 "Residential" 9;
  mkloc "TPS-09" "Cakranegara" (-85900) 1161300 "Market" 18;
  mkloc "TPS-10" "Bertais" (-85950) 1161500 "Market" 19;
  mkloc "TPS-11" "Sayang-Sayang" (-85600) 1161300 "Residential" 8;
  mkloc "TPS-12" "Rembiga" (-85550) 1161100 "Residential" 9;
  mkloc "TPS-13" "Dasan Agung" (-85850) 1161000 "Density" 14;
  mkloc "TPS-14" "Gomong" (-85900) 1160950 "Education" 12;
  mkloc "TPS-15" "Kekalik" (-85980) 1160900 "Education" 13
].

(** [TPA_LOCATION], as the [lon, lat] pair appended to the route *)
Definition TPA_LOCATION : Qc * Qc := (dec 1161300 10000, dec (-86400) 10000).

Record Reading := {
  timestamp : datetime;
  id_tps : string;
  nama_lokasi : string;
  latitude : Qc;
  longitude : Qc;
  type : string;
  level_kepenuhan : Z;
  berat_kg : Qc;
  status_tutup : Lid;
  status_bau : Odor
}.

Definition time_factor (hour : Z) : Z :=
  if (6 <=? hour) && (hour <? 12) then 5
  else if (12 <=? hour) && (hour <? 17) then 10
  else if (17 <=? hour) && (hour <=? 21) then 25
  else 0.

Definition weekend_factor (is_weekend : bool) : Qc :=
  if is_weekend then dec 12 10 else dec 10 10.

Section Generator.
Context {G : Type} `{!RandomSource G}.

(** The body of [for loc in LOCATIONS]: one reading, and the state of the
    random source after the draws it took. *)
Definition read_sensor (current_time end_date : datetime) (loc : Location) (g : G)
    : Reading * G :=
  let hour := hour current_time in
  let is_weekend := bool_decide (5 ≤ weekday current_time) in
  let '(noise, g) := np_randint (-5) 10 g in
  let '(base_fill, g) :=
    if decide (hour = 5) then
      let '(b, g) := np_randint 0 10 g in (Qc_of_Z b, g)
    else
      ((Qc_of_Z (hour * 2) * loc_multiplier loc * weekend_factor is_weekend
        + Qc_of_Z (time_factor hour) + Qc_of_Z noise)%Qc, g) in
  let '(base_fill, g) :=
    if decide (current_time = end_date) then
      if decide (dec 15 10 < loc_multiplier loc)%Qc then
        let '(b, g) := np_randint 80 100 g in (Qc_of_Z b, g)
      else if decide (dec 11 10 < loc_multiplier loc)%Qc then
        let '(b, g) := np_randint 50 79 g in (Qc_of_Z b, g)
      else
        let '(b, g) := np_randint 10 49 g in (Qc_of_Z b, g)
    else (base_fill, g) in
  let level_kepenuhan := Z.max 0 (Z.min (int base_fill) 100) in
  let '(jitter, g) := np_uniform (dec 9 10) (dec 12 10) g in
  let berat_kg := (Qc_of_Z level_kepenuhan * dec 25 10 * jitter)%Qc in
  let '(status_tutup, g) :=
    if decide (85 < level_kepenuhan) then (Buka, g)
    else choice Tutup [Tutup; Buka] g in
  let status_bau :=
    if decide (status_tutup = Buka ∧ 70 < level_kepenuhan) then Menyengat else Normal in
  ({| timestamp := current_time;
      id_tps := loc_id loc;
      nama_lokasi := loc_nama loc;
      latitude := loc_lat loc;
      longitude := loc_lon loc;
      type := loc_type loc;
      level_kepenuhan := level_kepenuhan;
      berat_kg := round2 berat_kg;
      status_tutup := status_tutup;
      status_bau := status_bau |}, g).

(** [generate_data()] over a table of locations, with [now] the reading
    of the clock.  The window is seven days, so the loop body runs 169
    times; the fuel is one more than that. *)
Definition generate_from (locs : list Location) (now : datetime) (g : G)
    : list Reading * G :=
  let end_date := now in
  let start_date := end_date - timedelta_days 7 in
  hourly (λ current_time, for_each (read_sensor current_time end_date) locs)
         170 start_date end_date g.

(** The body of [generate_data], as it runs on a miss of the cache. *)
Definition generate_data (now : datetime) (g : G) : list Reading * G :=
  generate_from LOCATIONS now g.

End Generator.

(** *** Processing layer *)

(** [df_latest] *)
Definition df_latest (df_raw : list Reading) : option (list Reading) :=
  latest timestamp df_raw.

Inductive Color := Merah | Kuning | Hijau.

Definition get_status_color (level : Z) : Color :=
  if decide (75 < level) then Merah
  else if decide (50 < level) then Kuning
  else Hijau.

(** The value of a cell of the [priority_status] column. *)
Inductive Status := Labelled (p : Priority) | Unknown | NaN.

(** [cluster_avg]: the mean level of each cluster, highest first. *)
Definition cluster_avg (levels : list Z) (cluster : list Z) : list (Z * Qc) :=
  sort_rows (λ x y, bool_decide (y.2 ≤ x.2)%Qc)
            (groupby Z_mean (zip cluster levels)).

(** [priority_map]; [None] stands for the [IndexError] raised when the
    clustering left fewer than three clusters. *)
Definition priority_map (avg : list (Z * Qc)) : option (gmap Z Priority) :=
  match avg.*1 with
  | c0 :: c1 :: c2 :: _ =>
      Some (<[c2 := LowPriority]> (<[c1 := MediumPriority]> (<[c0 := HighPriority]> ∅)))
  | _ => None
  end.

(** The [priority_status] column, given the column [fit_predict] computes
    when it is called.  [None]: the section raised. *)
Definition priority_status (fit_predict : list (Z * Qc) → list Z)
    (latest : list Reading) : option (list Status) :=
  if decide (3 < length latest)%nat then
    let X := (λ r, (level_kepenuhan r, berat_kg r)) <$> latest in
    let cluster := fit_predict X in
    pm ← priority_map (cluster_avg (level_kepenuhan <$> latest) cluster);
    Some ((λ c, match pm !! c with Some p => Labelled p | None => NaN end) <$> cluster)
  else Some (replicate (length latest) Unknown).

(** [pickup_list] *)
Definition pickup_list (latest : list Reading) : list Reading :=
  sort_rows (λ x y, bool_decide (level_kepenuhan y ≤ level_kepenuhan x))
            (rows_where_gt level_kepenuhan 75 latest).

(** The route page. *)
Definition route_page (latest : list Reading) : RouteView Reading :=
  let pickups := pickup_list latest in
  match pickups with
  | [] => Standby
  | _ => Route pickups (((λ r, (longitude r, latitude r)) <$> pickups) ++ [TPA_LOCATION])
  end.

(** [daily_df]: the total weight of each calendar day, days ascending. *)
Definition daily_df (df_raw : list Reading) : list (Z * Qc) :=
  groupby Qc_sum ((λ r, (date (timestamp r), berat_kg r)) <$> df_raw).

Record Forecast := {
  slope : Qc;
  intercept : Qc;
  prediction_val : Qc;
  delta : Qc
}.

(** The prediction tab; [None] when no line is determined or there is no
    day at all. *)
Definition predict (df_raw : list Reading) : option Forecast :=
  let y := (daily_df df_raw).*2 in
  let x := (λ i, Qc_of_Z (Z.of_nat i)) <$> seq 0 (length y) in
  '(m, c) ← least_squares x y;
  y_last ← last y;
  let next_day_index := Qc_of_Z (Z.of_nat (length y)) in
  let p := (m * next_day_index + c)%Qc in
  Some {| slope := m; intercept := c; prediction_val := p; delta := (p - y_last)%Qc |}.

End App.

(** ** app2.py *)

Module App2.
Import Datetime.

Record Location := {
  loc_id : string;
  loc_nama : string;
  loc_lat : Qc;
  loc_lon : Qc;
  base_load : Z
}.

Definition mkloc (i n : string) (la lo : Z) (b : Z) : Location :=
  {| loc_id := i; loc_nama := n; loc_lat := dec la 1000; loc_lon := dec lo 1000;
     base_load := b |}.

Definition tps_locations : list Location := [
  mkloc "TPS-01" "Kec. Ampenan - Pasar" (-8575) 116080 80;
  mkloc "TPS-02" "Kec. Ampenan - Pemukiman" (-8578) 116085 40;
  mkloc "TPS-03" "Kec. Sekarbela - Pesisir" (-8595) 116082 50;
  mkloc "TPS-04" "Kec. Sekarbela - Kampus" (-8592) 116090 60;
  mkloc "TPS-05" "Kec. Mataram - Perkantoran" (-8583) 116102 45;
  mkloc "TPS-06" "Kec. Mataram - Sekolah" (-8585) 116105 55;
  mkloc "TPS-07" "Kec. Mataram - Taman Udayana" (-8570) 116100 70;
  mkloc "TPS-08" "Kec. Selaparang - Rembiga" (-8565) 116110 50;
  mkloc "TPS-09" "Kec. Selaparang - Bandara Lama" (-8562) 116105 30;
  mkloc "TPS-10" "Kec. Cakranegara - Bisnis A" (-8590) 116120 85;
  mkloc "TPS-11" "Kec. Cakranegara - Mall" (-8592) 116125 90;
  mkloc "TPS-12" "Kec. Cakranegara - Pasar Induk" (-8588) 116130 95;
  mkloc "TPS-13" "Kec. Cakranegara - Hotel" (-8595) 116122 65;
  mkloc "TPS-14" "Kec. Sandubaya - Terminal" (-8600) 116135 75;
  mkloc "TPS-15" "Kec. Sandubaya - Bertais" (-8598) 116140 80;
  mkloc "TPS-16" "Kel. Pagutan - Perumahan" (-8605) 116100 55;
  mkloc "TPS-17" "Kel. Pagutan - Pasar" (-8608) 116102 70;
  mkloc "TPS-18" "Dasam Agung - Padat Penduduk" (-8580) 116110 85;
  mkloc "TPS-19" "Gomong - Mahasiswa" (-8582) 116095 60;
  mkloc "TPS-20" "Sayang-Sayang - Kuliner" (-8560) 116120 75
].

(** [tpa_coords] *)
Definition tpa_coords : Qc * Qc := (dec 11615 100, dec (-865) 100).

Record Reading := {
  timestamp : datetime;
  id_tps : string;
  nama_lokasi : string;
  latitude : Qc;
  longitude : Qc;
  level_kepenuhan : Z;
  berat_kg : Qc;
  status_tutup : Lid;
  status_bau : Odor
}.

Definition time_factor (hour_of_day : Z) : Qc :=
  if (0 <=? hour_of_day) && (hour_of_day <? 6) then dec 3 10
  else if (17 <=? hour_of_day) && (hour_of_day <=? 20) then dec 15 10
  else dec 8 10.

Definition Qc_max (x y : Qc) : Qc := if decide (x < y)%Qc then y else x.

Section Generator.
Context {G : Type} `{!RandomSource G}.

(** The body of [for tps in self.tps_locations]. *)
Definition read_sensor (current_time : datetime) (tps : Location) (g : G)
    : Reading * G :=
  let hour_of_day := hour current_time in
  let '(noise, g) := py_uniform (Qc_of_Z (-10)) (Qc_of_Z 20) g in
  let level := int (Qc_of_Z (base_load tps) * time_factor hour_of_day + noise)%Qc in
  let '(level, g) :=
    if decide (hour_of_day = 5) then py_randint 0 10 g else (level, g) in
  let level := Z.max 0 (Z.min 100 level) in
  let '(jitter, g) := py_uniform (Qc_of_Z (-5)) (Qc_of_Z 5) g in
  let berat_kg := (Qc_of_Z (level * 5) + jitter)%Qc in
  let berat_kg := Qc_max (Qc_of_Z 0) (round2 berat_kg) in
  let '(status_tutup, g) :=
    if decide (85 < level) then (Buka, g)
    else choice Tutup [Tutup; Tutup; Tutup; Buka] g in
  let status_bau :=
    if decide (status_tutup = Buka ∧ 70 < level) then Menyengat else Normal in
  ({| timestamp := current_time;
      id_tps := loc_id tps;
      nama_lokasi := loc_nama tps;
      latitude := loc_lat tps;
      longitude := loc_lon tps;
      level_kepenuhan := level;
      berat_kg := berat_kg;
      status_tutup := status_tutup;
      status_bau := status_bau |}, g).

(** [WasteDataGenerator.generate_data(days)] over a table of locations.
    The loop body runs [24*days + 1] times when [days] is not negative
    and never otherwise; the fuel is one more than that. *)
Definition generate_from (locs : list Location) (days : Z) (now : datetime) (g : G)
    : list Reading * G :=
  let end_date := now in
  let start_date := end_date - timedelta_days days in
  hourly (λ current_time, for_each (read_sensor current_time) locs)
         (Z.to_nat (24 * days + 2)) start_date end_date g.

Definition generate_data (days : Z) (now : datetime) (g : G) : list Reading * G :=
  generate_from tps_locations days now g.

End Generator.

(** *** SmartAnalytics *)

(** [df_latest], as every page computes it *)
Definition df_latest (df : list Reading) : option (list Reading) :=
  latest timestamp df.

(** [optimize_route]: the critical rows by level, then weight, both
    descending. *)
Definition route_before (x y : Reading) : bool :=
  bool_decide (level_kepenuhan y < level_kepenuhan x
               ∨ (level_kepenuhan y = level_kepenuhan x ∧ (berat_kg y ≤ berat_kg x)%Qc)).

Definition optimize_route (current_data : list Reading) : list Reading :=
  sort_rows route_before (rows_where_gt level_kepenuhan 75 current_data).

(** The route page: the path is built only when the plan is not empty. *)
Definition render_routing_page (latest : list Reading) : RouteView Reading :=
  let route_plan := optimize_route latest in
  match route_plan with
  | [] => Standby
  | _ => Route route_plan (((λ r, (longitude r, latitude r)) <$> route_plan) ++ [tpa_coords])
  end.

(** The frame [perform_clustering] returns: the one it was given, or that one
    with the columns [cluster_id] and [cluster_label] added. *)
Inductive Clustered :=
  | Unchanged (rows : list Reading)
  | WithLabels (rows : list Reading) (cluster_id : list Z)
               (cluster_label : list (option Priority)).

Definition labels : list Priority := [LowPriority; MediumPriority; HighPriority].

(** [cluster_means]: the mean level of each cluster, lowest first. *)
Definition cluster_means (levels : list Z) (cluster_id : list Z) : list (Z * Qc) :=
  sort_rows (λ x y, bool_decide (x.2 ≤ y.2)%Qc)
            (groupby Z_mean (zip cluster_id levels)).

(** [for i, cluster_id in enumerate(...): mapping[cluster_id] = labels[i]];
    [None] stands for the [IndexError] of [labels[i]]. *)
Fixpoint build_mapping (i : nat) (index : list Z) (mapping : gmap Z Priority)
    : option (gmap Z Priority) :=
  match index with
  | [] => Some mapping
  | cluster_id :: index' =>
      l ← labels !! i; build_mapping (S i) index' (<[cluster_id := l]> mapping)
  end.

(** [perform_clustering], given the column of cluster ids that scaling
    followed by [fit_predict] computes from the two features. *)
Definition perform_clustering (fit_predict : list (Z * Qc) → list Z)
    (latest : list Reading) : option Clustered :=
  if decide (length latest < 3)%nat then Some (Unchanged latest)
  else
    let features := (λ r, (level_kepenuhan r, berat_kg r)) <$> latest in
    let cluster_id := fit_predict features in
    mapping ← build_mapping 0 (cluster_means (level_kepenuhan <$> latest) cluster_id).*1 ∅;
    Some (WithLabels latest cluster_id ((λ c, mapping !! c) <$> cluster_id)).

(** [df_daily] *)
Definition df_daily (df_history : list Reading) : list (Z * Qc) :=
  groupby Qc_sum ((λ r, (date (timestamp r), berat_kg r)) <$> df_history).

Record Forecast := {
  coef : Qc;
  intercept : Qc;
  prediction : Qc;
  delta : Qc
}.

(** [LinearRegression().fit(X, y)]: the line of least squares; where the
    day numbers determine no line (one day only) the slope is 0 and the
    intercept the mean of [y]; no day at all is an error, [None]. *)
Definition linear_regression (X y : list Qc) : option (Qc * Qc) :=
  match least_squares X y with
  | Some mc => Some mc
  | None =>
      match y with
      | [] => None
      | _ :: _ => Some (Q2Qc 0, (Qc_sum y / Qc_of_Z (Z.of_nat (length y)))%Qc)
      end
  end.

(** [predict_waste_generation] and the delta its caller displays. *)
Definition predict_waste_generation (df_history : list Reading) : option Forecast :=
  let y := (df_daily df_history).*2 in
  let X := (λ i, Qc_of_Z (Z.of_nat i)) <$> seq 0 (length y) in
  '(m, c) ← linear_regression X y;
  y_last ← last y;
  let next_day_index := Qc_of_Z (Z.of_nat (length y)) in
  let p := (m * next_day_index + c)%Qc in
  Some {| coef := m; intercept := c; prediction := p; delta := (p - y_last)%Qc |}.

End App2.

(** ** Data for the examples *)

(** A reading of the clock at half past five in the morning, and one in
    the early afternoon. *)
Definition clock_0530 : Z :=
  738000 * Datetime.DAY + 5 * Datetime.HOUR + 1800000000.
Definition clock_1315 : Z :=
  738000 * Datetime.DAY + 13 * Datetime.HOUR + 900000000.

(** The order of app2.py: a higher level first, and among equal levels a
    weight at least as large first. *)
Definition App2_level_then_weight (a b : App2.Reading) : Prop :=
  App2.level_kepenuhan b < App2.level_kepenuhan a
  ∨ (App2.level_kepenuhan b = App2.level_kepenuhan a
     ∧ (App2.berat_kg b ≤ App2.berat_kg a)%Qc).

(** Rows for examples: a reading of app.py and one of app2.py, at the clock
    reading of the early afternoon, with the given level and weight (in
    hundredths of a kilogram). *)
Definition App_row (loc : App.Location) (level : Z) (centi_kg : Z) : App.Reading :=
  {| App.timestamp := clock_1315;
     App.id_tps := App.loc_id loc; App.nama_lokasi := App.loc_nama loc;
     App.latitude := App.loc_lat loc; App.longitude := App.loc_lon loc;
     App.type := App.loc_type loc;
     App.level_kepenuhan := level; App.berat_kg := dec centi_kg 100;
     App.status_tutup := if decide (85 < level) then Buka else Tutup;
     App.status_bau := if decide (85 < level) then Menyengat else Normal |}.

Definition App2_row (loc : App2.Location) (level : Z) (centi_kg : Z) : App2.Reading :=
  {| App2.timestamp := clock_1315;
     App2.id_tps := App2.loc_id loc; App2.nama_lokasi := App2.loc_nama loc;
     App2.latitude := App2.loc_lat loc; App2.longitude := App2.loc_lon loc;
     App2.level_kepenuhan := level; App2.berat_kg := dec centi_kg 100;
     App2.status_tutup := if decide (85 < level) then Buka else Tutup;
     App2.status_bau := if decide (85 < level) then Menyengat else Normal |}.

(** The [i]-th station of each table. *)
Definition App_loc (i : nat) : App.Location :=
  nth i App.LOCATIONS (App.mkloc "" "" 0 0 "" 0).
Definition App2_loc (i : nat) : App2.Location :=
  nth i App2.tps_locations (App2.mkloc "" "" 0 0 0).

(** Three stations, none of them above the level 75. *)
Definition App_calm : list App.Reading :=
  [App_row (App_loc 0) 40 9500; App_row (App_loc 3) 75 20000; App_row (App_loc 9) 60 14000].
Definition App2_calm : list App2.Reading :=
  [App2_row (App2_loc 0) 40 20000; App2_row (App2_loc 3) 75 37500; App2_row (App2_loc 9) 60 30100].

(** Two market stations at the same level, the lighter one first in the
    snapshot. *)
Definition App_tie : list App.Reading :=
  [App_row (App_loc 8) 90 21000; App_row (App_loc 9) 90 25000].

(** Three urgent stations and a calm one; two of the urgent ones tie on the
    level. *)
Definition App_busy : list App.Reading :=
  [App_row (App_loc 0) 40 9500; App_row (App_loc 8) 90 21000;
   App_row (App_loc 9) 95 25000; App_row (App_loc 3) 76 20000;
   App_row (App_loc 12) 90 24000].
Definition App2_busy : list App2.Reading :=
  [App2_row (App2_loc 0) 40 20000; App2_row (App2_loc 9) 90 44800;
   App2_row (App2_loc 10) 95 47500; App2_row (App2_loc 3) 76 38000;
   App2_row (App2_loc 11) 90 45200].

(** The daily totals of the forecast example and the indices of their
    days. *)
Definition three_totals : list Qc := [Qc_of_Z 1000; Qc_of_Z 1100; Qc_of_Z 1200].
Definition three_days : list Qc := (λ i, Qc_of_Z (Z.of_nat i)) <$> seq 0 3.

(** A history of three calendar days, with two readings on the first and on
    the third day. *)
Definition App_three_day_history : list App.Reading :=
  let at_day (d : Z) (r : App.Reading) : App.Reading :=
    {| App.timestamp := clock_1315 + d * Datetime.DAY;
       App.id_tps := App.id_tps r; App.nama_lokasi := App.nama_lokasi r;
       App.latitude := App.latitude r; App.longitude := App.longitude r;
       App.type := App.type r; App.level_kepenuhan := App.level_kepenuhan r;
       App.berat_kg := App.berat_kg r; App.status_tutup := App.status_tutup r;
       App.status_bau := App.status_bau r |} in
  [at_day 0 (App_row (App_loc 0) 100 40000); at_day 0 (App_row (App_loc 1) 100 60000);
   at_day 1 (App_row (App_loc 0) 100 110000);
   at_day 2 (App_row (App_loc 0) 100 50000); at_day 2 (App_row (App_loc 1) 100 70000)].

Definition App2_three_day_history : list App2.Reading :=
  let at_day (d : Z) (r : App2.Reading) : App2.Reading :=
    {| App2.timestamp := clock_1315 + d * Datetime.DAY;
       App2.id_tps := App2.id_tps r; App2.nama_lokasi := App2.nama_lokasi r;
       App2.latitude := App2.latitude r; App2.longitude := App2.longitude r;
       App2.level_kepenuhan := App2.level_kepenuhan r;
       App2.berat_kg := App2.berat_kg r; App2.status_tutup := App2.status_tutup r;
       App2.status_bau := App2.status_bau r |} in
  [at_day 0 (App2_row (App2_loc 0) 100 40000); at_day 0 (App2_row (App2_loc 1) 100 60000);
   at_day 1 (App2_row (App2_loc 0) 100 110000);
   at_day 2 (App2_row (App2_loc 0) 100 50000); at_day 2 (App2_row (App2_loc 1) 100 70000)].

(** The column ['cluster_label'] of the frame [perform_clustering] returns,
    if there is one. *)
Definition App2_cluster_label (r : option App2.Clustered)
    : option (list (option Priority)) :=
  match r with
  | Some (App2.WithLabels _ _ cluster_label) => Some cluster_label
  | _ => None
  end.

(** Clusterings for the examples, given by their column of ids: each
    station alone; the first two stations alone and the others together;
    the first station alone and the others in two pairs. *)
Definition fit_0_1_2 : list (Z * Qc) → list Z := λ _, [0; 1; 2].
Definition fit_0_1_2_2 : list (Z * Qc) → list Z := λ _, [0; 1; 2; 2].
Definition fit_2_0_1_0_1 : list (Z * Qc) → list Z := λ _, [2; 0; 1; 0; 1].

(** The renaming that exchanges the clusters 0 and 1. *)
Definition swap_0_1 (c : Z) : Z := if decide (c = 0) then 1 else if decide (c = 1) then 0 else c.

(** Four stations.  The two at the level 50 differ in weight and the two
    others lie close together, so a partition in three leaves each of the
    first two alone in its cluster: two clusters of mean level 50. *)
Definition App_tied_means : list App.Reading :=
  [App_row (App_loc 0) 50 11300; App_row (App_loc 1) 50 14900;
   App_row (App_loc 8) 90 22500; App_row (App_loc 9) 88 22000].
Definition App2_tied_means : list App2.Reading :=
  [App2_row (App2_loc 0) 50 24500; App2_row (App2_loc 1) 50 25500;
   App2_row (App2_loc 10) 90 45000; App2_row (App2_loc 11) 90 45050].

(** Two states of two random sources deliver the same draws when they are
    related by a relation that every draw preserves, the values drawn
    being equal. *)
Record SameDraws {G1 G2 : Type} `{!RandomSource G1, !RandomSource G2}
    (R : G1 → G2 → Prop) : Prop := {
  same_range lo hi g1 g2 :
    R g1 g2 →
    (rand_range lo hi g1).1 = (rand_range lo hi g2).1
    ∧ R (rand_range lo hi g1).2 (rand_range lo hi g2).2;
  same_real lo hi g1 g2 :
    R g1 g2 →
    (rand_real lo hi g1).1 = (rand_real lo hi g2).1
    ∧ R (rand_real lo hi g1).2 (rand_real lo hi g2).2;
  same_index n g1 g2 :
    R g1 g2 →
    (rand_index n g1).1 = (rand_index n g2).1
    ∧ R (rand_index n g1).2 (rand_index n g2).2
}.

(** The congruential source again, with a state that also counts the draws
    made so far. *)
Definition counted_range (lo hi : Z) (s : Z * nat) : Z * (Z * nat) :=
  ((lcg_range lo hi s.1).1, ((lcg_range lo hi s.1).2, S s.2)).
Definition counted_real (lo hi : Qc) (s : Z * nat) : Qc * (Z * nat) :=
  ((lcg_real lo hi s.1).1, ((lcg_real lo hi s.1).2, S s.2)).
Definition counted_index (n : nat) (s : Z * nat) : nat * (Z * nat) :=
  ((lcg_index n s.1).1, ((lcg_index n s.1).2, S s.2)).

(** The mean level of the cluster [c]. *)
Definition cluster_mean (levels cluster : list Z) (c : Z) : Qc :=
  Z_mean (group_values c (zip cluster levels)).

(** The rank of a label: Low below Medium below High. *)
Definition priority_rank (p : Priority) : Z :=
  match p with LowPriority => 0 | MediumPriority => 1 | HighPriority => 2 end.

(** ** Further pages of app.py *)

Module AppPages.

(** [df_display], for the zone chosen in the sidebar *)
Definition df_display (filter_kecamatan : string) (df_latest : list App.Reading)
    : list App.Reading :=
  if decide (filter_kecamatan = "Zona Bisnis") then
    filter (λ r, App.type r = "Business") df_latest
  else if decide (filter_kecamatan = "Zona Perumahan") then
    filter (λ r, App.type r = "Residential") df_latest
  else if decide (filter_kecamatan = "Zona Pasar") then
    filter (λ r, App.type r = "Market") df_latest
  else df_latest.

(** The counters of the metrics row. *)
Definition critical_count (df_display : list App.Reading) : nat :=
  length (rows_where_gt App.level_kepenuhan 75 df_display).

Definition smell_count (df_display : list App.Reading) : nat :=
  length (filter (λ r, App.status_bau r = Menyengat) df_display).

(** [critical_df], the rows of the alert table *)
Definition critical_df (df_display : list App.Reading) : list App.Reading :=
  sort_rows (λ x y, bool_decide (App.level_kepenuhan y ≤ App.level_kepenuhan x))
            (rows_where_gt App.level_kepenuhan 50 df_display).

(** [lines]: one segment for each [i] of [range(len(route_coords) - 1)],
    from [route_coords[i]] to [route_coords[i+1]]. *)
Definition lines (route_coords : list (Qc * Qc)) : list ((Qc * Qc) * (Qc * Qc)) :=
  omap (λ i, start ← route_coords !! i; end_ ← route_coords !! (i + 1)%nat;
             Some (start, end_))
       (seq 0 (length route_coords - 1)).

End AppPages.

(** ** Further pages of app2.py *)

Module App2Pages.

(** [get_color_by_level]: the RGBA colour of a column of the map *)
Definition get_color_by_level (level : Z) : list Z :=
  if decide (level < 50) then [25; 135; 84; 160]
  else if decide (level < 80) then [255; 193; 7; 160]
  else [220; 53; 69; 200].

(** [highlight_status]: the style of a cell of the monitoring table *)
Definition highlight_status (val : Z) : string :=
  if decide (80 < val) then "background-color: #ffcccc; color: red; font-weight: bold"
  else if decide (50 < val) then "background-color: #ffffe0; color: orange"
  else "background-color: #ccffcc; color: green".

(** The counters of the scorecard. *)
Definition tps_kritis (df_latest : list App2.Reading) : nat :=
  length (rows_where_gt App2.level_kepenuhan 80 df_latest).

Definition bau_menyengat (df_latest : list App2.Reading) : nat :=
  length (filter (λ r, App2.status_bau r = Menyengat) df_latest).

(** The two frames of the anomaly report. *)
Definition df_bau (df : list App2.Reading) : list App2.Reading :=
  filter (λ r, App2.status_bau r = Menyengat) df.

Definition df_tutup (df : list App2.Reading) : list App2.Reading :=
  filter (λ r, App2.status_tutup r = Buka) df.

End App2Pages.

(** The day numbers [0 .. n-1] that the two forecasts fit against. *)
Definition day_numbers (n : nat) : list Qc := (λ i, Qc_of_Z (Z.of_nat i)) <$> seq 0 n.

(** * Properties *)

(** ** Numbers *)

Lemma Qc_of_Z_this (n : Z) : this (Qc_of_Z n) = inject_Z n.
Proof. reflexivity. Qed.

Lemma int_of_Z (n : Z) : int (Qc_of_Z n) = n.
Proof. unfold int. cbn. apply Z.quot_1_r. Qed.

Lemma Qc_of_Z_le (a b : Z) : a ≤ b → (Qc_of_Z a ≤ Qc_of_Z b)%Qc.
Proof.
  intros H. unfold Qcle. rewrite !Qc_of_Z_this. unfold Qle. cbn. lia.
Qed.

Lemma dec_le (a b : Z) (d : positive) : a ≤ b → (dec a d ≤ dec b d)%Qc.
Proof.
  intros H. unfold Qcle, dec. cbn [this Q2Qc]. rewrite !Qred_correct.
  unfold Qle. cbn. nia.
Qed.

Lemma Qcmult_nonneg (x y : Qc) : (0 ≤ x → 0 ≤ y → 0 ≤ x * y)%Qc.
Proof.
  intros Hx Hy. replace (Q2Qc 0) with (0 * y)%Qc by ring.
  by apply Qcmult_le_compat_r.
Qed.

Lemma Qcdiv_nonneg (x y : Qc) : (0 ≤ x → 0 < y → 0 ≤ x / y)%Qc.
Proof.
  intros Hx Hy. apply Qcmult_nonneg; [done|].
  apply Qclt_le_weak, Qcinv_pos; done.
Qed.

(** ** The congruential source satisfies the interface *)

Lemma lcg_range_spec lo hi s : lo < hi → lo ≤ (lcg_range lo hi s).1 < hi.
Proof.
  intros H. unfold lcg_range. cbn [fst].
  destruct (Z.ltb_spec lo hi); [|lia].
  pose proof (Z.mod_pos_bound (lcg_next s / 65536) (hi - lo)). lia.
Qed.

Lemma lcg_real_spec lo hi s :
  (lo ≤ hi)%Qc → (lo ≤ (lcg_real lo hi s).1)%Qc ∧ ((lcg_real lo hi s).1 ≤ hi)%Qc.
Proof.
  intros H. unfold lcg_real. cbn [fst].
  set (k := (lcg_next s / 65536) mod 1000).
  assert (Hk : 0 ≤ k < 1000) by (apply Z.mod_pos_bound; lia).
  assert (H0 : (0 ≤ dec k 1000)%Qc).
  { unfold Qcle, dec. cbn [this Q2Qc]. rewrite !Qred_correct. unfold Qle. cbn. lia. }
  assert (H1 : (dec k 1000 ≤ 1)%Qc).
  { unfold Qcle, dec. cbn [this Q2Qc]. rewrite !Qred_correct. unfold Qle. cbn. lia. }
  assert (Hd : (0 ≤ hi - lo)%Qc).
  { apply (Qcplus_le_mono_r _ _ lo). by ring_simplify. }
  split.
  - rewrite <-(Qcplus_0_r lo) at 1. apply Qcplus_le_mono_l.
    by apply Qcmult_nonneg.
  - replace hi with (lo + (hi - lo) * 1)%Qc at 2 by ring.
    apply Qcplus_le_mono_l. rewrite !(Qcmult_comm (hi - lo)).
    by apply Qcmult_le_compat_r.
Qed.

Lemma lcg_index_spec n s : (0 < n)%nat → ((lcg_index n s).1 < n)%nat.
Proof.
  intros H. unfold lcg_index. cbn [fst].
  pose proof (Z.mod_pos_bound (lcg_next s / 65536) (Z.of_nat n)). lia.
Qed.

#[export] Instance lcg : RandomSource Z := {|
  rand_range := lcg_range;
  rand_real := lcg_real;
  rand_index := lcg_index;
  rand_range_spec := lcg_range_spec;
  rand_real_spec := lcg_real_spec;
  rand_index_spec := lcg_index_spec
|}.

Lemma Qc_nonneg_num (x : Qc) : (0 ≤ x)%Qc → 0 ≤ Qnum (this x).
Proof.
  unfold Qcle. change (this (Q2Qc 0)) with (0 # 1)%Q. unfold Qle. cbn. lia.
Qed.

Lemma round_half_even_nonneg (x : Qc) : (0 ≤ x)%Qc → 0 ≤ round_half_even x.
Proof.
  intros H%Qc_nonneg_num.
  unfold round_half_even. cbv zeta.
  set (n := Qnum (this x)) in *. set (d := Z.pos (Qden (this x))).
  assert (0 ≤ n / d) by (apply Z.div_pos; lia).
  repeat case_match; lia.
Qed.

Lemma Qc_of_Z_nonneg (n : Z) : 0 ≤ n → (0 ≤ Qc_of_Z n)%Qc.
Proof.
  intros H. unfold Qcle. change (this (Q2Qc 0)) with (0 # 1)%Q.
  unfold Qle. cbn. lia.
Qed.

Lemma Qc_of_Z_pos (n : Z) : 0 < n → (0 < Qc_of_Z n)%Qc.
Proof.
  intros H. unfold Qclt. change (this (Q2Qc 0)) with (0 # 1)%Q.
  unfold Qlt. cbn. lia.
Qed.

Lemma round2_nonneg (x : Qc) : (0 ≤ x)%Qc → (0 ≤ round2 x)%Qc.
Proof.
  intros H. unfold round2. apply Qcdiv_nonneg; [|by apply Qc_of_Z_pos].
  apply Qc_of_Z_nonneg, round_half_even_nonneg, Qcmult_nonneg; [done|].
  by apply Qc_of_Z_nonneg.
Qed.

Lemma dec_nonneg (n : Z) (d : positive) : 0 ≤ n → (0 ≤ dec n d)%Qc.
Proof.
  intros H. unfold Qcle, dec. change (this (Q2Qc 0)) with (0 # 1)%Q.
  cbn [this Q2Qc]. rewrite !Qred_correct. unfold Qle. cbn. lia.
Qed.

Lemma Qc_of_Z_0 : Qc_of_Z 0 = Q2Qc 0.
Proof. by apply Qc_is_canon. Qed.

Lemma Qc_max_l (x y : Qc) : (x ≤ App2.Qc_max x y)%Qc.
Proof.
  unfold App2.Qc_max. case_decide; [by apply Qclt_le_weak | apply Qcle_refl].
Qed.

(** ** The generators, row by row *)

Section GeneratorFacts.
Context {G : Type} `{!RandomSource G}.

(** Whatever is drawn, a reading of app.py carries a level clamped to
    [0, 100] and a weight that is not negative. *)
Lemma App_read_sensor_bounds t ed loc (g : G) :
  let r := (App.read_sensor t ed loc g).1 in
  0 ≤ App.level_kepenuhan r ≤ 100 ∧ (0 ≤ App.berat_kg r)%Qc.
Proof.
  unfold App.read_sensor.
  repeat (case_match; simplify_eq); cbn [fst App.level_kepenuhan App.berat_kg];
    (split; [lia|]);
    match goal with
    | H : np_uniform ?lo ?hi ?g0 = (?j, _) |- _ =>
        assert (lo ≤ j)%Qc as Hj
          by (pose proof (rand_real_spec lo hi g0 ltac:(by apply dec_le)) as [Hj _];
              unfold np_uniform in H; by rewrite H in Hj)
    end;
    apply round2_nonneg, Qcmult_nonneg;
    solve [ apply Qcmult_nonneg; [apply Qc_of_Z_nonneg; lia | by apply dec_nonneg]
          | etrans; [|exact Hj]; by apply dec_nonneg ].
Qed.

Lemma App2_read_sensor_bounds t loc (g : G) :
  let r := (App2.read_sensor t loc g).1 in
  0 ≤ App2.level_kepenuhan r ≤ 100 ∧ (0 ≤ App2.berat_kg r)%Qc.
Proof.
  unfold App2.read_sensor.
  repeat (case_match; simplify_eq); cbn [fst App2.level_kepenuhan App2.berat_kg];
    (split; [lia | rewrite <-Qc_of_Z_0; apply Qc_max_l]).
Qed.
End GeneratorFacts.

(** ** Tables: the snapshot *)

Section FrameFacts.
Context {A : Type} (col : A → Z).

Lemma foldl_max_ge (rows : list A) (m0 : Z) :
  m0 ≤ foldl (λ m r', Z.max m (col r')) m0 rows
  ∧ Forall (λ r, col r ≤ foldl (λ m r', Z.max m (col r')) m0 rows) rows.
Proof.
  revert m0. induction rows as [|r rows IH]; intros m0; cbn; [split; [lia|constructor]|].
  destruct (IH (m0 `max` col r)) as [H1 H2]. split; [lia|].
  constructor; [lia|done].
Qed.

Lemma foldl_max_le (rows : list A) (m0 b : Z) :
  m0 ≤ b → Forall (λ r, col r ≤ b) rows →
  foldl (λ m r', Z.max m (col r')) m0 rows ≤ b.
Proof.
  revert m0. induction rows as [|r rows IH]; intros m0 H0 Hall; cbn; [done|].
  inversion_clear Hall. apply IH; [lia|done].
Qed.

(** The maximum of a column that is bounded by [b] and reaches [b]. *)
Lemma column_max_reached (rows : list A) (b : Z) :
  Forall (λ r, col r ≤ b) rows → Exists (λ r, col r = b) rows →
  column_max col rows = Some b.
Proof.
  intros Hall Hex. destruct rows as [|r rows]; [by inversion Hex|].
  cbn. f_equal. inversion_clear Hall as [|?? Hr Hrows].
  pose proof (foldl_max_le rows (col r) b Hr Hrows).
  destruct (foldl_max_ge rows (col r)) as [H1 H2].
  inversion_clear Hex as [?? Heq|?? Hex'].
  - lia.
  - apply Exists_exists in Hex' as (x & Hx & Hxb).
    rewrite Forall_forall in H2. specialize (H2 x Hx). lia.
Qed.

Lemma rows_where_eq_all (rows : list A) (v : Z) :
  Forall (λ r, col r = v) rows → rows_where_eq col v rows = rows.
Proof.
  unfold rows_where_eq. induction 1 as [|r rows Hr _ IH]; [done|].
  rewrite filter_cons_True by done. by rewrite IH.
Qed.

Lemma rows_where_eq_none (rows : list A) (v : Z) :
  Forall (λ r, col r < v) rows → rows_where_eq col v rows = [].
Proof.
  unfold rows_where_eq. induction 1 as [|r rows Hr _ IH]; [done|].
  rewrite filter_cons_False by lia. done.
Qed.

(** A frame made of rows older than [b] followed by a non-empty block of
    rows at [b] has that block as its snapshot. *)
Lemma latest_last_block (early block : list A) (b : Z) :
  Forall (λ r, col r < b) early → Forall (λ r, col r = b) block → block ≠ [] →
  latest col (early ++ block) = Some block.
Proof.
  intros He Hb Hne. unfold latest.
  rewrite (column_max_reached _ b).
  - cbn. unfold rows_where_eq. rewrite filter_app.
    fold (rows_where_eq col b early). fold (rows_where_eq col b block).
    by rewrite rows_where_eq_none, rows_where_eq_all.
  - apply Forall_app. split.
    + eapply Forall_impl; [exact He|]. cbn. lia.
    + eapply Forall_impl; [exact Hb|]. cbn. lia.
  - apply Exists_app. right. destruct block as [|r block]; [done|].
    inversion_clear Hb. by left.
Qed.
End FrameFacts.

(** ** The loops *)

Section LoopFacts.
Context {G L R : Type}.
Implicit Types (read : L → G → R * G) (body : Z → G → list R * G).

(** One row per element, in order. *)
Lemma for_each_Forall2 (P : L → R → Prop) read xs g :
  (∀ x g', x ∈ xs → P x (read x g').1) →
  Forall2 P xs (for_each read xs g).1.
Proof.
  revert g. induction xs as [|x xs IH]; intros g HP; cbn; [constructor|].
  pose proof (HP x g ltac:(left)) as Hr.
  destruct (read x g) as [r g1].
  specialize (IH g1 ltac:(intros; apply HP; by right)).
  destruct (for_each read xs g1) as [rs g2]. by constructor.
Qed.

Lemma for_each_Forall (P : R → Prop) read xs g :
  (∀ x g', x ∈ xs → P (read x g').1) →
  Forall P (for_each read xs g).1.
Proof.
  intros HP. pose proof (for_each_Forall2 (λ _ r, P r) read xs g HP) as H2.
  clear HP. induction H2; by constructor.
Qed.

Lemma for_each_length read xs g : length (for_each read xs g).1 = length xs.
Proof.
  symmetry. eapply Forall2_length, (for_each_Forall2 (λ _ _, True)). done.
Qed.

Lemma hourly_Forall (P : R → Prop) body fuel t ed g :
  (∀ t' g', t' ≤ ed → Forall P (body t' g').1) →
  Forall P (hourly body fuel t ed g).1.
Proof.
  intros HP. revert t g. induction fuel as [|fuel IH]; intros t g; cbn; [constructor|].
  case_decide; [|constructor].
  pose proof (HP t g ltac:(done)) as Hs.
  destruct (body t g) as [rs g1].
  specialize (IH (t + Datetime.timedelta_hours 1) g1).
  destruct (hourly body fuel _ ed g1) as [rest g2]. by apply Forall_app.
Qed.

(** Past the end date the loop does nothing, whatever fuel is left. *)
Lemma hourly_past body fuel t ed g : ed < t → hourly body fuel t ed g = ([], g).
Proof. intros H. destruct fuel; cbn; [done|]. case_decide; [lia|done]. Qed.

(** The loop leaves through its guard: once [n] iterations are enough to
    pass the end date, any larger fuel gives the same run. *)
Lemma hourly_fuel body (n fuel : nat) t ed g :
  ed < t + Z.of_nat n * Datetime.HOUR → (n ≤ fuel)%nat →
  hourly body fuel t ed g = hourly body n t ed g.
Proof.
  revert fuel t g. induction n as [|n IH]; intros fuel t g Hn Hf.
  - rewrite hourly_past by lia. done.
  - destruct fuel as [|fuel]; [lia|]. cbn. case_decide; [|done].
    destruct (body t g) as [rs g1].
    rewrite (IH fuel); [done| |lia].
    unfold Datetime.timedelta_hours. lia.
Qed.

(** When the end date is a whole number [n] of hours away and the fuel
    exceeds [n], the run ends with the block of the end date itself, and
    all that precedes it comes from earlier hours. *)
Lemma hourly_last (P : R → Prop) body (n fuel : nat) t ed g :
  (∀ t' g', t' < ed → Forall P (body t' g').1) →
  t + Z.of_nat n * Datetime.HOUR = ed → (n < fuel)%nat →
  ∃ early g1,
    (hourly body fuel t ed g).1 = early ++ (body ed g1).1 ∧ Forall P early.
Proof.
  intros HP. revert fuel t g. induction n as [|n IH]; intros fuel t g Ht Hf.
  - destruct fuel as [|fuel]; [lia|]. cbn. rewrite decide_True by lia.
    assert (t = ed) as -> by lia.
    exists [], g. destruct (body ed g) as [rs g1] eqn:Hb.
    rewrite hourly_past by (unfold Datetime.timedelta_hours, Datetime.HOUR; lia).
    cbn. by rewrite app_nil_r.
  - destruct fuel as [|fuel]; [lia|]. cbn.
    assert (0 < Datetime.HOUR) by (unfold Datetime.HOUR; lia).
    rewrite decide_True by nia.
    pose proof (HP t g ltac:(nia)) as Hs.
    destruct (body t g) as [rs g1].
    destruct (IH fuel (t + Datetime.timedelta_hours 1) g1) as (early & g2 & Heq & He);
      [unfold Datetime.timedelta_hours; lia | lia |].
    destruct (hourly body fuel _ ed g1) as [rest g3]. cbn in *. subst rest.
    exists (rs ++ early), g2. rewrite app_assoc. split; [done|].
    by apply Forall_app.
Qed.
End LoopFacts.

(** ** Readings *)

Lemma dec_15_11 (m : Qc) : (dec 15 10 < m)%Qc → (dec 11 10 < m)%Qc.
Proof.
  intros H. eapply Qcle_lt_trans; [|exact H]. by apply dec_le.
Qed.

(** Adds to the context the documented range of every integer drawn. *)
Ltac draw_bounds :=
  repeat match goal with
  | H : np_randint ?lo ?hi ?g = (?b, _) |- _ =>
      let Hb := fresh "Hdraw" in
      pose proof (rand_range_spec lo hi g ltac:(lia)) as Hb;
      unfold np_randint in H; rewrite H in Hb; cbn [fst] in Hb
  | H : py_randint ?lo ?hi ?g = (?b, _) |- _ =>
      let Hb := fresh "Hdraw" in
      pose proof (rand_range_spec lo (hi + 1) g ltac:(lia)) as Hb;
      unfold py_randint in H; rewrite H in Hb; cbn [fst] in Hb
  end.

Section ReadingFacts.
Context {G : Type} `{!RandomSource G}.

(** What a reading of app.py copies from its inputs. *)
Lemma App_read_sensor_fields t ed loc (g : G) :
  let r := (App.read_sensor t ed loc g).1 in
  App.timestamp r = t ∧ App.id_tps r = App.loc_id loc
  ∧ App.longitude r = App.loc_lon loc ∧ App.latitude r = App.loc_lat loc.
Proof.
  unfold App.read_sensor. repeat (case_match; simplify_eq); done.
Qed.

(** At five o'clock, except at the end date, the level is the fresh draw
    of [randint(0, 10)]. *)
Lemma App_read_sensor_reset t ed loc (g : G) :
  Datetime.hour t = 5 → t ≠ ed →
  0 ≤ App.level_kepenuhan (App.read_sensor t ed loc g).1 < 10.
Proof.
  intros Hh Hne. unfold App.read_sensor.
  destruct (decide (t = ed)) as [|_]; [done|].
  repeat (case_match; simplify_eq); cbn [fst App.level_kepenuhan];
    draw_bounds; rewrite ?int_of_Z; lia.
Qed.

(** At the end date the level is drawn from the band of the multiplier,
    whatever the hour. *)
Lemma App_read_sensor_final ed loc (g : G) :
  let r := (App.read_sensor ed ed loc g).1 in
  let m := App.loc_multiplier loc in
  ((dec 15 10 < m)%Qc → 80 ≤ App.level_kepenuhan r < 100)
  ∧ (¬ (dec 15 10 < m)%Qc → (dec 11 10 < m)%Qc → 50 ≤ App.level_kepenuhan r < 79)
  ∧ (¬ (dec 11 10 < m)%Qc → 10 ≤ App.level_kepenuhan r < 49).
Proof.
  unfold App.read_sensor.
  destruct (decide (ed = ed)) as [_|]; [|done].
  repeat (case_match; simplify_eq); cbn [fst App.level_kepenuhan];
    draw_bounds; rewrite ?int_of_Z;
    try match goal with
        | H : (dec 15 10 < _)%Qc |- _ => pose proof (dec_15_11 _ H)
        end;
    (split; [|split]); intros; try done; lia.
Qed.

Lemma App2_read_sensor_fields t loc (g : G) :
  let r := (App2.read_sensor t loc g).1 in
  App2.timestamp r = t ∧ App2.id_tps r = App2.loc_id loc
  ∧ App2.longitude r = App2.loc_lon loc ∧ App2.latitude r = App2.loc_lat loc.
Proof.
  unfold App2.read_sensor. repeat (case_match; simplify_eq); done.
Qed.

(** At five o'clock the level of app2.py is the draw of [randint(0, 10)],
    both ends included. *)
Lemma App2_read_sensor_reset t loc (g : G) :
  Datetime.hour t = 5 →
  0 ≤ App2.level_kepenuhan (App2.read_sensor t loc g).1 ≤ 10.
Proof.
  intros Hh. unfold App2.read_sensor.
  repeat (case_match; simplify_eq); cbn [fst App2.level_kepenuhan];
    draw_bounds; lia.
Qed.
End ReadingFacts.

(** ** Tables: sorting *)

Section SortFacts.
Context {A : Type} (before : A → A → bool).

Lemma insert_sorted_Permutation x l : insert_sorted before x l ≡ₚ x :: l.
Proof.
  induction l as [|y l IH]; cbn; [done|].
  destruct (before x y); [done|]. rewrite IH. apply Permutation_swap.
Qed.

Lemma sort_rows_Permutation l : sort_rows before l ≡ₚ l.
Proof.
  induction l as [|x l IH]; cbn; [done|].
  fold (sort_rows before l). by rewrite insert_sorted_Permutation, IH.
Qed.

Lemma sort_rows_elem_of x l : x ∈ sort_rows before l ↔ x ∈ l.
Proof. by rewrite sort_rows_Permutation. Qed.

Lemma sort_rows_nil l : sort_rows before l = [] ↔ l = [].
Proof.
  split; [|by intros ->].
  intros H. apply Permutation_nil_r. by rewrite <-H, sort_rows_Permutation.
Qed.

Hypothesis before_total : ∀ x y, before x y = true ∨ before y x = true.

Lemma insert_sorted_Sorted x l :
  Sorted (λ a b, before a b = true) l →
  Sorted (λ a b, before a b = true) (insert_sorted before x l).
Proof.
  induction 1 as [|y l Hl IH Hhd]; cbn; [by repeat constructor|].
  destruct (before x y) eqn:Hxy.
  - by repeat constructor.
  - constructor; [done|].
    destruct l as [|z l]; cbn.
    + constructor. destruct (before_total x y); congruence.
    + inversion_clear Hhd. destruct (before x z); constructor; [|done].
      destruct (before_total x y); congruence.
Qed.

Lemma sort_rows_Sorted l : Sorted (λ a b, before a b = true) (sort_rows before l).
Proof.
  induction l as [|x l IH]; cbn; [constructor|]. by apply insert_sorted_Sorted.
Qed.

Lemma sort_rows_StronglySorted l :
  Transitive (λ a b, before a b = true) →
  StronglySorted (λ a b, before a b = true) (sort_rows before l).
Proof. intros ?. apply Sorted_StronglySorted; [done|]. apply sort_rows_Sorted. Qed.
End SortFacts.

(** Rows that are already in order are left as they are: equal keys keep
    their input order. *)
Lemma sort_rows_sorted_id {A} (before : A → A → bool) (l : list A) :
  Sorted (λ a b, before a b = true) l → sort_rows before l = l.
Proof.
  induction 1 as [|x l Hl IH Hhd]; cbn; [done|].
  fold (sort_rows before l). rewrite IH.
  destruct Hhd as [|y l' Hxy]; cbn; [done|]. by rewrite Hxy.
Qed.

(** ** Histories *)

Lemma Forall_False_nil {A} (l : list A) : Forall (λ _, False) l → l = [].
Proof. destruct 1; done. Qed.

Section HistoryFacts.
Context {G : Type} `{!RandomSource G}.

(** The loop of app.py needs 169 iterations: more fuel changes nothing. *)
Lemma App_generate_fuel locs now (g : G) (k : nat) :
  hourly (λ t, for_each (App.read_sensor t now) locs) (170 + k)
         (now - Datetime.timedelta_days 7) now g
  = App.generate_from locs now g.
Proof.
  unfold App.generate_from. rewrite (hourly_fuel _ 170 (170 + k)); [done| |lia].
  unfold Datetime.timedelta_days, Datetime.DAY, Datetime.HOUR. lia.
Qed.

Lemma App2_generate_fuel locs days now (g : G) (k : nat) :
  hourly (λ t, for_each (App2.read_sensor t) locs) (Z.to_nat (24 * days + 2) + k)
         (now - Datetime.timedelta_days days) now g
  = App2.generate_from locs days now g.
Proof.
  unfold App2.generate_from.
  destruct (decide (0 ≤ days)) as [Hd|Hd].
  - rewrite (hourly_fuel _ (Z.to_nat (24 * days + 2)) (_ + k)); [done| |lia].
    unfold Datetime.timedelta_days, Datetime.DAY, Datetime.HOUR. lia.
  - rewrite !hourly_past; [done| |];
      unfold Datetime.timedelta_days, Datetime.DAY, Datetime.HOUR; lia.
Qed.

Lemma App_generate_no_station now (g : G) : (App.generate_from [] now g).1 = [].
Proof.
  apply Forall_False_nil, hourly_Forall. intros. cbn. constructor.
Qed.

Lemma App2_generate_no_station days now (g : G) :
  (App2.generate_from [] days now g).1 = [].
Proof.
  apply Forall_False_nil, hourly_Forall. intros. cbn. constructor.
Qed.

Lemma App2_generate_negative locs days now (g : G) :
  days < 0 → (App2.generate_from locs days now g).1 = [].
Proof.
  intros Hd. unfold App2.generate_from. rewrite hourly_past; [done|].
  unfold Datetime.timedelta_days, Datetime.DAY, Datetime.HOUR. lia.
Qed.

(** The snapshot of a history of app.py is its last sweep over the
    stations, the one made at the end date. *)
Lemma App_generate_snapshot locs now (g : G) :
  locs ≠ [] →
  ∃ g1, App.df_latest (App.generate_from locs now g).1
        = Some (for_each (App.read_sensor now now) locs g1).1.
Proof.
  intros Hne. unfold App.generate_from, App.df_latest.
  destruct (hourly_last (λ r, App.timestamp r < now)
              (λ t, for_each (App.read_sensor t now) locs) 168 170
              (now - Datetime.timedelta_days 7) now g) as (early & g1 & Heq & He).
  - intros t' g' Ht. apply for_each_Forall. intros loc g2 _.
    by rewrite (proj1 (App_read_sensor_fields t' now loc g2)).
  - unfold Datetime.timedelta_days, Datetime.DAY. lia.
  - lia.
  - exists g1. rewrite Heq. apply (latest_last_block _ _ _ now); [done| |].
    + apply for_each_Forall. intros loc g2 _.
      apply (App_read_sensor_fields now now loc g2).
    + intros Hnil. apply (f_equal length) in Hnil.
      rewrite for_each_length in Hnil. by destruct locs.
Qed.

Lemma App2_generate_snapshot locs days now (g : G) :
  locs ≠ [] → 0 ≤ days →
  ∃ g1, App2.df_latest (App2.generate_from locs days now g).1
        = Some (for_each (App2.read_sensor now) locs g1).1.
Proof.
  intros Hne Hd. unfold App2.generate_from, App2.df_latest.
  destruct (hourly_last (λ r, App2.timestamp r < now)
              (λ t, for_each (App2.read_sensor t) locs)
              (Z.to_nat (24 * days)) (Z.to_nat (24 * days + 2))
              (now - Datetime.timedelta_days days) now g) as (early & g1 & Heq & He).
  - intros t' g' Ht. apply for_each_Forall. intros loc g2 _.
    by rewrite (proj1 (App2_read_sensor_fields t' loc g2)).
  - unfold Datetime.timedelta_days, Datetime.DAY, Datetime.HOUR. lia.
  - lia.
  - exists g1. rewrite Heq. apply (latest_last_block _ _ _ now); [done| |].
    + apply for_each_Forall. intros loc g2 _.
      apply (App2_read_sensor_fields now loc g2).
    + intros Hnil. apply (f_equal length) in Hnil.
      rewrite for_each_length in Hnil. by destruct locs.
Qed.
End HistoryFacts.

Lemma Forall2_fmap_eq {A B C} (f : A → C) (h : B → C) (l : list A) (k : list B) :
  Forall2 (λ x y, h y = f x) l k → h <$> k = f <$> l.
Proof. induction 1; cbn; congruence. Qed.

Lemma nonempty_by_length {A} (l : list A) : Nat.eqb (length l) 0 = false → l ≠ [].
Proof. by destruct l. Qed.

(** ** The generated readings *)

(** C4: every reading the generators produce, for every table of stations,
    every clock reading, every window and every sequence of random draws,
    has an integer fill level between 0 and 100 and a weight that is not
    negative. *)
Theorem C4_readings_in_range {G : Type} `{!RandomSource G}
    (locs : list App.Location) (locs2 : list App2.Location) (days now : Z) (g : G) :
  Forall (λ r, 0 ≤ App.level_kepenuhan r ≤ 100 ∧ (0 ≤ App.berat_kg r)%Qc)
         (App.generate_from locs now g).1
  ∧ Forall (λ r, 0 ≤ App2.level_kepenuhan r ≤ 100 ∧ (0 ≤ App2.berat_kg r)%Qc)
           (App2.generate_from locs2 days now g).1.
Proof.
  split.
  - apply hourly_Forall. intros t g1 _. apply for_each_Forall. intros loc g2 _.
    apply App_read_sensor_bounds.
  - apply hourly_Forall. intros t g1 _. apply for_each_Forall. intros loc g2 _.
    apply App2_read_sensor_bounds.
Qed.

(** C6, as stated, fails on app.py: when the generator runs between five
    and six in the morning, the readings of the end date carry the hour 5
    and a level drawn from the band of the station, here at least 80 for
    the market station TPS-10. *)
Lemma C6_reset_overridden_at_end_date :
  Exists (λ r, App.id_tps r = "TPS-10" ∧ App.timestamp r = clock_0530
               ∧ Datetime.hour (App.timestamp r) = 5 ∧ 80 ≤ App.level_kepenuhan r)
         (App.generate_data clock_0530 (42 : Z)).1.
Proof. apply (bool_decide_unpack _). vm_compute. exact I. Qed.

(** C6, amended: at every timestamp of the window whose hour is 5, every
    station of app2.py has a level in the range 0..10 of the reset draw,
    and every station of app.py has a level in its range 0..9 unless the
    timestamp is the end date, where the band of the station decides. *)
Theorem C6_reset_hour_range {G : Type} `{!RandomSource G}
    (locs : list App.Location) (locs2 : list App2.Location) (days now : Z) (g : G) :
  Forall (λ r, Datetime.hour (App.timestamp r) = 5 → App.timestamp r ≠ now →
               0 ≤ App.level_kepenuhan r < 10)
         (App.generate_from locs now g).1
  ∧ Forall (λ r, Datetime.hour (App2.timestamp r) = 5 →
                 0 ≤ App2.level_kepenuhan r ≤ 10)
           (App2.generate_from locs2 days now g).1.
Proof.
  split.
  - apply hourly_Forall. intros t g1 _. apply for_each_Forall. intros loc g2 _.
    rewrite (proj1 (App_read_sensor_fields t now loc g2)).
    apply App_read_sensor_reset.
  - apply hourly_Forall. intros t g1 _. apply for_each_Forall. intros loc g2 _.
    rewrite (proj1 (App2_read_sensor_fields t loc g2)).
    apply App2_read_sensor_reset.
Qed.

(** The amended C6 is about rows that exist: a window of app.py holds seven
    earlier five o'clock sweeps of the fifteen stations. *)
Example C6_reset_rows_exist :
  length (filter (λ r, Datetime.hour (App.timestamp r) = 5 ∧ App.timestamp r ≠ clock_1315)
                 (App.generate_data clock_1315 (42 : Z)).1) = 105%nat.
Proof. vm_compute. reflexivity. Qed.

(** C7: the snapshot of every non-empty history the generators produce has
    as many rows as there are stations, the rows are those of the stations
    one by one in the order of the table, and they all carry the same
    timestamp (the end date). *)
Theorem C7_snapshot_one_row_per_station {G : Type} `{!RandomSource G}
    (locs : list App.Location) (locs2 : list App2.Location) (days now : Z) (g : G) :
  ((App.generate_from locs now g).1 ≠ [] →
     ∃ snap, App.df_latest (App.generate_from locs now g).1 = Some snap
       ∧ length snap = length locs
       ∧ App.id_tps <$> snap = App.loc_id <$> locs
       ∧ Forall (λ r, App.timestamp r = now) snap)
  ∧ ((App2.generate_from locs2 days now g).1 ≠ [] →
     ∃ snap, App2.df_latest (App2.generate_from locs2 days now g).1 = Some snap
       ∧ length snap = length locs2
       ∧ App2.id_tps <$> snap = App2.loc_id <$> locs2
       ∧ Forall (λ r, App2.timestamp r = now) snap).
Proof.
  split; intros Hne.
  - assert (locs ≠ []) as Hl by (intros ->; by rewrite App_generate_no_station in Hne).
    destruct (App_generate_snapshot locs now g Hl) as [g1 Hs].
    eexists. split; [exact Hs|]. split; [apply for_each_length|]. split.
    + apply Forall2_fmap_eq, for_each_Forall2. intros loc g2 _.
      apply (App_read_sensor_fields now now loc g2).
    + apply for_each_Forall. intros loc g2 _.
      apply (App_read_sensor_fields now now loc g2).
  - assert (locs2 ≠ []) as Hl
      by (intros ->; by rewrite App2_generate_no_station in Hne).
    assert (0 ≤ days) as Hd.
    { destruct (decide (0 ≤ days)); [done|].
      rewrite App2_generate_negative in Hne by lia. done. }
    destruct (App2_generate_snapshot locs2 days now g Hl Hd) as [g1 Hs].
    eexists. split; [exact Hs|]. split; [apply for_each_length|]. split.
    + apply Forall2_fmap_eq, for_each_Forall2. intros loc g2 _.
      apply (App2_read_sensor_fields now loc g2).
    + apply for_each_Forall. intros loc g2 _.
      apply (App2_read_sensor_fields now loc g2).
Qed.

Lemma C7_snapshot_witness :
  (∃ snap, App.df_latest (App.generate_data clock_1315 (42 : Z)).1 = Some snap
     ∧ length snap = 15%nat
     ∧ App.id_tps <$> snap = App.loc_id <$> App.LOCATIONS
     ∧ Forall (λ r, App.timestamp r = clock_1315) snap)
  ∧ (∃ snap, App2.df_latest (App2.generate_data 1 clock_1315 (42 : Z)).1 = Some snap
     ∧ length snap = 20%nat
     ∧ App2.id_tps <$> snap = App2.loc_id <$> App2.tps_locations
     ∧ Forall (λ r, App2.timestamp r = clock_1315) snap).
Proof.
  destruct (C7_snapshot_one_row_per_station
              App.LOCATIONS App2.tps_locations 1 clock_1315 (42 : Z)) as [HA HB].
  split.
  - apply HA, nonempty_by_length. vm_compute. reflexivity.
  - apply HB, nonempty_by_length. vm_compute. reflexivity.
Defined.

Lemma Forall2_elem_of_r {A B} (P : A → B → Prop) (l : list A) (k : list B) :
  Forall2 P l k → Forall2 (λ x y, P x y ∧ y ∈ k) l k.
Proof.
  induction 1 as [|x y l k Hxy _ IH]; constructor.
  - split; [done|]. left.
  - eapply Forall2_impl; [exact IH|]. cbn. intros ?? [??]. split; [done|]. by right.
Qed.

Lemma App_pickup_list_elem_of (r : App.Reading) (snap : list App.Reading) :
  r ∈ App.pickup_list snap ↔ r ∈ snap ∧ 75 < App.level_kepenuhan r.
Proof.
  unfold App.pickup_list, rows_where_gt.
  rewrite sort_rows_elem_of, list_elem_of_filter. tauto.
Qed.

(** C10: in app.py the readings of the final timestamp are, station by
    station, drawn from the band of the multiplier: 80..99 above 1.5, 50..78
    above 1.1 and up to 1.5, 10..48 otherwise, whatever the hour (the reset
    hour included) and whatever the accumulation formula gives.  Hence a
    station above 1.5 is above 75 in the snapshot and is in the pickup list,
    and a station up to 1.1 is below 50. *)
Theorem C10_final_timestamp_bands {G : Type} `{!RandomSource G} (now : Z) (g : G) :
  ∃ snap, App.df_latest (App.generate_data now g).1 = Some snap
    ∧ Forall2 (λ loc r,
        let m := App.loc_multiplier loc in
        let x := App.level_kepenuhan r in
        App.id_tps r = App.loc_id loc ∧ App.timestamp r = now
        ∧ ((dec 15 10 < m)%Qc → 80 ≤ x < 100 ∧ 75 < x ∧ r ∈ App.pickup_list snap)
        ∧ ((dec 11 10 < m)%Qc ∧ (m ≤ dec 15 10)%Qc → 50 ≤ x < 79)
        ∧ ((m ≤ dec 11 10)%Qc → 10 ≤ x < 49 ∧ x < 50))
        App.LOCATIONS snap.
Proof.
  destruct (App_generate_snapshot App.LOCATIONS now g ltac:(done)) as [g1 Hs].
  eexists. split; [exact Hs|].
  eapply Forall2_impl.
  - apply Forall2_elem_of_r.
    apply (for_each_Forall2 (λ loc r,
      (App.timestamp r = now ∧ App.id_tps r = App.loc_id loc
       ∧ App.longitude r = App.loc_lon loc ∧ App.latitude r = App.loc_lat loc)
      ∧ ((dec 15 10 < App.loc_multiplier loc)%Qc → 80 ≤ App.level_kepenuhan r < 100)
      ∧ (¬ (dec 15 10 < App.loc_multiplier loc)%Qc → (dec 11 10 < App.loc_multiplier loc)%Qc →
         50 ≤ App.level_kepenuhan r < 79)
      ∧ (¬ (dec 11 10 < App.loc_multiplier loc)%Qc → 10 ≤ App.level_kepenuhan r < 49))).
    intros loc g2 _. split.
    + apply (App_read_sensor_fields now now loc g2).
    + apply (App_read_sensor_final now loc g2).
  - cbn. intros loc r [[(Hts & Hid & _) (H1 & H2 & H3)] Hin].
    split; [done|]. split; [done|]. split; [|split].
    + intros Hm. specialize (H1 Hm). split; [done|]. split; [lia|].
      apply App_pickup_list_elem_of. split; [done|lia].
    + intros [Hlo Hhi]. apply H2; [|done]. by apply Qcle_not_lt.
    + intros Hm. split; [|cut (10 ≤ App.level_kepenuhan r < 49); [lia|]];
        apply H3; by apply Qcle_not_lt.
Qed.

(** The bands are all inhabited in the table of app.py. *)
Example C10_bands_inhabited :
  length (filter (λ loc, (dec 15 10 < App.loc_multiplier loc)%Qc) App.LOCATIONS) = 2%nat
  ∧ length (filter (λ loc, (dec 11 10 < App.loc_multiplier loc)%Qc
                           ∧ (App.loc_multiplier loc ≤ dec 15 10)%Qc) App.LOCATIONS) = 5%nat
  ∧ length (filter (λ loc, (App.loc_multiplier loc ≤ dec 11 10)%Qc) App.LOCATIONS) = 8%nat.
Proof. vm_compute. done. Qed.

(** ** The route planners *)

Lemma StronglySorted_weaken {A} (R R' : A → A → Prop) (l : list A) :
  (∀ a b, R a b → R' a b) → StronglySorted R l → StronglySorted R' l.
Proof.
  intros HR. induction 1 as [|x l _ IH Hx]; constructor; [done|].
  eapply Forall_impl; [exact Hx|]. apply HR.
Qed.

Lemma sort_filter_NoDup {A K} (key : A → K) (before : A → A → bool)
    (P : A → Prop) `{∀ x, Decision (P x)} (l : list A) :
  NoDup (key <$> l) → NoDup (key <$> sort_rows before (filter P l)).
Proof.
  intros Hl. rewrite sort_rows_Permutation.
  eapply sublist_NoDup; [exact Hl|]. apply fmap_sublist, sublist_filter.
Qed.

Lemma App_level_before_total (x y : App.Reading) :
  bool_decide (App.level_kepenuhan y ≤ App.level_kepenuhan x) = true
  ∨ bool_decide (App.level_kepenuhan x ≤ App.level_kepenuhan y) = true.
Proof.
  destruct (decide (App.level_kepenuhan y ≤ App.level_kepenuhan x)).
  - left. by apply bool_decide_eq_true.
  - right. apply bool_decide_eq_true. lia.
Qed.

(** The pickup list of app.py is in non-increasing order of level. *)
Lemma App_pickup_list_sorted (snap : list App.Reading) :
  StronglySorted (λ a b, App.level_kepenuhan b ≤ App.level_kepenuhan a)
                 (App.pickup_list snap).
Proof.
  unfold App.pickup_list.
  eapply StronglySorted_weaken; [|apply sort_rows_StronglySorted].
  - cbn. intros a b Hab. by apply bool_decide_eq_true in Hab.
  - apply App_level_before_total.
  - intros a b c Hab Hbc. apply bool_decide_eq_true in Hab, Hbc.
    apply bool_decide_eq_true. lia.
Qed.

Lemma App2_route_before_spec (a b : App2.Reading) :
  App2.route_before a b = true ↔ App2_level_then_weight a b.
Proof. unfold App2.route_before. apply bool_decide_eq_true. Qed.

Lemma App2_route_before_total (x y : App2.Reading) :
  App2.route_before x y = true ∨ App2.route_before y x = true.
Proof.
  rewrite !App2_route_before_spec. unfold App2_level_then_weight.
  destruct (Z.lt_trichotomy (App2.level_kepenuhan x) (App2.level_kepenuhan y))
    as [?|[?|?]]; [by right; left| |by left; left].
  destruct (Qclt_le_dec (App2.berat_kg x) (App2.berat_kg y)) as [Hw|Hw].
  - right. right. split; [done|]. by apply Qclt_le_weak.
  - left. right. done.
Qed.

Lemma App2_route_before_trans :
  Transitive (λ a b, App2.route_before a b = true).
Proof.
  intros a b c. rewrite !App2_route_before_spec. unfold App2_level_then_weight.
  intros [?|[? Hab]] [?|[? Hbc]]; [left; lia..|].
  right. split; [lia|]. by etrans.
Qed.

Lemma App2_optimize_route_sorted (snap : list App2.Reading) :
  StronglySorted App2_level_then_weight (App2.optimize_route snap).
Proof.
  unfold App2.optimize_route.
  eapply StronglySorted_weaken; [|apply sort_rows_StronglySorted].
  - cbn. intros a b. apply App2_route_before_spec.
  - apply App2_route_before_total.
  - apply App2_route_before_trans.
Qed.

(** C9: when no station of the snapshot exceeds the threshold of 75, the
    pickup list is empty and the route page is the standby notice: no path
    is built and the disposal site is not appended.  The standby notice is
    an ordinary result of the page. *)
Theorem C9_no_pickup_needed (snap : list App.Reading) (snap2 : list App2.Reading) :
  (Forall (λ r, App.level_kepenuhan r ≤ 75) snap →
     App.pickup_list snap = [] ∧ App.route_page snap = Standby)
  ∧ (Forall (λ r, App2.level_kepenuhan r ≤ 75) snap2 →
     App2.optimize_route snap2 = [] ∧ App2.render_routing_page snap2 = Standby).
Proof.
  split; intros Hall.
  - assert (App.pickup_list snap = []) as Hp.
    { unfold App.pickup_list. apply sort_rows_nil. unfold rows_where_gt.
      induction Hall as [|r l Hr _ IH]; [done|].
      rewrite filter_cons_False by lia. done. }
    split; [done|]. unfold App.route_page. by rewrite Hp.
  - assert (App2.optimize_route snap2 = []) as Hp.
    { unfold App2.optimize_route. apply sort_rows_nil. unfold rows_where_gt.
      induction Hall as [|r l Hr _ IH]; [done|].
      rewrite filter_cons_False by lia. done. }
    split; [done|]. unfold App2.render_routing_page. by rewrite Hp.
Qed.

Lemma C9_no_pickup_witness :
  (App.pickup_list App_calm = [] ∧ App.route_page App_calm = Standby)
  ∧ (App2.optimize_route App2_calm = [] ∧ App2.render_routing_page App2_calm = Standby).
Proof.
  destruct (C9_no_pickup_needed App_calm App2_calm) as [HA HB].
  split; [apply HA | apply HB]; repeat constructor; vm_compute; discriminate.
Defined.

(** C2, as stated, fails on app.py: its pickup list is ordered by level
    alone, so two stations at level 90 come out with the lighter one (210
    kg) before the heavier one (250 kg). *)
Lemma C2_weight_does_not_break_ties :
  App.pickup_list App_tie = App_tie
  ∧ ¬ StronglySorted
        (λ a b, App.level_kepenuhan b < App.level_kepenuhan a
                ∨ (App.level_kepenuhan b = App.level_kepenuhan a
                   ∧ (App.berat_kg b ≤ App.berat_kg a)%Qc))
        (App.pickup_list App_tie).
Proof.
  assert (App.pickup_list App_tie = App_tie) as Hp by (vm_compute; reflexivity).
  split; [done|]. rewrite Hp. intros Hs.
  apply StronglySorted_inv in Hs as [_ Hhd].
  apply Forall_inv in Hhd. cbn in Hhd.
  destruct Hhd as [Hlt|[_ Hle]]; [lia|].
  revert Hle. apply Qclt_not_le. by vm_compute.
Qed.

(** The order among equal keys is the one thing the embedding of the sort
    by a single column has to choose.  The failure does not depend on it: a
    sort that sees the column of levels only permutes the two rows of a tie
    the same way whatever they weigh, so it leaves one of the two
    arrangements of the weights in increasing order. *)
Lemma tie_order_cannot_follow_weight (argsort : list Z → list nat) :
  argsort [90; 90] = [0; 1]%nat ∨ argsort [90; 90] = [1; 0]%nat →
  let pick (rows : list App.Reading) :=
    omap (λ i, rows !! i) (argsort (App.level_kepenuhan <$> rows)) in
  ¬ (Forall2 (λ a b, (App.berat_kg b ≤ App.berat_kg a)%Qc)
             (take 1 (pick App_tie)) (drop 1 (pick App_tie))
     ∧ Forall2 (λ a b, (App.berat_kg b ≤ App.berat_kg a)%Qc)
               (take 1 (pick (reverse App_tie))) (drop 1 (pick (reverse App_tie)))).
Proof.
  intros Hperm pick [H1 H2]. subst pick. cbn in H1, H2.
  destruct Hperm as [Heq|Heq]; rewrite Heq in H1, H2; cbn in H1, H2.
  - apply Forall2_cons_1 in H1 as [H1 _]. revert H1. apply Qclt_not_le. by vm_compute.
  - apply Forall2_cons_1 in H2 as [H2 _]. revert H2. apply Qclt_not_le. by vm_compute.
Qed.

(** C2, amended: over a snapshot in which no station appears twice, the
    plan of app2.py is in non-increasing order of level with, among equal
    levels, non-increasing weight; the pickup list of app.py is in
    non-increasing order of level (weight plays no part).  In both, no
    station appears twice, and when the list is not empty the path built
    from it visits its stations in order and ends at the disposal site. *)
Theorem C2_route_order (snap : list App.Reading) (snap2 : list App2.Reading) :
  (NoDup (App.id_tps <$> snap) →
     StronglySorted (λ a b, App.level_kepenuhan b ≤ App.level_kepenuhan a)
                    (App.pickup_list snap)
     ∧ NoDup (App.id_tps <$> App.pickup_list snap)
     ∧ (App.pickup_list snap ≠ [] →
        ∃ coords, App.route_page snap = Route (App.pickup_list snap) coords
          ∧ coords = ((λ r, (App.longitude r, App.latitude r)) <$> App.pickup_list snap)
                     ++ [App.TPA_LOCATION]
          ∧ last coords = Some App.TPA_LOCATION))
  ∧ (NoDup (App2.id_tps <$> snap2) →
     StronglySorted App2_level_then_weight (App2.optimize_route snap2)
     ∧ NoDup (App2.id_tps <$> App2.optimize_route snap2)
     ∧ (App2.optimize_route snap2 ≠ [] →
        ∃ coords, App2.render_routing_page snap2 = Route (App2.optimize_route snap2) coords
          ∧ coords = ((λ r, (App2.longitude r, App2.latitude r)) <$> App2.optimize_route snap2)
                     ++ [App2.tpa_coords]
          ∧ last coords = Some App2.tpa_coords)).
Proof.
  split; intros Hnd.
  - split; [apply App_pickup_list_sorted|]. split.
    + unfold App.pickup_list, rows_where_gt. by apply sort_filter_NoDup.
    + intros Hne. eexists. split; [|split; [reflexivity|apply last_snoc]].
      unfold App.route_page. by destruct (App.pickup_list snap).
  - split; [apply App2_optimize_route_sorted|]. split.
    + unfold App2.optimize_route, rows_where_gt. by apply sort_filter_NoDup.
    + intros Hne. eexists. split; [|split; [reflexivity|apply last_snoc]].
      unfold App2.render_routing_page. by destruct (App2.optimize_route snap2).
Qed.

Lemma C2_route_order_witness :
  (App.id_tps <$> App.pickup_list App_busy = ["TPS-10"; "TPS-09"; "TPS-13"; "TPS-04"]
   ∧ StronglySorted (λ a b, App.level_kepenuhan b ≤ App.level_kepenuhan a)
                    (App.pickup_list App_busy)
   ∧ NoDup (App.id_tps <$> App.pickup_list App_busy))
  ∧ (App2.id_tps <$> App2.optimize_route App2_busy = ["TPS-11"; "TPS-12"; "TPS-10"; "TPS-04"]
     ∧ StronglySorted App2_level_then_weight (App2.optimize_route App2_busy)
     ∧ NoDup (App2.id_tps <$> App2.optimize_route App2_busy)).
Proof.
  destruct (C2_route_order App_busy App2_busy) as [HA HB].
  split.
  - split; [vm_compute; reflexivity|].
    destruct HA as (Hs & Hn & _); [|done].
    apply (bool_decide_unpack _). vm_compute. exact I.
  - split; [vm_compute; reflexivity|].
    destruct HB as (Hs & Hn & _); [|done].
    apply (bool_decide_unpack _). vm_compute. exact I.
Defined.

(** ** The forecast *)

(** Equality of two explicit lists of rationals, element by element. *)
Ltac Qc_list_eq :=
  vm_compute;
  repeat (apply (f_equal2 cons); [apply Qc_is_canon; vm_compute; reflexivity|]);
  reflexivity.

(** The least-squares line through the totals 1000, 1100, 1200 of the days
    0, 1, 2. *)
Lemma least_squares_three_days :
  least_squares three_days three_totals = Some (Qc_of_Z 100, Qc_of_Z 1000).
Proof.
  unfold least_squares. case_decide as Hden.
  - apply (f_equal this) in Hden. vm_compute in Hden. discriminate.
  - do 2 f_equal; apply Qc_is_canon; vm_compute; reflexivity.
Qed.

(** That line passes through the three points; the line of slope 100 and
    intercept 900 misses each of them by 100. *)
Lemma squared_error_three_days :
  squared_error (Qc_of_Z 100) (Qc_of_Z 1000) three_days three_totals = Qc_of_Z 0
  ∧ squared_error (Qc_of_Z 100) (Qc_of_Z 900) three_days three_totals = Qc_of_Z 30000.
Proof. split; apply Qc_is_canon; vm_compute; reflexivity. Qed.

Lemma App_three_day_totals : (App.daily_df App_three_day_history).*2 = three_totals.
Proof. Qc_list_eq. Qed.

Lemma App2_three_day_totals : (App2.df_daily App2_three_day_history).*2 = three_totals.
Proof. Qc_list_eq. Qed.

(** C5, as stated, fails on the intercept: the days are numbered from 0, so
    the line fitted to the daily totals 1000, 1100, 1200 has intercept
    1000, not 900. *)
Lemma C5_intercept_is_not_900 :
  ∃ f, App.predict App_three_day_history = Some f
    ∧ App.intercept f = Qc_of_Z 1000 ∧ App.intercept f ≠ Qc_of_Z 900.
Proof.
  unfold App.predict. rewrite App_three_day_totals.
  change ((λ i, Qc_of_Z (Z.of_nat i)) <$> seq 0 (length three_totals)) with three_days.
  rewrite least_squares_three_days. cbn. eexists. split; [reflexivity|]. cbn.
  split; [done|]. intros Heq. apply (f_equal this) in Heq. vm_compute in Heq. discriminate.
Qed.

(** C5, amended: for a history whose daily totals over three days are 1000,
    1100 and 1200, the least-squares fit over the day indices 0, 1, 2 has
    slope 100 and intercept 1000, the total predicted for the next day
    (index 3) is 1300, and the delta against the last actual day is +100. *)
Theorem C5_forecast_three_days (df : list App.Reading) (df2 : list App2.Reading) :
  ((App.daily_df df).*2 = three_totals →
     ∃ f, App.predict df = Some f
       ∧ App.slope f = Qc_of_Z 100 ∧ App.intercept f = Qc_of_Z 1000
       ∧ App.prediction_val f = Qc_of_Z 1300 ∧ App.delta f = Qc_of_Z 100)
  ∧ ((App2.df_daily df2).*2 = three_totals →
     ∃ f, App2.predict_waste_generation df2 = Some f
       ∧ App2.coef f = Qc_of_Z 100 ∧ App2.intercept f = Qc_of_Z 1000
       ∧ App2.prediction f = Qc_of_Z 1300 ∧ App2.delta f = Qc_of_Z 100).
Proof.
  split; intros Htot.
  - unfold App.predict. rewrite Htot.
    change ((λ i, Qc_of_Z (Z.of_nat i)) <$> seq 0 (length three_totals)) with three_days.
    rewrite least_squares_three_days. cbn. eexists. split; [reflexivity|]. cbn.
    repeat split; apply Qc_is_canon; vm_compute; reflexivity.
  - unfold App2.predict_waste_generation, App2.linear_regression. rewrite Htot.
    change ((λ i, Qc_of_Z (Z.of_nat i)) <$> seq 0 (length three_totals)) with three_days.
    rewrite least_squares_three_days. cbn. eexists. split; [reflexivity|]. cbn.
    repeat split; apply Qc_is_canon; vm_compute; reflexivity.
Qed.

Lemma C5_forecast_witness :
  (∃ f, App.predict App_three_day_history = Some f
     ∧ App.slope f = Qc_of_Z 100 ∧ App.intercept f = Qc_of_Z 1000
     ∧ App.prediction_val f = Qc_of_Z 1300 ∧ App.delta f = Qc_of_Z 100)
  ∧ (∃ f, App2.predict_waste_generation App2_three_day_history = Some f
     ∧ App2.coef f = Qc_of_Z 100 ∧ App2.intercept f = Qc_of_Z 1000
     ∧ App2.prediction f = Qc_of_Z 1300 ∧ App2.delta f = Qc_of_Z 100).
Proof.
  destruct (C5_forecast_three_days App_three_day_history App2_three_day_history)
    as [HA HB].
  split; [apply HA | apply HB]; Qc_list_eq.
Defined.

(** ** Grouping *)

Lemma group_keys_Permutation (ks : list Z) : group_keys ks ≡ₚ remove_dups ks.
Proof. apply merge_sort_Permutation. Qed.

Lemma group_keys_elem_of (k : Z) (ks : list Z) : k ∈ group_keys ks ↔ k ∈ ks.
Proof. by rewrite group_keys_Permutation, elem_of_remove_dups. Qed.

Lemma group_keys_NoDup (ks : list Z) : NoDup (group_keys ks).
Proof. rewrite group_keys_Permutation. apply NoDup_remove_dups. Qed.

Lemma groupby_fst {V W} (agg : list V → W) (kvs : list (Z * V)) :
  (groupby agg kvs).*1 = group_keys kvs.*1.
Proof.
  unfold groupby. rewrite <-list_fmap_compose.
  induction (group_keys kvs.*1) as [|k l IH]; cbn; [done|]. by rewrite IH.
Qed.

Lemma zip_fmap_l {V} (σ : Z → Z) (ks : list Z) (vs : list V) :
  zip (σ <$> ks) vs = prod_map σ id <$> zip ks vs.
Proof.
  revert vs. induction ks as [|k ks IH]; intros [|v vs]; cbn; [done..|].
  by rewrite IH.
Qed.

Section Renaming.
Context (σ : Z → Z) `{!Inj (=) (=) σ}.

(** The rows of the cluster [σ k] after the renaming are those of the
    cluster [k] before it. *)
Lemma group_values_rename {V} (k : Z) (kvs : list (Z * V)) :
  group_values (σ k) (prod_map σ id <$> kvs) = group_values k kvs.
Proof.
  unfold group_values. induction kvs as [|[k' v] kvs IH]; [done|].
  rewrite fmap_cons, !filter_cons. cbn [prod_map fst snd].
  destruct (decide (σ k' = σ k)) as [Heq|Hne], (decide (k' = k)) as [Hk|Hk];
    rewrite ?fmap_cons; try (by rewrite IH).
  - by apply (inj σ) in Heq.
  - by subst.
Qed.

Lemma group_keys_rename (ks : list Z) : group_keys (σ <$> ks) ≡ₚ σ <$> group_keys ks.
Proof.
  apply NoDup_Permutation.
  - apply group_keys_NoDup.
  - apply NoDup_fmap_2; [done|]. apply group_keys_NoDup.
  - intros k. rewrite group_keys_elem_of, !list_elem_of_fmap.
    by setoid_rewrite group_keys_elem_of.
Qed.

Lemma groupby_rename {V W} (agg : list V → W) (kvs : list (Z * V)) :
  groupby agg (prod_map σ id <$> kvs) ≡ₚ prod_map σ id <$> groupby agg kvs.
Proof.
  unfold groupby at 1.
  replace ((prod_map σ id <$> kvs).*1) with (σ <$> kvs.*1)
    by (rewrite <-!list_fmap_compose; by apply list_fmap_ext).
  rewrite group_keys_rename. unfold groupby.
  rewrite <-!list_fmap_compose.
  match goal with |- ?a ≡ₚ ?b => cut (a = b); [by intros ->|] end.
  apply list_fmap_ext. intros i k _. cbn. by rewrite group_values_rename.
Qed.
End Renaming.

Lemma NoDup_fmap_inj_on {A B} (f : A → B) (l : list A) (x y : A) :
  NoDup (f <$> l) → x ∈ l → y ∈ l → f x = f y → x = y.
Proof.
  induction l as [|a l IH]; cbn; intros Hnd Hx Hy Hxy; [by inv Hx|].
  apply NoDup_cons in Hnd as [Ha Hnd].
  apply elem_of_cons in Hx as [->|Hx], Hy as [->|Hy]; [done| | |by apply IH].
  - destruct Ha. rewrite Hxy. by apply list_elem_of_fmap_2.
  - destruct Ha. rewrite <-Hxy. by apply list_elem_of_fmap_2.
Qed.

(** Sorting commutes with a renaming the order does not see, as long as
    the order separates the rows. *)
Lemma sort_rows_rename {A} (before : A → A → bool) (f : A → A) (l l' : list A) :
  (∀ x y, before (f x) (f y) = before x y) →
  (∀ x y, before x y = true ∨ before y x = true) →
  Transitive (λ a b, before a b = true) →
  (∀ x y, x ∈ l → y ∈ l → before x y = true → before y x = true → x = y) →
  l' ≡ₚ f <$> l →
  sort_rows before l' = f <$> sort_rows before l.
Proof.
  intros Hf Htot Htrans Hanti Hperm.
  apply (StronglySorted_unique_strong (λ a b, before a b = true)).
  - intros x1 x2 Hx1 Hx2 H12 H21.
    rewrite sort_rows_elem_of, Hperm in Hx1.
    apply list_elem_of_fmap in Hx1 as (a & -> & Ha).
    apply list_elem_of_fmap in Hx2 as (b & -> & Hb).
    rewrite sort_rows_elem_of in Hb. rewrite Hf in H12, H21.
    f_equal. by apply Hanti.
  - by apply sort_rows_StronglySorted.
  - eapply StronglySorted_fmap; [|by apply sort_rows_StronglySorted].
    cbn. intros x y. by rewrite Hf.
  - by rewrite !sort_rows_Permutation, Hperm.
Qed.

(** ** Cluster labels *)

(** The two orders on the mean of a cluster. *)
Lemma mean_order_total (x y : Z * Qc) :
  bool_decide (y.2 ≤ x.2)%Qc = true ∨ bool_decide (x.2 ≤ y.2)%Qc = true.
Proof.
  destruct (Qclt_le_dec x.2 y.2) as [H|H].
  - right. apply bool_decide_eq_true. by apply Qclt_le_weak.
  - left. by apply bool_decide_eq_true.
Qed.

Lemma mean_order_trans_desc :
  Transitive (λ a b : Z * Qc, bool_decide (b.2 ≤ a.2)%Qc = true).
Proof.
  intros a b c Hab Hbc. apply bool_decide_eq_true in Hab, Hbc.
  apply bool_decide_eq_true. by etrans.
Qed.

Lemma mean_order_trans_asc :
  Transitive (λ a b : Z * Qc, bool_decide (a.2 ≤ b.2)%Qc = true).
Proof.
  intros a b c Hab Hbc. apply bool_decide_eq_true in Hab, Hbc.
  apply bool_decide_eq_true. by etrans.
Qed.

(** The index of [cluster_avg] and of [cluster_means] holds the ids that
    occur in the column of clusters, each once. *)
Lemma App_cluster_avg_index (levels cluster : list Z) :
  length cluster = length levels →
  (App.cluster_avg levels cluster).*1 ≡ₚ group_keys cluster.
Proof.
  intros Hlen. unfold App.cluster_avg.
  rewrite sort_rows_Permutation, groupby_fst, fst_zip by lia. done.
Qed.

Lemma App2_cluster_means_index (levels cluster : list Z) :
  length cluster = length levels →
  (App2.cluster_means levels cluster).*1 ≡ₚ group_keys cluster.
Proof.
  intros Hlen. unfold App2.cluster_means.
  rewrite sort_rows_Permutation, groupby_fst, fst_zip by lia. done.
Qed.

Section RenamedClusters.
Context (σ : Z → Z) `{!Inj (=) (=) σ}.

(** Renaming the clusters renames the index of the sorted means and
    nothing else, when no two clusters have the same mean. *)
Lemma App_cluster_avg_rename (levels cluster : list Z) :
  NoDup (App.cluster_avg levels cluster).*2 →
  App.cluster_avg levels (σ <$> cluster)
  = prod_map σ id <$> App.cluster_avg levels cluster.
Proof.
  intros Hnd. unfold App.cluster_avg in *. rewrite zip_fmap_l.
  rewrite sort_rows_Permutation in Hnd.
  apply sort_rows_rename.
  - done.
  - apply mean_order_total.
  - apply mean_order_trans_desc.
  - intros x y Hx Hy Hxy Hyx. apply bool_decide_eq_true in Hxy, Hyx.
    eapply (NoDup_fmap_inj_on snd); [exact Hnd|done..|]. by apply Qcle_antisym.
  - by apply groupby_rename.
Qed.

Lemma App2_cluster_means_rename (levels cluster : list Z) :
  NoDup (App2.cluster_means levels cluster).*2 →
  App2.cluster_means levels (σ <$> cluster)
  = prod_map σ id <$> App2.cluster_means levels cluster.
Proof.
  intros Hnd. unfold App2.cluster_means in *. rewrite zip_fmap_l.
  rewrite sort_rows_Permutation in Hnd.
  apply sort_rows_rename.
  - done.
  - intros x y. destruct (mean_order_total x y); auto.
  - apply mean_order_trans_asc.
  - intros x y Hx Hy Hxy Hyx. apply bool_decide_eq_true in Hxy, Hyx.
    eapply (NoDup_fmap_inj_on snd); [exact Hnd|done..|]. by apply Qcle_antisym.
  - by apply groupby_rename.
Qed.

Lemma lookup_insert_rename (m m' : gmap Z Priority) (k c : Z) (p : Priority) :
  m' !! σ c = m !! c → <[σ k := p]> m' !! σ c = <[k := p]> m !! c.
Proof.
  intros Hm. destruct (decide (k = c)) as [->|Hne].
  - by rewrite !lookup_insert_eq.
  - rewrite !lookup_insert_ne; [done..|]. intros Heq. by apply (inj σ) in Heq.
Qed.

(** [priority_map] after the renaming is [priority_map] before it, read
    through the renaming. *)
Lemma App_priority_map_rename (avg : list (Z * Qc)) :
  match App.priority_map avg, App.priority_map (prod_map σ id <$> avg) with
  | Some pm, Some pm' => ∀ c, pm' !! σ c = pm !! c
  | None, None => True
  | _, _ => False
  end.
Proof.
  unfold App.priority_map.
  destruct avg as [|[c0 ?] [|[c1 ?] [|[c2 ?] avg]]]; cbn; [done..|].
  intros c. by do 3 apply lookup_insert_rename.
Qed.

Lemma App2_build_mapping_rename (index : list Z) (i : nat) (m m' : gmap Z Priority) :
  (∀ c, m' !! σ c = m !! c) →
  match App2.build_mapping i index m, App2.build_mapping i (σ <$> index) m' with
  | Some r, Some r' => ∀ c, r' !! σ c = r !! c
  | None, None => True
  | _, _ => False
  end.
Proof.
  revert i m m'. induction index as [|k index IH]; intros i m m' Hm; cbn; [done|].
  destruct (App2.labels !! i) as [l|]; cbn; [|done].
  apply IH. intros c. by apply lookup_insert_rename.
Qed.
End RenamedClusters.

(** With the three ids 0, 1, 2 all in use, [priority_map] is defined and
    covers every row. *)
Lemma App_priority_map_covers (levels cluster : list Z) :
  length cluster = length levels →
  (∀ c, c ∈ cluster ↔ c ∈ [0; 1; 2]) →
  ∃ pm, App.priority_map (App.cluster_avg levels cluster) = Some pm
    ∧ ∀ c, c ∈ cluster → is_Some (pm !! c).
Proof.
  intros Hlen Hids.
  pose proof (App_cluster_avg_index levels cluster Hlen) as Hidx.
  assert (group_keys cluster ≡ₚ [0; 1; 2]) as Hkeys.
  { apply NoDup_Permutation; [apply group_keys_NoDup| |].
    - apply (bool_decide_unpack _). by vm_compute.
    - intros c. by rewrite group_keys_elem_of. }
  rewrite Hkeys in Hidx. unfold App.priority_map.
  pose proof (Permutation_length Hidx) as Hl.
  destruct ((App.cluster_avg levels cluster).*1) as [|c0 [|c1 [|c2 [|? ?]]]];
    try done.
  eexists. split; [done|]. intros c Hc.
  apply Hids in Hc. rewrite <-Hidx in Hc.
  rewrite !elem_of_cons, elem_of_nil in Hc. rewrite !lookup_insert_is_Some'.
  destruct Hc as [->|[->|[->|[]]]]; auto.
Qed.

(** With at most three clusters in use, the mapping of app2.py is defined
    and covers every row. *)
Lemma App2_build_mapping_covers (index : list Z) (i : nat) (m : gmap Z Priority) :
  (i + length index ≤ 3)%nat →
  ∃ r, App2.build_mapping i index m = Some r
    ∧ (∀ c, c ∈ index → is_Some (r !! c))
    ∧ (∀ c, is_Some (m !! c) → is_Some (r !! c)).
Proof.
  revert i m. induction index as [|k index IH]; intros i m Hi; cbn.
  - eexists. split; [done|]. split; [|done]. intros c Hc. by inv Hc.
  - cbn in Hi. destruct (App2.labels !! i) as [l|] eqn:Hl.
    2:{ apply lookup_ge_None in Hl. cbn in Hl. lia. }
    cbn. destruct (IH (S i) (<[k:=l]> m) ltac:(lia)) as (r & Hr & Hin & Hkeep).
    exists r. split; [done|]. split.
    + intros c [->|Hc]%elem_of_cons; [|by apply Hin].
      apply Hkeep. rewrite lookup_insert_is_Some'. by left.
    + intros c Hc. apply Hkeep. rewrite lookup_insert_is_Some'. by right.
Qed.

Lemma App2_cluster_means_short (levels cluster : list Z) :
  length cluster = length levels →
  (∀ c, c ∈ cluster → c ∈ [0; 1; 2]) →
  (length (App2.cluster_means levels cluster).*1 ≤ 3)%nat.
Proof.
  intros Hlen Hids.
  rewrite (App2_cluster_means_index levels cluster Hlen).
  change 3%nat with (length [0; 1; 2]).
  apply submseteq_length, NoDup_submseteq; [apply group_keys_NoDup|].
  intros c. rewrite group_keys_elem_of. apply Hids.
Qed.

Global Instance swap_0_1_inj : Inj (=) (=) swap_0_1.
Proof. intros x y. unfold swap_0_1. repeat case_decide; lia. Qed.

(** C8, as stated, fails on both applications: app.py labels a snapshot of
    exactly three stations Unknown, and app2.py returns a snapshot of two
    stations as it was given, with no label at all. *)
Lemma C8_three_stations_are_unknown :
  App.priority_status fit_0_1_2 App_calm = Some [App.Unknown; App.Unknown; App.Unknown]
  ∧ App2.perform_clustering fit_0_1_2 (take 2 App2_calm)
    = Some (App2.Unchanged (take 2 App2_calm))
  ∧ App2_cluster_label (App2.perform_clustering fit_0_1_2 (take 2 App2_calm)) = None.
Proof. repeat split. Qed.

(** C8, amended: app.py labels every row of a snapshot of three stations
    or fewer Unknown, and every row of a larger snapshot High, Medium or
    Low when the clustering uses its three ids; app2.py returns a snapshot
    of fewer than three stations unchanged, and labels every row of a
    snapshot of at least three stations Low, Medium or High.  None of the
    four cases raises. *)
Theorem C8_clustering_labels (fit_predict : list (Z * Qc) → list Z)
    (snap : list App.Reading) (snap2 : list App2.Reading) :
  let X := (λ r, (App.level_kepenuhan r, App.berat_kg r)) <$> snap in
  let X2 := (λ r, (App2.level_kepenuhan r, App2.berat_kg r)) <$> snap2 in
  ((length snap ≤ 3)%nat →
     App.priority_status fit_predict snap = Some (replicate (length snap) App.Unknown))
  ∧ ((3 < length snap)%nat → length (fit_predict X) = length snap →
     (∀ c, c ∈ fit_predict X ↔ c ∈ [0; 1; 2]) →
     ∃ col, App.priority_status fit_predict snap = Some col
       ∧ length col = length snap
       ∧ Forall (λ s, ∃ p, s = App.Labelled p) col)
  ∧ ((length snap2 < 3)%nat →
     App2.perform_clustering fit_predict snap2 = Some (App2.Unchanged snap2))
  ∧ ((3 ≤ length snap2)%nat → length (fit_predict X2) = length snap2 →
     (∀ c, c ∈ fit_predict X2 → c ∈ [0; 1; 2]) →
     ∃ col, App2.perform_clustering fit_predict snap2
            = Some (App2.WithLabels snap2 (fit_predict X2) col)
       ∧ length col = length snap2
       ∧ Forall is_Some col).
Proof.
  intros X X2. split; [|split; [|split]].
  - intros Hlen. unfold App.priority_status. rewrite decide_False by lia. done.
  - intros Hlen Hfit Hids. unfold App.priority_status. rewrite decide_True by lia.
    fold X.
    destruct (App_priority_map_covers (App.level_kepenuhan <$> snap) (fit_predict X))
      as (pm & -> & Hpm); [by rewrite length_fmap|done|].
    cbn. eexists. split; [done|]. split; [by rewrite length_fmap|].
    apply Forall_fmap, Forall_forall. intros c Hc. cbn.
    destruct (Hpm c Hc) as [p ->]. by exists p.
  - intros Hlen. unfold App2.perform_clustering. rewrite decide_True by lia. done.
  - intros Hlen Hfit Hids. unfold App2.perform_clustering. rewrite decide_False by lia.
    fold X2.
    destruct (App2_build_mapping_covers
                (App2.cluster_means (App2.level_kepenuhan <$> snap2) (fit_predict X2)).*1
                0 ∅) as (m & -> & Hm & _).
    { cbn. apply App2_cluster_means_short; [by rewrite length_fmap|done]. }
    cbn. eexists. split; [done|]. split; [by rewrite length_fmap|].
    apply Forall_fmap, Forall_forall. intros c Hc. cbn.
    apply Hm. rewrite App2_cluster_means_index by (by rewrite length_fmap).
    by apply group_keys_elem_of.
Qed.

Lemma C8_clustering_witness :
  (App.priority_status fit_0_1_2 App_calm = Some (replicate 3 App.Unknown))
  ∧ (∃ col, App.priority_status fit_2_0_1_0_1 App_busy = Some col
       ∧ length col = 5%nat ∧ Forall (λ s, ∃ p, s = App.Labelled p) col)
  ∧ (∃ col, App2.perform_clustering fit_2_0_1_0_1 App2_busy
            = Some (App2.WithLabels App2_busy [2; 0; 1; 0; 1] col)
       ∧ length col = 5%nat ∧ Forall is_Some col).
Proof.
  destruct (C8_clustering_labels fit_0_1_2 App_calm App2_calm) as (HU & _).
  destruct (C8_clustering_labels fit_2_0_1_0_1 App_busy App2_busy) as (_ & HA & _ & HB).
  split; [apply HU; cbn; lia|].
  split; [apply HA | apply HB]; try (cbn; lia); try reflexivity;
    intros c; unfold fit_2_0_1_0_1; rewrite !elem_of_cons, elem_of_nil; intuition.
Defined.

(** ** Labels and means *)

Lemma groupby_elem_of {V W} (agg : list V → W) (kvs : list (Z * V)) (x : Z * W) :
  x ∈ groupby agg kvs → x.2 = agg (group_values x.1 kvs).
Proof.
  unfold groupby. intros (k & -> & _)%list_elem_of_fmap. done.
Qed.

Lemma App_cluster_avg_elem_of (levels cluster : list Z) (x : Z * Qc) :
  x ∈ App.cluster_avg levels cluster → x.2 = cluster_mean levels cluster x.1.
Proof.
  unfold App.cluster_avg. rewrite sort_rows_elem_of. apply groupby_elem_of.
Qed.

Lemma App2_cluster_means_elem_of (levels cluster : list Z) (x : Z * Qc) :
  x ∈ App2.cluster_means levels cluster → x.2 = cluster_mean levels cluster x.1.
Proof.
  unfold App2.cluster_means. rewrite sort_rows_elem_of. apply groupby_elem_of.
Qed.

Lemma App_cluster_avg_sorted (levels cluster : list Z) :
  StronglySorted (λ a b : Z * Qc, (b.2 ≤ a.2)%Qc) (App.cluster_avg levels cluster).
Proof.
  unfold App.cluster_avg.
  eapply StronglySorted_weaken; [|apply sort_rows_StronglySorted].
  - cbn. intros a b Hab. by apply bool_decide_eq_true in Hab.
  - apply mean_order_total.
  - apply mean_order_trans_desc.
Qed.

Lemma App2_cluster_means_sorted (levels cluster : list Z) :
  StronglySorted (λ a b : Z * Qc, (a.2 ≤ b.2)%Qc) (App2.cluster_means levels cluster).
Proof.
  unfold App2.cluster_means.
  eapply StronglySorted_weaken; [|apply sort_rows_StronglySorted].
  - cbn. intros a b Hab. by apply bool_decide_eq_true in Hab.
  - intros x y. destruct (mean_order_total x y); auto.
  - apply mean_order_trans_asc.
Qed.

Lemma App_cluster_avg_NoDup (levels cluster : list Z) :
  NoDup (App.cluster_avg levels cluster).*1.
Proof.
  unfold App.cluster_avg. rewrite sort_rows_Permutation, groupby_fst.
  apply group_keys_NoDup.
Qed.

Lemma App2_cluster_means_NoDup (levels cluster : list Z) :
  NoDup (App2.cluster_means levels cluster).*1.
Proof.
  unfold App2.cluster_means. rewrite sort_rows_Permutation, groupby_fst.
  apply group_keys_NoDup.
Qed.

Lemma StronglySorted_lookup {A} (R : A → A → Prop) (l : list A) (i j : nat) (x y : A) :
  StronglySorted R l → l !! i = Some x → l !! j = Some y → (i < j)%nat → R x y.
Proof.
  intros Hs. revert i j. induction Hs as [|a l _ IH Ha]; intros i j Hi Hj Hij; [done|].
  destruct j as [|j]; [lia|]. cbn in Hj. destruct i as [|i]; cbn in Hi.
  - injection Hi as ->. rewrite Forall_forall in Ha.
    apply Ha. by eapply list_elem_of_lookup_2.
  - apply (IH i j); [done..|lia].
Qed.

(** In app.py a cluster of lower mean never gets a higher label. *)
Lemma App_priority_map_ordered (levels cluster : list Z) (pm : gmap Z Priority)
    (c c' : Z) (p p' : Priority) :
  App.priority_map (App.cluster_avg levels cluster) = Some pm →
  pm !! c = Some p → pm !! c' = Some p' →
  (cluster_mean levels cluster c < cluster_mean levels cluster c')%Qc →
  priority_rank p < priority_rank p'.
Proof.
  intros Hpm Hp Hp' Hlt.
  pose proof (App_cluster_avg_sorted levels cluster) as Hs.
  pose proof (App_cluster_avg_NoDup levels cluster) as Hnd.
  pose proof (App_cluster_avg_elem_of levels cluster) as Hmean.
  unfold App.priority_map in Hpm.
  destruct (App.cluster_avg levels cluster) as [|[c0 m0] [|[c1 m1] [|[c2 m2] avg]]];
    try done.
  cbn in Hpm. injection Hpm as <-.
  pose proof (Hmean (c0, m0) ltac:(left)) as H0.
  pose proof (Hmean (c1, m1) ltac:(right; left)) as H1.
  pose proof (Hmean (c2, m2) ltac:(right; right; left)) as H2.
  cbn in H0, H1, H2, Hnd.
  apply NoDup_cons in Hnd as [Hn0 Hnd]. apply NoDup_cons in Hnd as [Hn1 Hnd].
  apply NoDup_cons in Hnd as [Hn2 _].
  rewrite !not_elem_of_cons in Hn0, Hn1.
  apply StronglySorted_inv in Hs as [Hs H01]. apply StronglySorted_inv in Hs as [_ H12].
  apply Forall_cons in H01 as [H01 H02]. apply Forall_cons in H02 as [H02 _].
  apply Forall_cons in H12 as [H12 _]. cbn in H01, H02, H12.
  rewrite !lookup_insert in Hp, Hp'. rewrite lookup_empty in Hp, Hp'.
  repeat case_decide; simplify_eq; cbn; try lia; exfalso;
    (eapply Qclt_not_le; [exact Hlt|]); try done; by etrans.
Qed.

(** The mapping of app2.py gives the cluster in position [k] of the index
    the label in position [k]. *)
Lemma App2_build_mapping_lookup (index : list Z) (i : nat) (m r : gmap Z Priority)
    (k : nat) (c : Z) :
  NoDup index → App2.build_mapping i index m = Some r → index !! k = Some c →
  r !! c = App2.labels !! (i + k)%nat.
Proof.
  revert i m k. induction index as [|c0 index IH]; intros i m k Hnd Hr Hk; [done|].
  cbn in Hr. destruct (App2.labels !! i) as [l|] eqn:Hl; [|done]. cbn in Hr.
  apply NoDup_cons in Hnd as [Hc0 Hnd].
  destruct k as [|k]; cbn in Hk.
  - injection Hk as ->. rewrite Nat.add_0_r, Hl.
    clear IH Hl. revert i m Hr.
    assert (∀ idx j (m' : gmap Z Priority) r',
              c ∉ idx → App2.build_mapping j idx m' = Some r' → r' !! c = m' !! c) as Hkeep.
    { induction idx as [|c1 idx IHi]; intros j m' r' Hni Hb; cbn in Hb.
      - by injection Hb as ->.
      - destruct (App2.labels !! j); [|done]. cbn in Hb.
        apply not_elem_of_cons in Hni as [Hne Hni].
        rewrite (IHi _ _ _ Hni Hb). by rewrite lookup_insert_ne. }
    intros i m Hr. rewrite (Hkeep _ _ _ _ Hc0 Hr). by rewrite lookup_insert_eq.
  - rewrite (IH (S i) _ k Hnd Hr Hk). f_equal. lia.
Qed.

Lemma App2_labels_rank (k : nat) (p : Priority) :
  App2.labels !! k = Some p → priority_rank p = Z.of_nat k.
Proof. destruct k as [|[|[|k]]]; cbn; intros; by simplify_eq. Qed.

Lemma App2_build_mapping_dom (index : list Z) (i : nat) (m r : gmap Z Priority) (c : Z) :
  App2.build_mapping i index m = Some r → is_Some (r !! c) →
  c ∈ index ∨ is_Some (m !! c).
Proof.
  revert i m. induction index as [|c0 index IH]; intros i m Hr Hc; cbn in Hr.
  - injection Hr as ->. by right.
  - destruct (App2.labels !! i); [|done]. cbn in Hr.
    destruct (IH _ _ Hr Hc) as [Hin|Hin]; [left; by right|].
    apply lookup_insert_is_Some' in Hin as [->|Hin]; [left; by left|by right].
Qed.

(** In app2.py a cluster of lower mean never gets a higher label. *)
Lemma App2_mapping_ordered (levels cluster : list Z) (m : gmap Z Priority)
    (c c' : Z) (p p' : Priority) :
  App2.build_mapping 0 (App2.cluster_means levels cluster).*1 ∅ = Some m →
  m !! c = Some p → m !! c' = Some p' →
  (cluster_mean levels cluster c < cluster_mean levels cluster c')%Qc →
  priority_rank p < priority_rank p'.
Proof.
  intros Hm Hp Hp' Hlt.
  pose proof (App2_cluster_means_sorted levels cluster) as Hs.
  pose proof (App2_cluster_means_NoDup levels cluster) as Hnd.
  pose proof (App2_cluster_means_elem_of levels cluster) as Hmean.
  assert (∀ c p, m !! c = Some p →
            ∃ k, (App2.cluster_means levels cluster) !! k
                 = Some (c, cluster_mean levels cluster c)) as Hpos.
  { intros c1 p1 Hc1.
    destruct (App2_build_mapping_dom _ _ _ _ c1 Hm ltac:(by eexists)) as [Hin|[? Hin]];
      [|by rewrite lookup_empty in Hin].
    apply list_elem_of_fmap in Hin as ([c2 m2] & -> & Hin).
    pose proof (Hmean _ Hin) as Hm2. cbn in Hm2. subst m2.
    by apply list_elem_of_lookup in Hin. }
  destruct (Hpos c p Hp) as [k Hk], (Hpos c' p' Hp') as [k' Hk'].
  assert ((App2.cluster_means levels cluster).*1 !! k = Some c) as Hik
    by (by rewrite list_lookup_fmap, Hk).
  assert ((App2.cluster_means levels cluster).*1 !! k' = Some c') as Hik'
    by (by rewrite list_lookup_fmap, Hk').
  rewrite (App2_build_mapping_lookup _ 0 ∅ m k c Hnd Hm Hik) in Hp.
  rewrite (App2_build_mapping_lookup _ 0 ∅ m k' c' Hnd Hm Hik') in Hp'.
  cbn in Hp, Hp'. apply App2_labels_rank in Hp, Hp'. rewrite Hp, Hp'.
  destruct (decide (k < k')%nat) as [|Hge]; [lia|]. exfalso.
  destruct (decide (k = k')) as [->|Hne].
  - rewrite Hk in Hk'. injection Hk' as Heq. subst c'.
    by apply Qclt_not_eq in Hlt.
  - assert (k' < k)%nat as Hkk by lia.
    pose proof (StronglySorted_lookup _ _ _ _ _ _ Hs Hk' Hk Hkk) as Hle. cbn in Hle.
    by apply Qclt_not_le in Hlt.
Qed.

(** The labels of the stations are ordered as the mean levels of their
    clusters. *)
Lemma App_labels_ordered (fit_predict : list (Z * Qc) → list Z) (snap : list App.Reading)
    (col : list App.Status) (i j : nat) (c c' : Z) (p p' : Priority) :
  let X := (λ r, (App.level_kepenuhan r, App.berat_kg r)) <$> snap in
  let levels := App.level_kepenuhan <$> snap in
  App.priority_status fit_predict snap = Some col →
  fit_predict X !! i = Some c → fit_predict X !! j = Some c' →
  col !! i = Some (App.Labelled p) → col !! j = Some (App.Labelled p') →
  (cluster_mean levels (fit_predict X) c < cluster_mean levels (fit_predict X) c')%Qc →
  priority_rank p < priority_rank p'.
Proof.
  intros X levels Hcol Hi Hj Hp Hp' Hlt. unfold App.priority_status in Hcol.
  fold X levels in Hcol. case_decide.
  - destruct (App.priority_map (App.cluster_avg levels (fit_predict X))) as [pm|] eqn:Hpm;
      [|done].
    cbn in Hcol. injection Hcol as <-.
    rewrite list_lookup_fmap, Hi in Hp. rewrite list_lookup_fmap, Hj in Hp'.
    cbn in Hp, Hp'.
    destruct (pm !! c) as [q|] eqn:Hq; [|done].
    destruct (pm !! c') as [q'|] eqn:Hq'; [|done].
    simplify_eq. by eapply App_priority_map_ordered.
  - injection Hcol as <-. apply lookup_replicate in Hp as [? _]. done.
Qed.

Lemma App2_labels_ordered (fit_predict : list (Z * Qc) → list Z)
    (snap : list App2.Reading) (rows : list App2.Reading) (ids : list Z)
    (col : list (option Priority)) (i j : nat) (c c' : Z) (p p' : Priority) :
  let levels := App2.level_kepenuhan <$> snap in
  App2.perform_clustering fit_predict snap = Some (App2.WithLabels rows ids col) →
  ids !! i = Some c → ids !! j = Some c' →
  col !! i = Some (Some p) → col !! j = Some (Some p') →
  (cluster_mean levels ids c < cluster_mean levels ids c')%Qc →
  priority_rank p < priority_rank p'.
Proof.
  intros levels Hcol Hi Hj Hp Hp' Hlt. unfold App2.perform_clustering in Hcol.
  fold levels in Hcol. case_decide; [done|].
  destruct (App2.build_mapping 0 _ ∅) as [m|] eqn:Hm; [|done].
  cbn in Hcol. simplify_eq.
  rewrite list_lookup_fmap, Hi in Hp. rewrite list_lookup_fmap, Hj in Hp'.
  cbn in Hp, Hp'. simplify_eq. by eapply App2_mapping_ordered.
Qed.

(** C3, as stated, fails when two clusters have the same mean level: the
    tie is broken by the cluster id, so exchanging the ids 0 and 1
    exchanges the labels of the first two stations, in both applications. *)
Lemma C3_tie_broken_by_cluster_id :
  (App.priority_status fit_0_1_2_2 App_tied_means
   = Some [App.Labelled MediumPriority; App.Labelled LowPriority;
           App.Labelled HighPriority; App.Labelled HighPriority]
   ∧ App.priority_status (λ X, swap_0_1 <$> fit_0_1_2_2 X) App_tied_means
     = Some [App.Labelled LowPriority; App.Labelled MediumPriority;
             App.Labelled HighPriority; App.Labelled HighPriority])
  ∧ (App2_cluster_label (App2.perform_clustering fit_0_1_2_2 App2_tied_means)
     = Some [Some LowPriority; Some MediumPriority; Some HighPriority; Some HighPriority]
     ∧ App2_cluster_label
         (App2.perform_clustering (λ X, swap_0_1 <$> fit_0_1_2_2 X) App2_tied_means)
       = Some [Some MediumPriority; Some LowPriority; Some HighPriority; Some HighPriority]).
Proof. repeat split; vm_compute; reflexivity. Qed.

(** C3, amended: the label of a station follows the rank of the mean level
    of its cluster: a station whose cluster has a higher mean level than
    that of another station has the higher label of the two; and when no
    two clusters have the same mean level, renaming the cluster ids by any
    one-to-one renaming changes no label, in either application. *)
Theorem C3_labels_follow_rank (σ : Z → Z) `{!Inj (=) (=) σ}
    (fit_predict : list (Z * Qc) → list Z)
    (snap : list App.Reading) (snap2 : list App2.Reading) :
  let X := (λ r, (App.level_kepenuhan r, App.berat_kg r)) <$> snap in
  let X2 := (λ r, (App2.level_kepenuhan r, App2.berat_kg r)) <$> snap2 in
  let levels := App.level_kepenuhan <$> snap in
  let levels2 := App2.level_kepenuhan <$> snap2 in
  ((∀ col i j c c' p p',
      App.priority_status fit_predict snap = Some col →
      fit_predict X !! i = Some c → fit_predict X !! j = Some c' →
      col !! i = Some (App.Labelled p) → col !! j = Some (App.Labelled p') →
      (cluster_mean levels (fit_predict X) c < cluster_mean levels (fit_predict X) c')%Qc →
      priority_rank p < priority_rank p')
   ∧ (NoDup (App.cluster_avg levels (fit_predict X)).*2 →
      App.priority_status (λ X, σ <$> fit_predict X) snap
      = App.priority_status fit_predict snap))
  ∧ ((∀ col i j c c' p p',
        App2_cluster_label (App2.perform_clustering fit_predict snap2) = Some col →
        fit_predict X2 !! i = Some c → fit_predict X2 !! j = Some c' →
        col !! i = Some (Some p) → col !! j = Some (Some p') →
        (cluster_mean levels2 (fit_predict X2) c
         < cluster_mean levels2 (fit_predict X2) c')%Qc →
        priority_rank p < priority_rank p')
     ∧ (NoDup (App2.cluster_means levels2 (fit_predict X2)).*2 →
        App2_cluster_label (App2.perform_clustering (λ X, σ <$> fit_predict X) snap2)
        = App2_cluster_label (App2.perform_clustering fit_predict snap2))).
Proof.
  intros X X2 levels levels2. split; split.
  - intros col i j c c' p p'. apply App_labels_ordered.
  - intros Hnd. unfold App.priority_status. case_decide; [|done]. fold X levels.
    rewrite (App_cluster_avg_rename σ) by done.
    pose proof (App_priority_map_rename σ (App.cluster_avg levels (fit_predict X))) as Hpm.
    destruct (App.priority_map (App.cluster_avg _ _)) as [pm|],
      (App.priority_map (prod_map σ id <$> _)) as [pm'|]; try done.
    cbn. f_equal. rewrite <-list_fmap_compose. apply list_fmap_ext.
    intros i c _. cbn. by rewrite Hpm.
  - intros col i j c c' p p' Hcol.
    destruct (App2.perform_clustering fit_predict snap2) as [[rows|rows ids col']|] eqn:Hpc;
      try done.
    cbn in Hcol. injection Hcol as ->.
    assert (ids = fit_predict X2) as ->.
    { unfold App2.perform_clustering in Hpc. case_decide; [done|].
      destruct (App2.build_mapping 0 _ ∅); [|done]. cbn in Hpc. by simplify_eq. }
    by eapply App2_labels_ordered.
  - intros Hnd. unfold App2.perform_clustering. case_decide; [done|]. fold X2 levels2.
    rewrite (App2_cluster_means_rename σ) by done.
    rewrite <-list_fmap_compose.
    pose proof (App2_build_mapping_rename σ
      (App2.cluster_means levels2 (fit_predict X2)).*1 0 ∅ ∅ ltac:(done)) as Hm.
    rewrite <-list_fmap_compose in Hm.
    destruct (App2.build_mapping 0 (App2.cluster_means _ _).*1 ∅) as [m|],
      (App2.build_mapping 0 (_ <$> App2.cluster_means _ _) ∅) as [m'|]; try done.
    cbn. f_equal. rewrite <-list_fmap_compose. apply list_fmap_ext.
    intros i c _. cbn. by rewrite Hm.
Qed.

Lemma C3_labels_follow_rank_witness :
  App.priority_status (λ X, swap_0_1 <$> fit_2_0_1_0_1 X) App_busy
  = App.priority_status fit_2_0_1_0_1 App_busy
  ∧ App2_cluster_label
      (App2.perform_clustering (λ X, swap_0_1 <$> fit_2_0_1_0_1 X) App2_busy)
    = App2_cluster_label (App2.perform_clustering fit_2_0_1_0_1 App2_busy).
Proof.
  destruct (C3_labels_follow_rank swap_0_1 fit_2_0_1_0_1 App_busy App2_busy)
    as [[_ HA] [_ HB]].
  split; [apply HA | apply HB]; apply (bool_decide_unpack _); vm_compute; exact I.
Defined.

(** The labels of that clustering, to see the ranks at work. *)
Example C3_labels_of_busy :
  App.priority_status fit_2_0_1_0_1 App_busy
  = Some [App.Labelled LowPriority; App.Labelled MediumPriority;
          App.Labelled HighPriority; App.Labelled MediumPriority;
          App.Labelled HighPriority].
Proof. vm_compute. reflexivity. Qed.

(** ** Sources that deliver the same draws *)

(** The counting source satisfies the interface, and delivers the draws of
    the plain one. *)
#[export] Instance lcg_counted : RandomSource (Z * nat) := {|
  rand_range := counted_range;
  rand_real := counted_real;
  rand_index := counted_index;
  rand_range_spec lo hi s := lcg_range_spec lo hi s.1;
  rand_real_spec lo hi s := lcg_real_spec lo hi s.1;
  rand_index_spec n s := lcg_index_spec n s.1
|}.

Lemma lcg_counted_same_draws :
  SameDraws (G1 := Z) (G2 := Z * nat) (λ s c, s = c.1).
Proof.
  split; [intros lo hi s [s' n] -> | intros lo hi s [s' n] -> | intros k s [s' n] ->];
    done.
Qed.

Section SameDrawsFacts.
Context {G1 G2 : Type} `{!RandomSource G1, !RandomSource G2}.
Context (R : G1 → G2 → Prop) (HS : SameDraws R).

(** A computation reads the two sources alike when, from related states,
    it returns equal results and related states. *)
Definition alike {A} (c1 : G1 → A * G1) (c2 : G2 → A * G2) : Prop :=
  ∀ g1 g2, R g1 g2 → (c1 g1).1 = (c2 g2).1 ∧ R (c1 g1).2 (c2 g2).2.

Lemma for_each_alike {L A} (read1 : L → G1 → A * G1) (read2 : L → G2 → A * G2) xs :
  (∀ x, alike (read1 x) (read2 x)) → alike (for_each read1 xs) (for_each read2 xs).
Proof.
  intros Hread. induction xs as [|x xs IH]; intros g1 g2 HR; cbn; [done|].
  destruct (Hread x g1 g2 HR) as [Hr HR1].
  destruct (read1 x g1) as [r1 g1'], (read2 x g2) as [r2 g2']. cbn in Hr, HR1.
  destruct (IH g1' g2' HR1) as [Hrs HR2].
  destruct (for_each read1 xs g1') as [rs1 g1''], (for_each read2 xs g2') as [rs2 g2''].
  cbn in *. by subst.
Qed.

Lemma hourly_alike {A} (body1 : Z → G1 → list A * G1) (body2 : Z → G2 → list A * G2)
    fuel t ed :
  (∀ t', alike (body1 t') (body2 t')) →
  alike (λ g, hourly body1 fuel t ed g) (λ g, hourly body2 fuel t ed g).
Proof.
  intros Hbody. revert t. induction fuel as [|fuel IH]; intros t g1 g2 HR; cbn; [done|].
  case_decide; [|done].
  destruct (Hbody t g1 g2 HR) as [Hr HR1].
  destruct (body1 t g1) as [r1 g1'], (body2 t g2) as [r2 g2']. cbn in Hr, HR1.
  destruct (IH (t + Datetime.timedelta_hours 1) g1' g2' HR1) as [Hrs HR2].
  destruct (hourly body1 fuel _ ed g1') as [rs1 g1''],
           (hourly body2 fuel _ ed g2') as [rs2 g2''].
  cbn in *. by subst.
Qed.

(** One step of a reading: the next draw on both sides. *)
Ltac same_draw :=
  match goal with
  | HR : R ?g1 ?g2 |- context [rand_range ?lo ?hi ?g1] =>
      let Heq := fresh "Heq" in
      let HR' := fresh "HR" in
      destruct (same_range R HS lo hi g1 g2 HR) as [Heq HR'];
      destruct (rand_range lo hi g1) as [? ?], (rand_range lo hi g2) as [? ?];
      cbn [fst snd] in Heq, HR'; subst; clear HR; cbv beta iota
  | HR : R ?g1 ?g2 |- context [rand_real ?lo ?hi ?g1] =>
      let Heq := fresh "Heq" in
      let HR' := fresh "HR" in
      destruct (same_real R HS lo hi g1 g2 HR) as [Heq HR'];
      destruct (rand_real lo hi g1) as [? ?], (rand_real lo hi g2) as [? ?];
      cbn [fst snd] in Heq, HR'; subst; clear HR; cbv beta iota
  | HR : R ?g1 ?g2 |- context [rand_index ?n ?g1] =>
      let Heq := fresh "Heq" in
      let HR' := fresh "HR" in
      destruct (same_index R HS n g1 g2 HR) as [Heq HR'];
      destruct (rand_index n g1) as [? ?], (rand_index n g2) as [? ?];
      cbn [fst snd] in Heq, HR'; subst; clear HR; cbv beta iota
  end.

Lemma App_read_sensor_alike t ed loc :
  alike (App.read_sensor t ed loc) (App.read_sensor t ed loc).
Proof.
  intros g1 g2 HR.
  unfold App.read_sensor, np_randint, np_uniform, choice.
  same_draw.
  case_decide; [same_draw|];
    (case_decide; [case_decide; [|case_decide]; same_draw|]);
    same_draw; (case_decide; [|same_draw]); done.
Qed.

Lemma App2_read_sensor_alike t loc :
  alike (App2.read_sensor t loc) (App2.read_sensor t loc).
Proof.
  intros g1 g2 HR.
  unfold App2.read_sensor, py_randint, py_uniform, choice.
  same_draw.
  case_decide; [same_draw|]; same_draw; (case_decide; [|same_draw]); done.
Qed.

Lemma App_generate_alike locs now :
  alike (App.generate_from locs now) (App.generate_from locs now).
Proof.
  unfold App.generate_from. apply hourly_alike. intros t.
  apply for_each_alike. intros loc. apply App_read_sensor_alike.
Qed.

Lemma App2_generate_alike locs days now :
  alike (App2.generate_from locs days now) (App2.generate_from locs days now).
Proof.
  unfold App2.generate_from. apply hourly_alike. intros t.
  apply for_each_alike. intros loc. apply App2_read_sensor_alike.
Qed.
End SameDrawsFacts.

(** ** Repeated calls *)


Section Cached.
Context {G A : Type} (body : Z → G → A * G).


End Cached.







(** * Further properties *)

(** ** The shape of a history *)

Section HistoryShape.
Context {G L R K : Type} (ts : R → Z) (ident : R → K).
Implicit Types (body : Z → G → list R * G).

(** A run over a window of [n] whole hours makes [n + 1] sweeps. *)
Lemma hourly_length body (m n fuel : nat) t ed g :
  (∀ t' g', length (body t' g').1 = m) →
  t + Z.of_nat n * Datetime.HOUR = ed → (n < fuel)%nat →
  length (hourly body fuel t ed g).1 = (S n * m)%nat.
Proof.
  intros Hm. revert fuel t g. induction n as [|n IH]; intros fuel t g Ht Hf.
  - destruct fuel as [|fuel]; [lia|]. cbn. rewrite decide_True by lia.
    pose proof (Hm t g) as Hb. destruct (body t g) as [rs g1].
    rewrite hourly_past by (unfold Datetime.timedelta_hours, Datetime.HOUR; lia).
    cbn in *. rewrite app_nil_r. lia.
  - destruct fuel as [|fuel]; [lia|]. cbn.
    assert (0 < Datetime.HOUR) by (unfold Datetime.HOUR; lia).
    rewrite decide_True by nia.
    pose proof (Hm t g) as Hb. destruct (body t g) as [rs g1].
    specialize (IH fuel (t + Datetime.timedelta_hours 1) g1
                  ltac:(unfold Datetime.timedelta_hours; lia) ltac:(lia)).
    destruct (hourly body fuel _ ed g1) as [rest g2]. cbn in *.
    rewrite length_app, Hb, IH. lia.
Qed.

(** When every sweep stamps its rows with its own hour, the rows of a run
    lie a whole number of hours after its start and not after its end, and
    they are in the order of their timestamps. *)
Lemma hourly_timestamps body fuel t ed g :
  (∀ t' g', Forall (λ r, ts r = t') (body t' g').1) →
  Forall (λ r, ∃ k : nat, ts r = t + Z.of_nat k * Datetime.HOUR ∧ ts r ≤ ed)
         (hourly body fuel t ed g).1
  ∧ StronglySorted (λ a b, ts a ≤ ts b) (hourly body fuel t ed g).1.
Proof.
  intros Hts. revert t g. induction fuel as [|fuel IH]; intros t g; cbn.
  { split; constructor. }
  case_decide as Hle; [|split; constructor].
  pose proof (Hts t g) as Hrs.
  destruct (body t g) as [rs g1].
  destruct (IH (t + Datetime.timedelta_hours 1) g1) as (Hk & Hs).
  destruct (hourly body fuel _ ed g1) as [rest g2]. cbn in *.
  assert (0 < Datetime.HOUR) as HH by (unfold Datetime.HOUR; lia).
  assert (Forall (λ r, t < ts r) rest) as Hlater.
  { eapply Forall_impl; [exact Hk|]. cbn. intros r (k & -> & _).
    unfold Datetime.timedelta_hours. nia. }
  split.
  - apply Forall_app. split.
    + eapply Forall_impl; [exact Hrs|]. cbn. intros r ->. exists 0%nat. lia.
    + eapply Forall_impl; [exact Hk|]. cbn. intros r (k & -> & Hr).
      exists (S k). unfold Datetime.timedelta_hours in *. split; [lia|done].
  - apply StronglySorted_app_2; [|clear -Hrs|done].
    + intros a b Ha Hb. rewrite Forall_forall in Hrs, Hlater.
      rewrite (Hrs a Ha). specialize (Hlater b Hb). lia.
    + induction Hrs as [|a rs Ha Hrs' IHrs]; constructor; [done|].
      eapply Forall_impl; [exact Hrs'|]. cbn. intros b ->. lia.
Qed.

(** When moreover no sweep names a row twice, no two rows of a run have
    the same timestamp and the same name. *)
Lemma hourly_keys_NoDup body fuel t ed g :
  (∀ t' g', Forall (λ r, ts r = t') (body t' g').1) →
  (∀ t' g', NoDup (ident <$> (body t' g').1)) →
  NoDup ((λ r, (ts r, ident r)) <$> (hourly body fuel t ed g).1).
Proof.
  intros Hts Hid. revert t g. induction fuel as [|fuel IH]; intros t g; cbn.
  { constructor. }
  case_decide as Hle; [|constructor].
  pose proof (Hts t g) as Hrs. pose proof (Hid t g) as Hnd.
  destruct (body t g) as [rs g1].
  pose proof (proj1 (hourly_timestamps body fuel (t + Datetime.timedelta_hours 1) ed g1 Hts))
    as Hk.
  specialize (IH (t + Datetime.timedelta_hours 1) g1).
  destruct (hourly body fuel _ ed g1) as [rest g2]. cbn in *.
  assert (0 < Datetime.HOUR) as HH by (unfold Datetime.HOUR; lia).
  assert (Forall (λ r, t < ts r) rest) as Hlater.
  { eapply Forall_impl; [exact Hk|]. cbn. intros r (k & -> & _).
    unfold Datetime.timedelta_hours. nia. }
  rewrite fmap_app. apply NoDup_app. split; [|split; [|done]].
  - clear -Hrs Hnd. induction Hrs as [|a rs Ha Hrs' IHrs]; [constructor|].
    cbn in *. apply NoDup_cons in Hnd as [Hni Hnd]. apply NoDup_cons. split.
    + intros (b & Heq & Hin)%list_elem_of_fmap_1; simplify_eq.
      apply Hni, list_elem_of_fmap. eauto.
    + by apply IHrs.
  - intros x (a & -> & Ha)%list_elem_of_fmap (b & Heq & Hb)%list_elem_of_fmap.
    rewrite Forall_forall in Hrs, Hlater.
    pose proof (Hrs a Ha). specialize (Hlater b Hb). simplify_eq. lia.
Qed.
End HistoryShape.

(** What a sweep of either application produces: the rows of the stations,
    in order, at the hour of the sweep. *)
Lemma App_sweep_rows {G : Type} `{!RandomSource G} t ed locs (g : G) :
  Forall (λ r, App.timestamp r = t) (for_each (App.read_sensor t ed) locs g).1
  ∧ App.id_tps <$> (for_each (App.read_sensor t ed) locs g).1 = App.loc_id <$> locs.
Proof.
  split.
  - apply for_each_Forall. intros loc g2 _. apply (App_read_sensor_fields t ed loc g2).
  - apply Forall2_fmap_eq, for_each_Forall2. intros loc g2 _.
    apply (App_read_sensor_fields t ed loc g2).
Qed.

Lemma App2_sweep_rows {G : Type} `{!RandomSource G} t locs (g : G) :
  Forall (λ r, App2.timestamp r = t) (for_each (App2.read_sensor t) locs g).1
  ∧ App2.id_tps <$> (for_each (App2.read_sensor t) locs g).1 = App2.loc_id <$> locs.
Proof.
  split.
  - apply for_each_Forall. intros loc g2 _. apply (App2_read_sensor_fields t loc g2).
  - apply Forall2_fmap_eq, for_each_Forall2. intros loc g2 _.
    apply (App2_read_sensor_fields t loc g2).
Qed.

(** X1: a history of app.py holds 169 sweeps of the table, one reading per
    station and per hour of the seven days, both ends of the window
    included; a history of app2.py holds 24 * days + 1 sweeps when [days]
    is not negative, and is empty otherwise. *)
Theorem X1_history_size {G : Type} `{!RandomSource G}
    (locs : list App.Location) (locs2 : list App2.Location) (days now : Z) (g : G) :
  length (App.generate_from locs now g).1 = (169 * length locs)%nat
  ∧ (0 ≤ days →
     length (App2.generate_from locs2 days now g).1
     = (Z.to_nat (24 * days + 1) * length locs2)%nat)
  ∧ (days < 0 → (App2.generate_from locs2 days now g).1 = []).
Proof.
  split; [|split].
  - unfold App.generate_from.
    apply (hourly_length _ (length locs) 168 170); [|
      unfold Datetime.timedelta_days, Datetime.DAY, Datetime.HOUR; lia | lia].
    intros. apply for_each_length.
  - intros Hd. unfold App2.generate_from.
    rewrite (hourly_length _ (length locs2) (Z.to_nat (24 * days))); [
      f_equal; lia | |
      unfold Datetime.timedelta_days, Datetime.DAY, Datetime.HOUR; lia | lia].
    intros. apply for_each_length.
  - apply App2_generate_negative.
Qed.

Lemma X1_history_size_witness :
  length (App2.generate_data 7 clock_1315 (42 : Z)).1 = 3380%nat
  ∧ length (App2.generate_data 0 clock_1315 (42 : Z)).1 = 20%nat
  ∧ (App2.generate_data (-1) clock_1315 (42 : Z)).1 = [].
Proof.
  destruct (X1_history_size App.LOCATIONS App2.tps_locations 7 clock_1315 (42 : Z))
    as (_ & H7 & _).
  destruct (X1_history_size App.LOCATIONS App2.tps_locations 0 clock_1315 (42 : Z))
    as (_ & H0 & _).
  destruct (X1_history_size App.LOCATIONS App2.tps_locations (-1) clock_1315 (42 : Z))
    as (_ & _ & Hn).
  split; [exact (H7 ltac:(lia))|]. split; [exact (H0 ltac:(lia))|].
  apply Hn. lia.
Defined.

(** X2: in every history the timestamps lie a whole number of hours after
    the start of the window and not after its end, the readings come in
    the order of their timestamps, and when no two stations of the table
    share an id no two readings share station and timestamp. *)
Theorem X2_history_keys {G : Type} `{!RandomSource G}
    (locs : list App.Location) (locs2 : list App2.Location) (days now : Z) (g : G) :
  (Forall (λ r, ∃ k : nat,
             App.timestamp r = now - Datetime.timedelta_days 7 + Z.of_nat k * Datetime.HOUR
             ∧ App.timestamp r ≤ now)
          (App.generate_from locs now g).1
   ∧ StronglySorted (λ a b, App.timestamp a ≤ App.timestamp b)
                    (App.generate_from locs now g).1
   ∧ (NoDup (App.loc_id <$> locs) →
      NoDup ((λ r, (App.timestamp r, App.id_tps r)) <$> (App.generate_from locs now g).1)))
  ∧ (Forall (λ r, ∃ k : nat,
               App2.timestamp r
               = now - Datetime.timedelta_days days + Z.of_nat k * Datetime.HOUR
               ∧ App2.timestamp r ≤ now)
            (App2.generate_from locs2 days now g).1
     ∧ StronglySorted (λ a b, App2.timestamp a ≤ App2.timestamp b)
                      (App2.generate_from locs2 days now g).1
     ∧ (NoDup (App2.loc_id <$> locs2) →
        NoDup ((λ r, (App2.timestamp r, App2.id_tps r))
                 <$> (App2.generate_from locs2 days now g).1))).
Proof.
  split.
  - unfold App.generate_from.
    destruct (hourly_timestamps App.timestamp
      (λ t, for_each (App.read_sensor t now) locs) 170
      (now - Datetime.timedelta_days 7) now g) as [Hk Hs].
    { intros t' g'. apply App_sweep_rows. }
    split; [done|]. split; [done|]. intros Hnd.
    apply (hourly_keys_NoDup App.timestamp App.id_tps).
    + intros t' g'. apply App_sweep_rows.
    + intros t' g'. by rewrite (proj2 (App_sweep_rows t' now locs g')).
  - unfold App2.generate_from.
    destruct (hourly_timestamps App2.timestamp
      (λ t, for_each (App2.read_sensor t) locs2) (Z.to_nat (24 * days + 2))
      (now - Datetime.timedelta_days days) now g) as [Hk Hs].
    { intros t' g'. apply App2_sweep_rows. }
    split; [done|]. split; [done|]. intros Hnd.
    apply (hourly_keys_NoDup App2.timestamp App2.id_tps).
    + intros t' g'. apply App2_sweep_rows.
    + intros t' g'. by rewrite (proj2 (App2_sweep_rows t' locs2 g')).
Qed.

Lemma X2_history_keys_witness :
  NoDup ((λ r, (App.timestamp r, App.id_tps r))
           <$> (App.generate_from App.LOCATIONS clock_1315 (42 : Z)).1)
  ∧ NoDup ((λ r, (App2.timestamp r, App2.id_tps r))
             <$> (App2.generate_from App2.tps_locations 7 clock_1315 (42 : Z)).1).
Proof.
  destruct (X2_history_keys App.LOCATIONS App2.tps_locations 7 clock_1315 (42 : Z))
    as [(_ & _ & HA) (_ & _ & HB)].
  split; [apply HA | apply HB]; apply (bool_decide_unpack _); vm_compute; exact I.
Defined.

(** ** Lids and odours *)

Section LidFacts.
Context {G : Type} `{!RandomSource G}.

Lemma App_read_sensor_lid t ed loc (g : G) :
  let r := (App.read_sensor t ed loc g).1 in
  (85 < App.level_kepenuhan r → App.status_tutup r = Buka)
  ∧ (App.status_bau r = Menyengat
     ↔ App.status_tutup r = Buka ∧ 70 < App.level_kepenuhan r).
Proof.
  unfold App.read_sensor.
  repeat (case_match; simplify_eq);
    cbn [fst App.level_kepenuhan App.status_tutup App.status_bau];
    (split; [try done; lia|]); (split; [try done|intros; try done; tauto]).
Qed.

Lemma App2_read_sensor_lid t loc (g : G) :
  let r := (App2.read_sensor t loc g).1 in
  (85 < App2.level_kepenuhan r → App2.status_tutup r = Buka)
  ∧ (App2.status_bau r = Menyengat
     ↔ App2.status_tutup r = Buka ∧ 70 < App2.level_kepenuhan r).
Proof.
  unfold App2.read_sensor.
  repeat (case_match; simplify_eq);
    cbn [fst App2.level_kepenuhan App2.status_tutup App2.status_bau];
    (split; [try done; lia|]); (split; [try done|intros; try done; tauto]).
Qed.

Lemma App_history_lid locs now (g : G) :
  Forall (λ r, (85 < App.level_kepenuhan r → App.status_tutup r = Buka)
               ∧ (App.status_bau r = Menyengat
                  ↔ App.status_tutup r = Buka ∧ 70 < App.level_kepenuhan r))
         (App.generate_from locs now g).1.
Proof.
  apply hourly_Forall. intros t g1 _. apply for_each_Forall. intros loc g2 _.
  apply App_read_sensor_lid.
Qed.

Lemma App2_history_lid locs days now (g : G) :
  Forall (λ r, (85 < App2.level_kepenuhan r → App2.status_tutup r = Buka)
               ∧ (App2.status_bau r = Menyengat
                  ↔ App2.status_tutup r = Buka ∧ 70 < App2.level_kepenuhan r))
         (App2.generate_from locs days now g).1.
Proof.
  apply hourly_Forall. intros t g1 _. apply for_each_Forall. intros loc g2 _.
  apply App2_read_sensor_lid.
Qed.
End LidFacts.

(** X3: in every generated reading a level above 85 comes with an open
    lid, and the odour is strong exactly when the lid is open and the level
    is above 70; in particular a closed bin never smells. *)
Theorem X3_lid_and_odour {G : Type} `{!RandomSource G}
    (locs : list App.Location) (locs2 : list App2.Location) (days now : Z) (g : G) :
  Forall (λ r, (85 < App.level_kepenuhan r → App.status_tutup r = Buka)
               ∧ (App.status_bau r = Menyengat
                  ↔ App.status_tutup r = Buka ∧ 70 < App.level_kepenuhan r))
         (App.generate_from locs now g).1
  ∧ Forall (λ r, (85 < App2.level_kepenuhan r → App2.status_tutup r = Buka)
                 ∧ (App2.status_bau r = Menyengat
                    ↔ App2.status_tutup r = Buka ∧ 70 < App2.level_kepenuhan r))
           (App2.generate_from locs2 days now g).1.
Proof. split; [apply App_history_lid | apply App2_history_lid]. Qed.

Lemma filter_sublist_impl {A} (P Q : A → Prop) `{∀ x, Decision (P x), ∀ x, Decision (Q x)}
    (l : list A) :
  Forall (λ x, P x → Q x) l → filter P l `sublist_of` filter Q l.
Proof.
  induction 1 as [|x l Hx _ IH]; [done|]. rewrite !filter_cons.
  destruct (decide (P x)) as [HP|HP].
  - rewrite decide_True by auto. by apply sublist_skip.
  - destruct (decide (Q x)); [by apply sublist_cons|done].
Qed.

(** X4: in the anomaly report of app2.py, over a generated history, the
    readings counted as odour incidents are among the readings with an
    open lid, in the same order, and each of them has a level above 70. *)
Theorem X4_odour_incidents {G : Type} `{!RandomSource G}
    (locs2 : list App2.Location) (days now : Z) (g : G) :
  let df := (App2.generate_from locs2 days now g).1 in
  App2Pages.df_bau df `sublist_of` App2Pages.df_tutup df
  ∧ Forall (λ r, 70 < App2.level_kepenuhan r) (App2Pages.df_bau df)
  ∧ (length (App2Pages.df_bau df) ≤ length (App2Pages.df_tutup df))%nat.
Proof.
  intros df.
  pose proof (App2_history_lid locs2 days now g) as Hrule. fold df in Hrule.
  assert (App2Pages.df_bau df `sublist_of` App2Pages.df_tutup df) as Hsub.
  { apply filter_sublist_impl. eapply Forall_impl; [exact Hrule|].
    cbn. intros r [_ Hr] Hb. by apply Hr. }
  split; [done|]. split; [|by apply sublist_length].
  unfold App2Pages.df_bau. apply Forall_forall. intros r [Hb Hin]%list_elem_of_filter.
  rewrite Forall_forall in Hrule. by apply (Hrule r Hin).
Qed.

(** ** Weights *)

Lemma round_half_even_ge (L : Z) (x : Qc) : (Qc_of_Z L ≤ x)%Qc → L ≤ round_half_even x.
Proof.
  unfold Qcle, Qle. rewrite Qc_of_Z_this. cbn [inject_Z Qnum Qden]. intros H.
  unfold round_half_even. cbv zeta.
  set (n := Qnum (this x)) in *. set (d := Z.pos (Qden (this x))) in *.
  assert (L ≤ n / d) by (apply Z.div_le_lower_bound; lia).
  repeat case_match; lia.
Qed.

Lemma round_half_even_le (U : Z) (x : Qc) : (x ≤ Qc_of_Z U)%Qc → round_half_even x ≤ U.
Proof.
  unfold Qcle, Qle. rewrite Qc_of_Z_this. cbn [inject_Z Qnum Qden]. intros H.
  unfold round_half_even. cbv zeta.
  set (n := Qnum (this x)) in *. set (d := Z.pos (Qden (this x))) in *.
  assert (0 < d) as Hd by (subst d; lia).
  assert (n / d ≤ U) by (apply Z.div_le_upper_bound; lia).
  pose proof (Z.div_mod n d ltac:(lia)) as Hdm.
  pose proof (Z.mod_pos_bound n d Hd) as Hm.
  destruct (Z.ltb_spec (2 * (n mod d)) d); [lia|].
  assert (n / d + 1 ≤ U) by nia.
  repeat case_match; lia.
Qed.

Lemma dec_100_scale (a : Z) : (dec a 100 * Qc_of_Z 100)%Qc = Qc_of_Z a.
Proof.
  apply Qc_is_canon. unfold dec. cbn [this Qcmult Q2Qc].
  rewrite !Qred_correct. rewrite Qc_of_Z_this. unfold Qeq. cbn. lia.
Qed.

Lemma dec_100_unscale (a : Z) : (Qc_of_Z a / Qc_of_Z 100)%Qc = dec a 100.
Proof.
  rewrite <-(dec_100_scale a). unfold Qcdiv.
  rewrite <-Qcmult_assoc, Qcmult_inv_r, Qcmult_1_r.
  - done.
  - intros Heq. apply (f_equal this) in Heq. vm_compute in Heq. discriminate.
Qed.

(** Rounding to two decimals stays between bounds that have two decimals. *)
Lemma round2_between (a b : Z) (x : Qc) :
  (dec a 100 ≤ x)%Qc → (x ≤ dec b 100)%Qc →
  (dec a 100 ≤ round2 x)%Qc ∧ (round2 x ≤ dec b 100)%Qc.
Proof.
  intros Ha Hb. unfold round2. rewrite <-!dec_100_unscale.
  assert (0 ≤ / Qc_of_Z 100)%Qc as Hinv.
  { apply Qclt_le_weak, Qcinv_pos. by apply Qc_of_Z_pos. }
  assert (0 ≤ Qc_of_Z 100)%Qc as H100 by (by apply Qc_of_Z_nonneg).
  split; apply Qcmult_le_compat_r; try done; apply Qc_of_Z_le.
  - apply round_half_even_ge. rewrite <-(dec_100_scale a). by apply Qcmult_le_compat_r.
  - apply round_half_even_le. rewrite <-(dec_100_scale b). by apply Qcmult_le_compat_r.
Qed.

Lemma Qc_product_dec (n a b : Z) (d e : positive) :
  (Qc_of_Z n * dec a d * dec b e)%Qc = dec (n * a * b) (d * e).
Proof.
  apply Qc_is_canon. unfold dec. cbn [this Qcmult Q2Qc].
  rewrite !Qred_correct. rewrite Qc_of_Z_this. unfold Qeq. cbn. lia.
Qed.

Lemma Qc_of_Z_dec (n : Z) : Qc_of_Z n = dec (100 * n) 100.
Proof.
  apply Qc_is_canon. unfold dec. cbn [this Q2Qc].
  rewrite !Qred_correct. rewrite Qc_of_Z_this. unfold Qeq. cbn. lia.
Qed.

Lemma Qc_of_Z_plus (a b : Z) : (Qc_of_Z a + Qc_of_Z b)%Qc = Qc_of_Z (a + b).
Proof.
  apply Qc_is_canon. cbn [this Qcplus Q2Qc].
  rewrite !Qred_correct. rewrite !Qc_of_Z_this. unfold Qeq. cbn. lia.
Qed.

Lemma App2_weight_between (l : Z) (j : Qc) :
  0 ≤ l → (Qc_of_Z (-5) ≤ j)%Qc → (j ≤ Qc_of_Z 5)%Qc →
  (Qc_of_Z (5 * l - 5) ≤ App2.Qc_max (Qc_of_Z 0) (round2 (Qc_of_Z (l * 5) + j)))%Qc
  ∧ (App2.Qc_max (Qc_of_Z 0) (round2 (Qc_of_Z (l * 5) + j)) ≤ Qc_of_Z (5 * l + 5))%Qc.
Proof.
  intros Hl Hlo Hhi.
  destruct (round2_between (100 * (5 * l - 5)) (100 * (5 * l + 5)) (Qc_of_Z (l * 5) + j)%Qc)
    as [Hr1 Hr2].
  - rewrite <-Qc_of_Z_dec. replace (5 * l - 5) with (l * 5 + -5) by lia.
    rewrite <-Qc_of_Z_plus. by apply Qcplus_le_mono_l.
  - rewrite <-Qc_of_Z_dec. replace (5 * l + 5) with (l * 5 + 5) by lia.
    rewrite <-Qc_of_Z_plus. by apply Qcplus_le_mono_l.
  - rewrite <-!Qc_of_Z_dec in Hr1, Hr2. unfold App2.Qc_max. case_decide as Hpos; [done|].
    split.
    + etrans; [exact Hr1|]. by apply Qcnot_lt_le.
    + apply Qc_of_Z_le. lia.
Qed.

Section WeightFacts.
Context {G : Type} `{!RandomSource G}.

(** The weight of a reading of app.py is its level times 2.5 kg, within
    the jitter of 0.9 to 1.2. *)
Lemma App_read_sensor_weight t ed loc (g : G) :
  let r := (App.read_sensor t ed loc g).1 in
  (dec (225 * App.level_kepenuhan r) 100 ≤ App.berat_kg r)%Qc
  ∧ (App.berat_kg r ≤ dec (300 * App.level_kepenuhan r) 100)%Qc.
Proof.
  pose proof (App_read_sensor_bounds t ed loc g) as [Hlevel _]. revert Hlevel.
  unfold App.read_sensor.
  repeat (case_match; simplify_eq); cbn [fst App.level_kepenuhan App.berat_kg];
    intros Hlevel;
    match goal with
    | H : np_uniform ?lo ?hi ?g0 = (?j, _) |- _ =>
        pose proof (rand_real_spec lo hi g0 ltac:(by apply dec_le)) as [Hlo Hhi];
        unfold np_uniform in H; rewrite H in Hlo, Hhi; cbn [fst] in Hlo, Hhi
    end;
    match goal with
    | |- (_ ≤ round2 (Qc_of_Z ?l * _ * _))%Qc ∧ _ =>
        assert (0 ≤ Qc_of_Z l * dec 25 10)%Qc as Hc
          by (apply Qcmult_nonneg; [apply Qc_of_Z_nonneg; lia | by apply dec_nonneg]);
        apply round2_between;
        [ replace (dec (225 * l) 100) with (Qc_of_Z l * dec 25 10 * dec 9 10)%Qc
            by (rewrite Qc_product_dec; f_equal; lia)
        | replace (dec (300 * l) 100) with (Qc_of_Z l * dec 25 10 * dec 12 10)%Qc
            by (rewrite Qc_product_dec; apply Qc_is_canon; unfold dec; cbn [this Q2Qc];
                rewrite !Qred_correct; unfold Qeq; cbn; lia) ];
        rewrite !(Qcmult_comm (Qc_of_Z l * dec 25 10)); by apply Qcmult_le_compat_r
    end.
Qed.

(** The weight of a reading of app2.py is its level times 5 kg, within
    5 kg, and never negative. *)
Lemma App2_read_sensor_weight t loc (g : G) :
  let r := (App2.read_sensor t loc g).1 in
  (Qc_of_Z (5 * App2.level_kepenuhan r - 5) ≤ App2.berat_kg r)%Qc
  ∧ (App2.berat_kg r ≤ Qc_of_Z (5 * App2.level_kepenuhan r + 5))%Qc.
Proof.
  pose proof (App2_read_sensor_bounds t loc g) as [Hlevel _]. revert Hlevel.
  unfold App2.read_sensor.
  repeat (case_match; simplify_eq); cbn [fst App2.level_kepenuhan App2.berat_kg];
    intros Hlevel;
    match goal with
    | H : py_uniform (Qc_of_Z (-5)) ?hi ?g0 = (?j, _) |- _ =>
        pose proof (rand_real_spec (Qc_of_Z (-5)) hi g0 ltac:(by apply Qc_of_Z_le))
          as [Hlo Hhi];
        unfold py_uniform in H; rewrite H in Hlo, Hhi; cbn [fst] in Hlo, Hhi
    end;
    (apply App2_weight_between; [lia|done|done]).
Qed.
End WeightFacts.

(** X5: the weight of every generated reading follows its level: in app.py
    it lies between 2.25 and 3 kg per point of level (2.5 kg within the
    jitter of 0.9 to 1.2), so that an empty bin weighs nothing; in app2.py
    it lies within 5 kg of 5 kg per point of level. *)
Theorem X5_weight_follows_level {G : Type} `{!RandomSource G}
    (locs : list App.Location) (locs2 : list App2.Location) (days now : Z) (g : G) :
  Forall (λ r, (dec (225 * App.level_kepenuhan r) 100 ≤ App.berat_kg r)%Qc
               ∧ (App.berat_kg r ≤ dec (300 * App.level_kepenuhan r) 100)%Qc)
         (App.generate_from locs now g).1
  ∧ Forall (λ r, (Qc_of_Z (5 * App2.level_kepenuhan r - 5) ≤ App2.berat_kg r)%Qc
                 ∧ (App2.berat_kg r ≤ Qc_of_Z (5 * App2.level_kepenuhan r + 5))%Qc)
           (App2.generate_from locs2 days now g).1.
Proof.
  split.
  - apply hourly_Forall. intros t g1 _. apply for_each_Forall. intros loc g2 _.
    apply App_read_sensor_weight.
  - apply hourly_Forall. intros t g1 _. apply for_each_Forall. intros loc g2 _.
    apply App2_read_sensor_weight.
Qed.

(** ** Routes, counters and colours *)

Lemma filter_length_impl {A} (P Q : A → Prop) `{∀ x, Decision (P x), ∀ x, Decision (Q x)}
    (l : list A) :
  (∀ x, P x → Q x) → (length (filter P l) ≤ length (filter Q l))%nat.
Proof.
  intros HPQ. apply sublist_length, filter_sublist_impl, Forall_forall. auto.
Qed.

(** X6: the route holds the stations of the snapshot that are above 75,
    all of them and no other.  In app.py these are the stations the map
    colours red, and their number is the counter of critical stations of
    the dashboard when no zone is selected (the counter of a zone cannot
    exceed it); in app2.py every station the
    map colours red is in the route, and the counter of critical stations
    (above 80) does not exceed the number of stops. *)
Theorem X6_route_holds_the_urgent_stations
    (snap : list App.Reading) (snap2 : list App2.Reading) :
  (App.pickup_list snap ≡ₚ filter (λ r, 75 < App.level_kepenuhan r) snap
   ∧ (∀ r, r ∈ App.pickup_list snap
           ↔ r ∈ snap ∧ App.get_status_color (App.level_kepenuhan r) = App.Merah)
   ∧ length (App.pickup_list snap)
     = AppPages.critical_count (AppPages.df_display "Semua Zona" snap)
   ∧ (∀ zone, (AppPages.critical_count (AppPages.df_display zone snap)
               ≤ length (App.pickup_list snap))%nat))
  ∧ (App2.optimize_route snap2 ≡ₚ filter (λ r, 75 < App2.level_kepenuhan r) snap2
     ∧ (∀ r, r ∈ snap2 →
             App2Pages.get_color_by_level (App2.level_kepenuhan r) = [220; 53; 69; 200] →
             r ∈ App2.optimize_route snap2)
     ∧ (App2Pages.tps_kritis snap2 ≤ length (App2.optimize_route snap2))%nat).
Proof.
  split; (split; [apply sort_rows_Permutation|]); split; [|split| |].
  - intros r. rewrite App_pickup_list_elem_of. unfold App.get_status_color.
    repeat case_decide; split; intros [? ?]; (split; [done|]); try done; lia.
  - unfold App.pickup_list. rewrite sort_rows_Permutation. done.
  - intros zone. unfold App.pickup_list, AppPages.critical_count, rows_where_gt.
    rewrite sort_rows_Permutation. apply sublist_length.
    unfold AppPages.df_display.
    repeat case_decide; try done; rewrite list_filter_filter;
      apply filter_sublist_impl, Forall_forall; intros r _; tauto.
  - intros r Hr. unfold App2Pages.get_color_by_level, App2.optimize_route, rows_where_gt.
    rewrite sort_rows_elem_of, list_elem_of_filter.
    repeat case_decide; intros Hc; try done. split; [lia|done].
  - unfold App2Pages.tps_kritis, App2.optimize_route, rows_where_gt.
    rewrite sort_rows_Permutation. apply filter_length_impl. intros r. lia.
Qed.

Lemma omap_fmap_S {B} (f : nat → option B) (l : list nat) :
  omap f (S <$> l) = omap (λ i, f (S i)) l.
Proof.
  induction l as [|i l IH]; [done|]. cbn. rewrite IH. done.
Qed.

(** The segments are the pairs of neighbours of the path. *)
Lemma App_lines_zip (route_coords : list (Qc * Qc)) :
  AppPages.lines route_coords = zip route_coords (drop 1 route_coords).
Proof.
  unfold AppPages.lines.
  induction route_coords as [|a [|b rc] IH]; [done..|].
  cbn [length Nat.sub]. cbn [length Nat.sub] in IH. rewrite Nat.sub_0_r in *.
  change (seq 0 (S (length rc))) with (0%nat :: seq 1 (length rc)).
  rewrite <-fmap_S_seq. cbn [omap list_omap]. cbn [lookup list_lookup Nat.add mbind option_bind].
  rewrite omap_fmap_S.
  change (zip (a :: b :: rc) (drop 1 (a :: b :: rc)))
    with ((a, b) :: zip (b :: rc) (drop 1 (b :: rc))).
  f_equal. exact IH.
Qed.

(** X7: when the route page of app.py draws a route, there is one segment
    for each pickup; the segments start at the pickups in their order, each
    ends where the next one starts, and the last one ends at the disposal
    site. *)
Theorem X7_route_segments (snap : list App.Reading)
    (pickups : list App.Reading) (route_coords : list (Qc * Qc)) :
  App.route_page snap = Route pickups route_coords →
  let lines := AppPages.lines route_coords in
  length lines = length pickups
  ∧ lines.*1 = (λ r, (App.longitude r, App.latitude r)) <$> pickups
  ∧ (∀ i s s', lines !! i = Some s → lines !! S i = Some s' → s.2 = s'.1)
  ∧ last lines.*2 = Some App.TPA_LOCATION.
Proof.
  intros Hpage lines. unfold App.route_page in Hpage.
  destruct (App.pickup_list snap) as [|p ps] eqn:Hp; [done|].
  injection Hpage as <- <-.
  set (pc := (λ r, (App.longitude r, App.latitude r)) <$> (p :: ps)).
  assert (lines = zip (pc ++ [App.TPA_LOCATION]) (drop 1 pc ++ [App.TPA_LOCATION]))
    as Hlines by (subst lines; by rewrite App_lines_zip).
  assert (length pc = S (length ps)) as Hlen by (subst pc; cbn; by rewrite length_fmap).
  assert (length (drop 1 pc ++ [App.TPA_LOCATION]) = length pc) as Hlen2.
  { rewrite length_app, length_drop. cbn. lia. }
  assert (lines.*1 = pc) as H1.
  { rewrite Hlines. rewrite <-(take_drop (length pc) (pc ++ [App.TPA_LOCATION])) at 1.
    rewrite take_app_length, drop_app_length.
    replace (zip (pc ++ [App.TPA_LOCATION]) (drop 1 pc ++ [App.TPA_LOCATION]))
      with (zip pc (drop 1 pc ++ [App.TPA_LOCATION])).
    - apply fst_zip. lia.
    - rewrite <-(app_nil_r (drop 1 pc ++ [App.TPA_LOCATION])) at 2.
      rewrite zip_with_app by lia. by rewrite app_nil_r. }
  assert (lines.*2 = drop 1 pc ++ [App.TPA_LOCATION]) as H2.
  { rewrite Hlines. apply snd_zip. rewrite Hlen2, length_app. lia. }
  split; [|split; [done|split]].
  - rewrite <-(length_fmap fst lines), H1. subst pc. by rewrite length_fmap.
  - intros i s s' Hs Hs'.
    assert (lines.*2 !! i = Some s.2) as Hb by (by rewrite list_lookup_fmap, Hs).
    assert (lines.*1 !! S i = Some s'.1) as Ha by (by rewrite list_lookup_fmap, Hs').
    rewrite H2 in Hb. rewrite H1 in Ha.
    rewrite lookup_app_l in Hb.
    + rewrite lookup_drop in Hb. change (1 + i)%nat with (S i) in Hb.
      rewrite Ha in Hb. by injection Hb.
    + rewrite length_drop. apply lookup_lt_Some in Ha. lia.
  - rewrite H2. apply last_snoc.
Qed.

Lemma X7_route_segments_witness :
  length (AppPages.lines
            (((λ r, (App.longitude r, App.latitude r)) <$> App.pickup_list App_busy)
             ++ [App.TPA_LOCATION])) = 4%nat.
Proof.
  destruct (X7_route_segments App_busy (App.pickup_list App_busy)
              (((λ r, (App.longitude r, App.latitude r)) <$> App.pickup_list App_busy)
               ++ [App.TPA_LOCATION])) as (Hlen & _).
  - vm_compute. reflexivity.
  - rewrite Hlen. vm_compute. reflexivity.
Defined.

(** X8: the colour of a station on the map of app2.py and the style of its
    cell in the monitoring table follow the same three classes at every
    level except 50 and 80: at 50 the map is already yellow and the table
    still green, at 80 the map is already red and the table still orange.
    The dashboard counter of critical stations follows the table. *)
Theorem X8_map_and_table_classes (level : Z) :
  let green := [25; 135; 84; 160] in
  let yellow := [255; 193; 7; 160] in
  let red := [220; 53; 69; 200] in
  let table_green := "background-color: #ccffcc; color: green" in
  let table_orange := "background-color: #ffffe0; color: orange" in
  let table_red := "background-color: #ffcccc; color: red; font-weight: bold" in
  let colour := App2Pages.get_color_by_level level in
  let style := App2Pages.highlight_status level in
  (level ≠ 50 → level ≠ 80 →
     (colour = green ∧ style = table_green)
     ∨ (colour = yellow ∧ style = table_orange)
     ∨ (colour = red ∧ style = table_red))
  ∧ (level = 50 → colour = yellow ∧ style = table_green)
  ∧ (level = 80 → colour = red ∧ style = table_orange)
  ∧ (style = table_red ↔ 80 < level).
Proof.
  cbv zeta. unfold App2Pages.get_color_by_level, App2Pages.highlight_status.
  repeat case_decide; repeat split; intros; try lia; try done; auto.
Qed.

(** ** The snapshot of any history *)

Section LatestFacts.
Context {A : Type} (col : A → Z).

Lemma foldl_max_attained (rows : list A) (m0 : Z) :
  foldl (λ m r', Z.max m (col r')) m0 rows = m0
  ∨ Exists (λ r, col r = foldl (λ m r', Z.max m (col r')) m0 rows) rows.
Proof.
  revert m0. induction rows as [|r rows IH]; intros m0; cbn; [by left|].
  destruct (IH (m0 `max` col r)) as [Heq|Hex].
  - rewrite Heq. destruct (Z.max_spec m0 (col r)) as [[_ Hm]|[_ Hm]]; rewrite Hm.
    + right. by left.
    + by left.
  - right. by right.
Qed.

(** What [latest] returns: nothing for an empty frame only; otherwise the
    rows that carry the largest value of the column, in their order, and
    there is at least one. *)
Lemma latest_spec (rows : list A) :
  (latest col rows = None ↔ rows = [])
  ∧ (∀ snap, latest col rows = Some snap →
       snap ≠ [] ∧ snap `sublist_of` rows
       ∧ (∃ m, Forall (λ r, col r ≤ m) rows ∧ ∀ r, r ∈ snap ↔ r ∈ rows ∧ col r = m)
       ∧ latest col snap = Some snap).
Proof.
  split.
  - destruct rows; cbn; [done|]. split; intros; done.
  - intros snap Hl. unfold latest in Hl.
    destruct rows as [|r0 rows]; [done|]. cbn [column_max mbind option_bind] in Hl.
    set (m := foldl (λ m r', Z.max m (col r')) (col r0) rows) in *.
    injection Hl as <-.
    destruct (foldl_max_ge col rows (col r0)) as [H0 Hall]. fold m in H0, Hall.
    assert (Forall (λ r, col r ≤ m) (r0 :: rows)) as Hle by (by constructor).
    assert (Exists (λ r, col r = m) (r0 :: rows)) as Hex.
    { destruct (foldl_max_attained rows (col r0)) as [Heq|Hex'].
      - left. by rewrite <-Heq.
      - by right. }
    assert (∀ r, r ∈ rows_where_eq col m (r0 :: rows) ↔ r ∈ r0 :: rows ∧ col r = m) as Hin.
    { intros r. unfold rows_where_eq. rewrite list_elem_of_filter. tauto. }
    assert (rows_where_eq col m (r0 :: rows) ≠ []) as Hne.
    { apply Exists_exists in Hex as (r & Hr & Hm).
      intros Hnil. assert (r ∈ rows_where_eq col m (r0 :: rows)) as Hr' by (by apply Hin).
      rewrite Hnil in Hr'. by inv Hr'. }
    split; [done|]. split; [apply sublist_filter|]. split; [by exists m|].
    apply (latest_last_block col [] _ m); [constructor| |done].
    apply Forall_forall. intros r Hr. by apply Hin in Hr as [_ ?].
Qed.
End LatestFacts.

(** X9: the snapshot of a history, generated or not.  It fails on the
    empty history only; otherwise it is not empty, it holds, in their
    order, exactly the readings whose timestamp is the largest of the
    history, and taking the snapshot of a snapshot changes nothing. *)
Theorem X9_snapshot_of_any_history (df : list App.Reading) (df2 : list App2.Reading) :
  ((App.df_latest df = None ↔ df = [])
   ∧ (∀ snap, App.df_latest df = Some snap →
        snap ≠ [] ∧ snap `sublist_of` df
        ∧ (∃ m, Forall (λ r, App.timestamp r ≤ m) df
                ∧ ∀ r, r ∈ snap ↔ r ∈ df ∧ App.timestamp r = m)
        ∧ App.df_latest snap = Some snap))
  ∧ ((App2.df_latest df2 = None ↔ df2 = [])
     ∧ (∀ snap, App2.df_latest df2 = Some snap →
          snap ≠ [] ∧ snap `sublist_of` df2
          ∧ (∃ m, Forall (λ r, App2.timestamp r ≤ m) df2
                  ∧ ∀ r, r ∈ snap ↔ r ∈ df2 ∧ App2.timestamp r = m)
          ∧ App2.df_latest snap = Some snap)).
Proof. split; apply latest_spec. Qed.

Lemma X9_snapshot_witness :
  ∃ snap, App.df_latest App_three_day_history = Some snap
    ∧ length snap = 2%nat ∧ App.df_latest snap = Some snap.
Proof.
  destruct (X9_snapshot_of_any_history App_three_day_history []) as [[_ HA] _].
  eexists. split; [vm_compute; reflexivity|]. split; [reflexivity|].
  eapply HA. vm_compute. reflexivity.
Defined.

(** ** Daily totals *)

Lemma foldl_Qcplus (a : Qc) (l : list Qc) : foldl Qcplus a l = (a + Qc_sum l)%Qc.
Proof.
  unfold Qc_sum. revert a. induction l as [|v l IH]; intros a; cbn.
  - by rewrite Qcplus_0_r.
  - rewrite (IH (a + v)%Qc), (IH (0 + v)%Qc). ring.
Qed.

Lemma Qc_sum_cons (v : Qc) (l : list Qc) : Qc_sum (v :: l) = (v + Qc_sum l)%Qc.
Proof. unfold Qc_sum at 1. cbn. rewrite foldl_Qcplus. ring. Qed.

Lemma group_values_cons {V} (k k0 : Z) (v0 : V) (kvs : list (Z * V)) :
  group_values k ((k0, v0) :: kvs)
  = if decide (k0 = k) then v0 :: group_values k kvs else group_values k kvs.
Proof. unfold group_values. rewrite filter_cons. cbn. by case_decide. Qed.

(** Adding a row to a frame adds its value to the total of its group and
    leaves the other groups alone. *)
Lemma group_sums_cons (K : list Z) (k0 : Z) (v0 : Qc) (kvs : list (Z * Qc)) :
  NoDup K → k0 ∈ K →
  Qc_sum ((λ k, Qc_sum (group_values k ((k0, v0) :: kvs))) <$> K)
  = (v0 + Qc_sum ((λ k, Qc_sum (group_values k kvs)) <$> K))%Qc.
Proof.
  induction K as [|k K IH]; intros Hnd Hin; [by inv Hin|].
  apply NoDup_cons in Hnd as [Hk Hnd]. rewrite !fmap_cons, !Qc_sum_cons.
  rewrite group_values_cons. destruct (decide (k0 = k)) as [->|Hne].
  - rewrite Qc_sum_cons.
    replace ((λ k0, Qc_sum (group_values k0 ((k, v0) :: kvs))) <$> K)
      with ((λ k0, Qc_sum (group_values k0 kvs)) <$> K); [ring|].
    apply list_fmap_ext. intros i k' Hk'. rewrite group_values_cons.
    rewrite decide_False; [done|]. intros ->. apply Hk.
    by eapply list_elem_of_lookup_2.
  - apply elem_of_cons in Hin as [?|Hin]; [done|]. rewrite (IH Hnd Hin). ring.
Qed.

Lemma group_sums_total (K : list Z) (kvs : list (Z * Qc)) :
  NoDup K → (∀ k, k ∈ kvs.*1 → k ∈ K) →
  Qc_sum ((λ k, Qc_sum (group_values k kvs)) <$> K) = Qc_sum kvs.*2.
Proof.
  intros Hnd. induction kvs as [|[k0 v0] kvs IH]; intros Hin.
  - cbn. clear. induction K as [|k K IH]; [done|].
    rewrite fmap_cons, Qc_sum_cons, IH. cbn. by rewrite Qcplus_0_l.
  - rewrite group_sums_cons; [|done|apply Hin; by left].
    rewrite IH; [|intros k Hk; apply Hin; by right].
    cbn [fmap list_fmap snd]. by rewrite Qc_sum_cons.
Qed.

Lemma StronglySorted_le_lt (l : list Z) :
  StronglySorted Z.le l → NoDup l → StronglySorted Z.lt l.
Proof.
  induction 1 as [|k l _ IH Hk]; intros Hnd; constructor.
  - apply IH. by apply NoDup_cons in Hnd as [_ ?].
  - apply NoDup_cons in Hnd as [Hni _]. apply Forall_forall. intros k' Hk'.
    rewrite Forall_forall in Hk. specialize (Hk k' Hk').
    assert (k ≠ k') by (by intros ->). lia.
Qed.

Lemma group_keys_sorted (ks : list Z) : StronglySorted Z.lt (group_keys ks).
Proof.
  apply StronglySorted_le_lt; [|apply group_keys_NoDup].
  unfold group_keys. apply StronglySorted_merge_sort; apply _.
Qed.

(** The groups of a sum by key: keys ascending, each key of the frame
    once, and totals that add up to the total of the frame. *)
Lemma groupby_sum_spec (kvs : list (Z * Qc)) :
  StronglySorted Z.lt (groupby Qc_sum kvs).*1
  ∧ (∀ k, k ∈ (groupby Qc_sum kvs).*1 ↔ k ∈ kvs.*1)
  ∧ Qc_sum (groupby Qc_sum kvs).*2 = Qc_sum kvs.*2.
Proof.
  rewrite groupby_fst. split; [apply group_keys_sorted|]. split.
  - intros k. apply group_keys_elem_of.
  - unfold groupby. rewrite <-list_fmap_compose.
    apply (group_sums_total (group_keys kvs.*1) kvs (group_keys_NoDup _)).
    intros k. by rewrite group_keys_elem_of.
Qed.

(** X10: the daily totals of the forecast.  Whatever the history, the days
    come in ascending order, each calendar day of the history once, and the
    totals of the days add up to the total weight of the history: no
    reading is lost or counted twice. *)
Theorem X10_daily_totals (df : list App.Reading) (df2 : list App2.Reading) :
  (StronglySorted Z.lt (App.daily_df df).*1
   ∧ (∀ d, d ∈ (App.daily_df df).*1
           ↔ ∃ r, r ∈ df ∧ Datetime.date (App.timestamp r) = d)
   ∧ Qc_sum (App.daily_df df).*2 = Qc_sum (App.berat_kg <$> df))
  ∧ (StronglySorted Z.lt (App2.df_daily df2).*1
     ∧ (∀ d, d ∈ (App2.df_daily df2).*1
             ↔ ∃ r, r ∈ df2 ∧ Datetime.date (App2.timestamp r) = d)
     ∧ Qc_sum (App2.df_daily df2).*2 = Qc_sum (App2.berat_kg <$> df2)).
Proof.
  split.
  - unfold App.daily_df.
    destruct (groupby_sum_spec
                ((λ r, (Datetime.date (App.timestamp r), App.berat_kg r)) <$> df))
      as (Hs & Hk & Ht).
    split; [done|]. split.
    + intros d. rewrite Hk, <-list_fmap_compose, list_elem_of_fmap.
      split; [intros (r & -> & Hr); by exists r | intros (r & Hr & <-); by exists r].
    + rewrite Ht, <-list_fmap_compose. done.
  - unfold App2.df_daily.
    destruct (groupby_sum_spec
                ((λ r, (Datetime.date (App2.timestamp r), App2.berat_kg r)) <$> df2))
      as (Hs & Hk & Ht).
    split; [done|]. split.
    + intros d. rewrite Hk, <-list_fmap_compose, list_elem_of_fmap.
      split; [intros (r & -> & Hr); by exists r | intros (r & Hr & <-); by exists r].
    + rewrite Ht, <-list_fmap_compose. done.
Qed.

(** ** Labels and clusters *)

(** In app.py two clusters never get the same label. *)
Lemma App_priority_map_inj (levels cluster : list Z) (pm : gmap Z Priority)
    (c c' : Z) (p : Priority) :
  App.priority_map (App.cluster_avg levels cluster) = Some pm →
  pm !! c = Some p → pm !! c' = Some p → c = c'.
Proof.
  intros Hpm Hp Hp'.
  pose proof (App_cluster_avg_NoDup levels cluster) as Hnd.
  unfold App.priority_map in Hpm.
  destruct ((App.cluster_avg levels cluster).*1) as [|c0 [|c1 [|c2 avg]]]; try done.
  injection Hpm as <-.
  apply NoDup_cons in Hnd as [Hn0 Hnd]. apply NoDup_cons in Hnd as [Hn1 _].
  rewrite !not_elem_of_cons in Hn0, Hn1.
  rewrite !lookup_insert in Hp, Hp'. rewrite lookup_empty in Hp, Hp'.
  repeat case_decide; simplify_eq; done.
Qed.

(** Nor in app2.py. *)
Lemma App2_mapping_inj (levels cluster : list Z) (m : gmap Z Priority)
    (c c' : Z) (p : Priority) :
  App2.build_mapping 0 (App2.cluster_means levels cluster).*1 ∅ = Some m →
  m !! c = Some p → m !! c' = Some p → c = c'.
Proof.
  intros Hm Hp Hp'.
  pose proof (App2_cluster_means_NoDup levels cluster) as Hnd.
  assert (∀ c, m !! c = Some p →
            ∃ k, (App2.cluster_means levels cluster).*1 !! k = Some c) as Hpos.
  { intros c1 Hc1.
    destruct (App2_build_mapping_dom _ _ _ _ c1 Hm ltac:(by eexists)) as [Hin|[? Hin]];
      [|by rewrite lookup_empty in Hin].
    by apply list_elem_of_lookup in Hin. }
  destruct (Hpos c Hp) as [k Hk], (Hpos c' Hp') as [k' Hk'].
  rewrite (App2_build_mapping_lookup _ 0 ∅ m k c Hnd Hm Hk) in Hp.
  rewrite (App2_build_mapping_lookup _ 0 ∅ m k' c' Hnd Hm Hk') in Hp'.
  cbn in Hp, Hp'. apply App2_labels_rank in Hp, Hp'.
  assert (k = k') as -> by lia. congruence.
Qed.

(** X11: the labels keep the clusters apart.  Whenever the labelling
    succeeds, two stations that were given a label have the same label
    exactly when the clustering put them in the same cluster, in both
    applications. *)
Theorem X11_labels_keep_clusters_apart (fit_predict : list (Z * Qc) → list Z)
    (snap : list App.Reading) (snap2 : list App2.Reading) :
  let X := (λ r, (App.level_kepenuhan r, App.berat_kg r)) <$> snap in
  let X2 := (λ r, (App2.level_kepenuhan r, App2.berat_kg r)) <$> snap2 in
  (∀ col i j c c' p p',
     App.priority_status fit_predict snap = Some col →
     fit_predict X !! i = Some c → fit_predict X !! j = Some c' →
     col !! i = Some (App.Labelled p) → col !! j = Some (App.Labelled p') →
     (p = p' ↔ c = c'))
  ∧ (∀ col i j c c' p p',
       App2_cluster_label (App2.perform_clustering fit_predict snap2) = Some col →
       fit_predict X2 !! i = Some c → fit_predict X2 !! j = Some c' →
       col !! i = Some (Some p) → col !! j = Some (Some p') →
       (p = p' ↔ c = c')).
Proof.
  intros X X2. split.
  - intros col i j c c' p p' Hcol Hi Hj Hp Hp'. unfold App.priority_status in Hcol.
    fold X in Hcol. case_decide.
    + destruct (App.priority_map _) as [pm|] eqn:Hpm; [|done].
      cbn in Hcol. injection Hcol as <-.
      rewrite list_lookup_fmap, Hi in Hp. rewrite list_lookup_fmap, Hj in Hp'.
      cbn in Hp, Hp'.
      destruct (pm !! c) as [q|] eqn:Hq; [|done].
      destruct (pm !! c') as [q'|] eqn:Hq'; [|done].
      simplify_eq. split.
      * intros ->. by eapply App_priority_map_inj.
      * intros ->. congruence.
    + injection Hcol as <-. apply lookup_replicate in Hp as [? _]. done.
  - intros col i j c c' p p' Hcol Hi Hj Hp Hp'.
    unfold App2.perform_clustering in Hcol. fold X2 in Hcol.
    case_decide; [done|].
    destruct (App2.build_mapping 0 _ ∅) as [m|] eqn:Hm; [|done].
    cbn in Hcol. injection Hcol as <-.
    rewrite list_lookup_fmap, Hi in Hp. rewrite list_lookup_fmap, Hj in Hp'.
    cbn in Hp, Hp'. simplify_eq. split.
    + intros ->. by eapply App2_mapping_inj.
    + intros ->. congruence.
Qed.

Lemma X11_labels_witness :
  ∃ col, App.priority_status fit_2_0_1_0_1 App_busy = Some col
    ∧ col !! 1%nat = Some (App.Labelled MediumPriority)
    ∧ col !! 3%nat = Some (App.Labelled MediumPriority)
    ∧ (MediumPriority = MediumPriority ↔ (0 : Z) = 0).
Proof.
  destruct (X11_labels_keep_clusters_apart fit_2_0_1_0_1 App_busy App2_busy) as [HA _].
  eexists. split; [vm_compute; reflexivity|]. split; [reflexivity|]. split; [reflexivity|].
  eapply (HA _ 1%nat 3%nat); [vm_compute|..]; reflexivity.
Defined.

(** ** The stops of a generated snapshot *)

Lemma Forall2_filter_count {A B} (P : B → Prop) (Lo Hi : A → Prop)
    `{∀ y, Decision (P y), ∀ x, Decision (Lo x), ∀ x, Decision (Hi x)}
    (l : list A) (k : list B) :
  Forall2 (λ x y, (Lo x → P y) ∧ (P y → Hi x)) l k →
  (length (filter Lo l) ≤ length (filter P k) ≤ length (filter Hi l))%nat.
Proof.
  induction 1 as [|x y l k [HLo HHi] _ IH]; [done|].
  rewrite !filter_cons.
  destruct (decide (Lo x)), (decide (P y)), (decide (Hi x)); cbn; tauto || lia.
Qed.

(** X12: in the snapshot of a history of app.py, the stops of the route are
    at least the stations whose multiplier is above 1.5 and at most those
    whose multiplier is above 1.1.  So the route page shows the standby
    notice for no run over a table that has a station above 1.5, and for
    every run over a table that has none above 1.1. *)
Theorem X12_stops_of_a_generated_snapshot {G : Type} `{!RandomSource G}
    (locs : list App.Location) (now : Z) (g : G) :
  locs ≠ [] →
  ∃ snap, App.df_latest (App.generate_from locs now g).1 = Some snap
    ∧ (length (filter (λ loc, (dec 15 10 < App.loc_multiplier loc)%Qc) locs)
       ≤ length (App.pickup_list snap)
       ≤ length (filter (λ loc, (dec 11 10 < App.loc_multiplier loc)%Qc) locs))%nat
    ∧ (Exists (λ loc, (dec 15 10 < App.loc_multiplier loc)%Qc) locs →
       App.route_page snap ≠ Standby)
    ∧ (Forall (λ loc, (App.loc_multiplier loc ≤ dec 11 10)%Qc) locs →
       App.route_page snap = Standby).
Proof.
  intros Hne. destruct (App_generate_snapshot locs now g Hne) as [g1 Hs].
  eexists. split; [exact Hs|].
  set (snap := (for_each (App.read_sensor now now) locs g1).1).
  assert (length (filter (λ loc, (dec 15 10 < App.loc_multiplier loc)%Qc) locs)
          ≤ length (App.pickup_list snap)
          ≤ length (filter (λ loc, (dec 11 10 < App.loc_multiplier loc)%Qc) locs))%nat
    as Hcount.
  { unfold App.pickup_list, rows_where_gt. rewrite sort_rows_Permutation.
    apply Forall2_filter_count. apply for_each_Forall2. intros loc g2 _.
    destruct (App_read_sensor_final now loc g2) as (H1 & H2 & H3). cbn in H1, H2, H3.
    split.
    - intros Hm. specialize (H1 Hm). lia.
    - intros Hx. destruct (decide (dec 11 10 < App.loc_multiplier loc)%Qc) as [|Hn];
        [done|]. specialize (H3 Hn). lia. }
  split; [done|]. split.
  - intros Hex Hpage.
    assert (App.pickup_list snap = []) as Hnil.
    { unfold App.route_page in Hpage. by destruct (App.pickup_list snap). }
    rewrite Hnil in Hcount. cbn in Hcount.
    apply Exists_exists in Hex as (loc & Hin & Hm).
    assert (loc ∈ filter (λ loc, (dec 15 10 < App.loc_multiplier loc)%Qc) locs) as Hf
      by (by apply list_elem_of_filter).
    destruct (filter _ locs); [by inv Hf|]. cbn in Hcount. lia.
  - intros Hall.
    assert (filter (λ loc, (dec 11 10 < App.loc_multiplier loc)%Qc) locs = []) as Hnil.
    { clear -Hall. induction Hall as [|loc locs Hloc _ IH]; [done|].
      rewrite filter_cons_False; [done|]. by apply Qcle_not_lt. }
    rewrite Hnil in Hcount. cbn in Hcount. unfold App.route_page.
    destruct (App.pickup_list snap); [done|]. cbn in Hcount. lia.
Qed.

Lemma X12_stops_witness :
  ∃ snap, App.df_latest (App.generate_data clock_1315 (42 : Z)).1 = Some snap
    ∧ (2 ≤ length (App.pickup_list snap) ≤ 7)%nat
    ∧ App.route_page snap ≠ Standby.
Proof.
  destruct (X12_stops_of_a_generated_snapshot App.LOCATIONS clock_1315 (42 : Z))
    as (snap & Hs & Hc & Hr & _); [done|].
  exists snap. split; [exact Hs|]. split; [exact Hc|].
  apply Hr. apply (bool_decide_unpack _). vm_compute. exact I.
Defined.

(** ** The days of a generated history *)

Section Coverage.
Context {G R : Type} (ts : R → Z).
Implicit Types (body : Z → G → list R * G).

(** A run over a window of [n] whole hours has a row at each of its
    [n + 1] hours, when no sweep is empty. *)
Lemma hourly_covers body (n fuel : nat) t ed g :
  (∀ t' g', (body t' g').1 ≠ [] ∧ Forall (λ r, ts r = t') (body t' g').1) →
  t + Z.of_nat n * Datetime.HOUR = ed → (n < fuel)%nat →
  ∀ k : nat, (k ≤ n)%nat →
    Exists (λ r, ts r = t + Z.of_nat k * Datetime.HOUR) (hourly body fuel t ed g).1.
Proof.
  intros Hb. revert fuel t g.
  assert (0 < Datetime.HOUR) as HH by (unfold Datetime.HOUR; lia).
  induction n as [|n IH]; intros fuel t g Ht Hf k Hk;
    (destruct fuel as [|fuel]; [lia|]); cbn; rewrite decide_True by nia;
    destruct (Hb t g) as [Hne Hts]; destruct (body t g) as [rs g1];
    destruct (hourly body fuel _ ed g1) as [rest g2] eqn:Hrest; cbn in *.
  - assert (k = 0%nat) as -> by lia. apply Exists_app. left.
    destruct rs as [|r rs]; [done|]. left. inv Hts. lia.
  - destruct k as [|k].
    + apply Exists_app. left. destruct rs as [|r rs]; [done|]. left. inv Hts. lia.
    + apply Exists_app. right.
      pose proof (IH fuel (t + Datetime.timedelta_hours 1) g1
                    ltac:(unfold Datetime.timedelta_hours; lia) ltac:(lia) k ltac:(lia))
        as Hex.
      rewrite Hrest in Hex. cbn in Hex.
      eapply Exists_impl; [exact Hex|]. cbn. intros r ->.
      unfold Datetime.timedelta_hours. lia.
Qed.
End Coverage.

(** The calendar days met by the hours of a window of [n] days are the day
    of its start and the [n] days that follow. *)
Lemma dates_of_window (start : Z) (n : nat) (ts : list Z) :
  Forall (λ t, ∃ k : nat, t = start + Z.of_nat k * Datetime.HOUR
                          ∧ t ≤ start + Datetime.timedelta_days (Z.of_nat n)) ts →
  (∀ k : nat, (k ≤ 24 * n)%nat → start + Z.of_nat k * Datetime.HOUR ∈ ts) →
  group_keys (Datetime.date <$> ts)
  = (λ j : nat, Datetime.date start + Z.of_nat j) <$> seq 0 (S n).
Proof.
  intros Hin Hcov.
  apply (Sorted_unique Z.le).
  - apply StronglySorted_Sorted. unfold group_keys.
    apply StronglySorted_merge_sort; apply _.
  - apply StronglySorted_Sorted.
    generalize 0%nat. induction (S n) as [|m IH]; intros i; cbn; constructor.
    + apply IH.
    + apply Forall_fmap, Forall_forall. intros j Hj%elem_of_seq. cbn. lia.
  - apply NoDup_Permutation.
    + apply group_keys_NoDup.
    + apply NoDup_fmap_2; [intros i j; lia|]. apply NoDup_seq.
    + intros d. rewrite group_keys_elem_of, !list_elem_of_fmap. split.
      * intros (t & -> & Ht). rewrite Forall_forall in Hin.
        destruct (Hin t Ht) as (k & -> & Hle).
        exists (Z.to_nat (Datetime.date (start + Z.of_nat k * Datetime.HOUR)
                          - Datetime.date start)).
        revert Hle. unfold Datetime.date, Datetime.timedelta_days, Datetime.DAY, Datetime.HOUR.
        intros Hle. rewrite elem_of_seq. split.
        -- Z.div_mod_to_equations. lia.
        -- Z.div_mod_to_equations. lia.
      * intros (j & -> & Hj%elem_of_seq).
        exists (start + Z.of_nat (24 * j) * Datetime.HOUR). split.
        -- unfold Datetime.date, Datetime.DAY, Datetime.HOUR. Z.div_mod_to_equations. lia.
        -- apply Hcov. lia.
Qed.

(** ** A line through two days or more *)

Lemma Qc_of_Z_mult (a b : Z) : (Qc_of_Z a * Qc_of_Z b)%Qc = Qc_of_Z (a * b).
Proof.
  apply Qc_is_canon. cbn [this Qcmult Q2Qc].
  rewrite !Qred_correct. rewrite !Qc_of_Z_this. unfold Qeq. cbn. lia.
Qed.

Lemma Qc_of_Z_minus (a b : Z) : (Qc_of_Z a - Qc_of_Z b)%Qc = Qc_of_Z (a - b).
Proof.
  apply Qc_is_canon. unfold Qcminus, Qcopp. cbn [this Qcplus Q2Qc].
  rewrite !Qred_correct. rewrite !Qc_of_Z_this. unfold Qeq. cbn. lia.
Qed.

Lemma Qc_of_Z_inj (a b : Z) : Qc_of_Z a = Qc_of_Z b → a = b.
Proof. intros H. by rewrite <-(int_of_Z a), <-(int_of_Z b), H. Qed.

Lemma day_numbers_sums (n : nat) :
  ∃ s1 s2 : Z,
    Qc_sum (day_numbers n) = Qc_of_Z s1
    ∧ Qc_sum (zip_with Qcmult (day_numbers n) (day_numbers n)) = Qc_of_Z s2
    ∧ 2 * s1 = Z.of_nat n * (Z.of_nat n - 1)
    ∧ 6 * s2 = (Z.of_nat n - 1) * Z.of_nat n * (2 * Z.of_nat n - 1).
Proof.
  unfold day_numbers. induction n as [|n (s1 & s2 & H1 & H2 & E1 & E2)].
  - exists 0, 0. cbn. rewrite Qc_of_Z_0. repeat split; reflexivity.
  - exists (s1 + Z.of_nat n), (s2 + Z.of_nat n * Z.of_nat n).
    rewrite seq_S, fmap_app. cbn [fmap list_fmap "+"%nat].
    rewrite zip_with_app by done. cbn [zip_with].
    unfold Qc_sum in *. rewrite !foldl_app. cbn [foldl].
    rewrite H1, H2, Qc_of_Z_mult, !Qc_of_Z_plus. repeat split; nia.
Qed.

(** Through the totals of two days or more, numbered from zero, there is
    one line of least squares. *)
Lemma least_squares_day_numbers (ys : list Qc) :
  (2 ≤ length ys)%nat → is_Some (least_squares (day_numbers (length ys)) ys).
Proof.
  intros Hlen. unfold least_squares.
  destruct (day_numbers_sums (length ys)) as (s1 & s2 & -> & -> & E1 & E2).
  replace (length (day_numbers (length ys))) with (length ys)
    by (unfold day_numbers; by rewrite length_fmap, length_seq).
  rewrite !Qc_of_Z_mult, Qc_of_Z_minus, <-Qc_of_Z_0.
  case_decide as Hden; [|by eexists].
  apply Qc_of_Z_inj in Hden. exfalso.
  assert (12 * (Z.of_nat (length ys) * s2 - s1 * s1)
          = Z.of_nat (length ys) * Z.of_nat (length ys)
            * (Z.of_nat (length ys) - 1) * (Z.of_nat (length ys) + 1)) as H12 by nia.
  rewrite Hden in H12. nia.
Qed.

Section WindowDates.
Context {G R : Type} (ts : R → Z) (w : R → Qc).
Implicit Types (body : Z → G → list R * G).

(** The days of the daily totals of a run over [n] days: the day of the
    start and the [n] days after it. *)
Lemma window_days body (n fuel : nat) start ed g :
  (∀ t' g', (body t' g').1 ≠ [] ∧ Forall (λ r, ts r = t') (body t' g').1) →
  ed = start + Datetime.timedelta_days (Z.of_nat n) → (24 * n < fuel)%nat →
  (groupby Qc_sum ((λ r, (Datetime.date (ts r), w r)) <$> (hourly body fuel start ed g).1)).*1
  = (λ j : nat, Datetime.date start + Z.of_nat j) <$> seq 0 (S n).
Proof.
  intros Hb -> Hf. rewrite groupby_fst, <-list_fmap_compose.
  rewrite (list_fmap_compose ts Datetime.date).
  apply dates_of_window.
  - apply Forall_fmap.
    apply (hourly_timestamps ts body fuel start _ g). intros t' g'. apply Hb.
  - intros k Hk. apply list_elem_of_fmap.
    pose proof (hourly_covers ts body (24 * n) fuel start
                  (start + Datetime.timedelta_days (Z.of_nat n)) g Hb) as Hex.
    specialize (Hex ltac:(unfold Datetime.timedelta_days, Datetime.DAY, Datetime.HOUR; lia)
                    Hf k Hk).
    apply Exists_exists in Hex as (r & Hr & Hts). by exists r.
Qed.
End WindowDates.

(** X13: the daily totals of a generated history cover the day the window
    starts on and each day after it up to the day of the clock reading:
    eight calendar days for the seven-day window of app.py, [days + 1] for
    app2.py, whatever the hour of the clock reading, provided the table
    of stations is not empty.  The forecast of app.py, and that of app2.py
    when the window is one day or longer, is therefore always fitted, and
    its day index is the number of these days: 8 in app.py, [days + 1] in
    app2.py. *)
Theorem X13_days_of_a_generated_history {G : Type} `{!RandomSource G}
    (locs : list App.Location) (locs2 : list App2.Location)
    (days : Z) (now : Z) (g : G) :
  locs ≠ [] → locs2 ≠ [] → 1 ≤ days →
  let h := (App.generate_from locs now g).1 in
  let h2 := (App2.generate_from locs2 days now g).1 in
  (App.daily_df h).*1
    = (λ j : nat, Datetime.date (now - Datetime.timedelta_days 7) + Z.of_nat j) <$> seq 0 8
  ∧ (∃ f, App.predict h = Some f
          ∧ App.prediction_val f = (App.slope f * Qc_of_Z 8 + App.intercept f)%Qc)
  ∧ (App2.df_daily h2).*1
    = (λ j : nat, Datetime.date (now - Datetime.timedelta_days days) + Z.of_nat j)
        <$> seq 0 (S (Z.to_nat days))
  ∧ (∃ f, App2.predict_waste_generation h2 = Some f
          ∧ App2.prediction f = (App2.coef f * Qc_of_Z (days + 1) + App2.intercept f)%Qc).
Proof.
  intros Hne Hne2 Hdays h h2.
  assert ((App.daily_df h).*1
          = (λ j : nat, Datetime.date (now - Datetime.timedelta_days 7) + Z.of_nat j)
              <$> seq 0 8) as Hd.
  { unfold App.daily_df, h, App.generate_from.
    apply (window_days App.timestamp App.berat_kg _ 7 170); [|unfold Datetime.timedelta_days; lia|lia].
    intros t' g'. split; [|apply App_sweep_rows].
    intros Hnil. apply (f_equal length) in Hnil. rewrite for_each_length in Hnil.
    by destruct locs. }
  assert ((App2.df_daily h2).*1
          = (λ j : nat, Datetime.date (now - Datetime.timedelta_days days) + Z.of_nat j)
              <$> seq 0 (S (Z.to_nat days))) as Hd2.
  { unfold App2.df_daily, h2, App2.generate_from.
    apply (window_days App2.timestamp App2.berat_kg _ (Z.to_nat days)); [| |lia].
    - intros t' g'. split; [|apply App2_sweep_rows].
      intros Hnil. apply (f_equal length) in Hnil. rewrite for_each_length in Hnil.
      by destruct locs2.
    - rewrite Z2Nat.id by lia. unfold Datetime.timedelta_days; lia. }
  split; [exact Hd|]. split; [|split; [exact Hd2|]].
  - assert (length (App.daily_df h).*2 = 8%nat) as Hlen.
    { rewrite length_fmap, <-(length_fmap fst), Hd, length_fmap, length_seq. done. }
    unfold App.predict.
    destruct (least_squares_day_numbers (App.daily_df h).*2 ltac:(lia)) as [[m c] Hls].
    unfold day_numbers in Hls. rewrite Hls. cbn [mbind option_bind].
    destruct (last (App.daily_df h).*2) as [y_last|] eqn:Hlast.
    + cbn. eexists. split; [done|]. cbn. by rewrite Hlen.
    + apply last_None in Hlast. rewrite Hlast in Hlen. done.
  - assert (length (App2.df_daily h2).*2 = S (Z.to_nat days)) as Hlen.
    { rewrite length_fmap, <-(length_fmap fst), Hd2, length_fmap, length_seq. done. }
    unfold App2.predict_waste_generation, App2.linear_regression.
    destruct (least_squares_day_numbers (App2.df_daily h2).*2 ltac:(lia)) as [[m c] Hls].
    unfold day_numbers in Hls. rewrite Hls. cbn [mbind option_bind].
    destruct (last (App2.df_daily h2).*2) as [y_last|] eqn:Hlast.
    + cbn. eexists. split; [done|]. cbn. rewrite Hlen.
      by replace (Z.of_nat (S (Z.to_nat days))) with (days + 1) by lia.
    + apply last_None in Hlast. rewrite Hlast in Hlen. done.
Qed.

Lemma X13_days_witness :
  ∃ f, App.predict (App.generate_data (G:=Z) clock_1315 42).1 = Some f
       ∧ App.prediction_val f = (App.slope f * Qc_of_Z 8 + App.intercept f)%Qc.
Proof.
  exact (proj1 (proj2 (X13_days_of_a_generated_history (G:=Z)
                         App.LOCATIONS App2.tps_locations 7 clock_1315 42
                         ltac:(done) ltac:(done) ltac:(lia)))).
Defined.

(** ** The forecast of a single day *)


